(** * rid-kit: bias-script synthesis, selection and resubmission

    A shallow embedding of

    - [rid/common/plumed/make_plumed.py]  (CV resolution, the custom CV parser
      and the three script synthesizers),
    - [rid/op/run_select.py]              ([RunSelect.execute]: its selection
      block, and the whole method with its effects),
    - [rid/entrypoint/resubmit.py]        (the input files and CV files among
      the other files, and the choice of the steps to reuse),

    followed by the properties of these functions.

    Conventions.  A Python [str] is a [string]; its characters are code points
    below 256.  A function that may raise returns a [result]; the exception
    carries its message.  A [dict] whose iteration order matters is an
    association list in insertion order.  The format templates of
    [rid.common.plumed.plumed_constant], the helpers of [rid.utils] and of
    [rid.common.mol] and Python's own number formatting are not part of the
    sources at hand: they are parameters, collected in type classes. *)

From Stdlib Require Import ZArith String Ascii List Lia DecimalString.
From Stdlib Require Import Floats.PrimFloat Floats.SpecFloat Floats.FloatOps.
From stdpp Require Import base option list gmap strings.

Open Scope string_scope.
Open Scope list_scope.
Open Scope Z_scope.

(* ===================================================================== *)
(** * Exceptions and results *)
(* ===================================================================== *)

(** The exceptions the modelled code can raise, with their messages. *)
Inductive exn : Type :=
| RuntimeError (msg : string)
| AssertionError (msg : string)
| IndexError (msg : string)
| KeyError (key : string)
| TypeError (msg : string)
| ValueError (msg : string)
| UnboundLocalError (name : string)
| FileNotFoundError (path : string).

Inductive result (A : Type) : Type :=
| Ok (a : A)
| Raise (e : exn).

Arguments Ok {A} a.
Arguments Raise {A} e.

#[global] Instance result_ret : MRet result := fun A a => Ok a.
#[global] Instance result_bind : MBind result := fun A B f m =>
  match m with
  | Ok a => f a
  | Raise e => Raise e
  end.

Definition is_ok {A} (r : result A) : bool :=
  match r with Ok _ => true | Raise _ => false end.

(** [assert cond, msg] *)
Definition py_assert (cond : bool) (msg : string) : result unit :=
  if cond then Ok tt else Raise (AssertionError msg).

(** [l[i]] on a list, for a non-negative or negative index. *)
Definition py_index {A} (l : list A) (i : Z) : result A :=
  let n := Z.of_nat (length l) in
  let j := if i <? 0 then i + n else i in
  if (0 <=? j) && (j <? n) then
    match l !! Z.to_nat j with
    | Some a => Ok a
    | None => Raise (IndexError "list index out of range")
    end
  else Raise (IndexError "list index out of range").

(** [l[i] = v] on a list. *)
Definition py_setitem {A} (l : list A) (i : Z) (v : A) : result (list A) :=
  let n := Z.of_nat (length l) in
  let j := if i <? 0 then i + n else i in
  if (0 <=? j) && (j <? n) then Ok (<[Z.to_nat j := v]> l)
  else Raise (IndexError "list assignment index out of range").

(* ===================================================================== *)
(** * Python string operations *)
(* ===================================================================== *)

Module PyStr.

Definition newline : string := String (ascii_of_nat 10) "".

(** [str.isspace] on one character (code points below 256): TAB, LF, VT, FF,
    CR, the separators FS, GS, RS, US, the space, NEL and the no-break space. *)
Definition is_space (c : ascii) : bool :=
  let n := nat_of_ascii c in
  (((9 <=? n) && (n <=? 13)) || ((28 <=? n) && (n <=? 32))
   || (n =? 133) || (n =? 160))%nat.

(** [sub in s] *)
Fixpoint contains (sub s : string) : bool :=
  String.prefix sub s ||
  match s with
  | EmptyString => false
  | String _ s' => contains sub s'
  end.

(** [s.split(sep)] for a non-empty [sep]; [skip] counts the characters of a
    separator found earlier that are still to be passed over. *)
Fixpoint split_aux (sep : string) (skip : nat) (s : string) : list string :=
  match s with
  | EmptyString => [""]
  | String c s' =>
      match skip with
      | S k => split_aux sep k s'
      | O =>
          if String.prefix sep s
          then "" :: split_aux sep (String.length sep - 1) s'
          else match split_aux sep 0 s' with
               | p :: ps => String c p :: ps
               | [] => [String c ""]
               end
      end
  end.

Definition split (sep s : string) : list string := split_aux sep 0 s.

Fixpoint lstrip (s : string) : string :=
  match s with
  | EmptyString => ""
  | String c s' => if is_space c then lstrip s' else s
  end.

Fixpoint rstrip (s : string) : string :=
  match s with
  | EmptyString => ""
  | String c s' =>
      match rstrip s' with
      | EmptyString => if is_space c then "" else String c ""
      | r => String c r
      end
  end.

(** [s.strip()] *)
Definition strip (s : string) : string := lstrip (rstrip s).

(** [s.split()]: the maximal runs of characters that are not white space. *)
Fixpoint split_ws (s : string) : list string :=
  match s with
  | EmptyString => []
  | String c s' =>
      if is_space c then split_ws s'
      else match s' with
           | EmptyString => [String c ""]
           | String c' _ =>
               if is_space c' then String c "" :: split_ws s'
               else match split_ws s' with
                    | t :: ts => String c t :: ts
                    | [] => [String c ""]
                    end
           end
  end.

(** [sep.join(l)] *)
Fixpoint join (sep : string) (l : list string) : string :=
  match l with
  | [] => ""
  | [x] => x
  | x :: l' => x +:+ sep +:+ join sep l'
  end.

(** [fp.readlines()]: every line keeps its newline; the last line may lack one. *)
Fixpoint readlines (s : string) : list string :=
  match s with
  | EmptyString => []
  | String c s' =>
      if Ascii.eqb c (ascii_of_nat 10) then String c "" :: readlines s'
      else match readlines s' with
           | [] => [String c ""]
           | l :: ls => String c l :: ls
           end
  end.

(** [str(n)] for an [int]. *)
Definition of_Z (z : Z) : string := NilZero.string_of_int (Z.to_int z).
Definition of_nat (n : nat) : string := NilZero.string_of_uint (Nat.to_uint n).

End PyStr.

(* ===================================================================== *)
(** * Python values and the parameters of the model *)
(* ===================================================================== *)

(** A Python number: [int] or [float]. *)
Inductive pynum : Type :=
| PyInt (z : Z)
| PyFloat (f : float).

(** The values that reach a format template or [list_to_string]. *)
Inductive pyval : Type :=
| VNone
| VNum (n : pynum)
| VStr (s : string).

(** [kappa] and [at] of [make_restraint_plumed]: one number, or a sequence. *)
Inductive scalar_or_seq : Type :=
| Scalar (n : pynum)
| Seq (l : list pyval).

(** [dihedral_info]: residue id -> (angle name -> atom ids), in insertion order. *)
Definition dihedral_info : Type := list (Z * list (string * list Z)).

(** [distance_info]: "id1 id2" -> value, in insertion order. *)
Definition distance_info : Type := list (string * pyval).

(** [rid.common.plumed.plumed_constant]: every field is [template.format(...)]
    of the template of that name, as a function of the keyword arguments the
    code passes. *)
Class PlumedConstant : Type := {
  dihedral_name : Z -> Z -> string;
  distance_name : Z -> Z -> string;
  dihedral_def_from_atoms : string -> Z -> Z -> Z -> Z -> string;
  distance_def_from_atoms : string -> string -> string -> string;
  deepfe_def : float -> float -> string -> string -> string;
  print_def : Z -> string -> string -> string;
  restraint_def : string -> string -> pyval -> pyval -> string
}.

(** [rid.utils], [rid.common.mol] and the built-in [int]. *)
Class RidLib : Type := {
  list_to_string : list pyval -> string -> string;
  get_dihedral_from_resid : option string -> option (list Z) -> dihedral_info;
  get_distance_from_atomid : option string -> option (list Z) -> distance_info;
  py_int : string -> option Z
}.

(** The files [open] can read: path -> text, as a reader in text mode delivers
    it (line ends already translated to LF). *)
Abbreviation filesystem := (gmap string string).

(* ===================================================================== *)
(** * rid/common/plumed/make_plumed.py *)
(* ===================================================================== *)

Module MakePlumed.
Import PyStr.

Section Plumed.
Context `{PC : PlumedConstant} `{RL : RidLib}.

Definition angle_id (ang : string) : result Z :=
  if String.eqb ang "phi" then Ok 0
  else if String.eqb ang "psi" then Ok 1
  else Raise (KeyError ang).

Definition make_restraint (name arg : string) (kappa at_ : pyval) : string :=
  restraint_def name arg kappa at_.

(** The loop of [make_restraint_list] over [enumerate(cv_list)], from index
    [idx] on; [acc] is [(res_list, res_names)]. *)
Fixpoint restraint_loop (idx : nat) (cv_list : list string)
    (kappa at_ : list pyval) (acc : list string * list string)
  : result (list string * list string) :=
  match cv_list with
  | [] => Ok acc
  | cv_print :: rest =>
      let res_name := "res-" +:+ cv_print in
      let res_names := acc.2 ++ [res_name] in
      k ← py_index kappa (Z.of_nat idx);
      a ← py_index at_ (Z.of_nat idx);
      let res_list := acc.1 ++ [make_restraint res_name cv_print k a] in
      restraint_loop (S idx) rest kappa at_ (res_list, res_names)
  end.

Definition make_restraint_list (cv_list : list string) (kappa at_ : list pyval)
  : result (list string * list string) :=
  _ ← py_assert (length cv_list =? length kappa)%nat
        "Make sure `kappa` and `cv_names` have the same length.";
  _ ← py_assert (length cv_list =? length at_)%nat
        "Make sure `at` and `cv_names` have the same length.";
  restraint_loop 0 cv_list kappa at_ ([], []).

Definition make_deepfe_bias (cv_list : list string) (trust_lvl_1 trust_lvl_2 : float)
    (model_list : list string) : string :=
  if (length model_list =? 0)%nat then ""
  else
    let cv_string := list_to_string (VStr <$> cv_list) "," in
    let model_string := list_to_string (VStr <$> model_list) "," in
    deepfe_def trust_lvl_1 trust_lvl_2 model_string cv_string.

Definition make_print (name_list : list string) (stride : Z) (file_name : string)
  : string :=
  print_def stride (list_to_string (VStr <$> name_list) ",") file_name.

Definition make_wholemolecules (atom_index : list Z) : string :=
  let arg_list := list_to_string ((fun a => VNum (PyInt a)) <$> atom_index) "," in
  "WHOLEMOLECULES" +:+ " " +:+ "ENTITY0=" +:+ arg_list +:+ newline.

(** ** The custom CV parser *)

(** The local variables of [user_plumed_def] that the loop updates. *)
Record scan_state : Type := ScanState {
  ret : string;
  cv_names : list string;
  ispath : bool
}.

Definition is_print_line (line : string) : bool :=
  contains "PRINT" line && negb (contains "#" line).

(** The body of [if method == "restrained":] for one line. *)
Definition restrained_line (line : string) (st : scan_state) : result scan_state :=
  if contains ":" line && negb (contains "#" line) then
    field ← py_index (split ":" line) 1;
    cv_type ← py_index (split " " (strip field)) 0;
    if negb (String.eqb cv_type "PATH") && negb (ispath st) then
      label ← py_index (split ":" line) 0;
      Ok (ScanState (ret st) (cv_names st ++ [strip label]) (ispath st))
    else if String.eqb cv_type "PATH" then
      label ← py_index (split ":" line) 0;
      let names := [] ++ [strip (label +:+ ".spath")] in
      label' ← py_index (split ":" line) 0;
      Ok (ScanState (ret st) (names ++ [strip (label' +:+ ".zpath")]) true)
    else Ok st
  else if contains "LABEL" line && negb (contains "#" line) then
    field ← py_index (split "LABEL=" line) 0;
    cv_type ← py_index (split " " (strip field)) 0;
    if negb (String.eqb cv_type "PATH") && negb (ispath st) then
      label ← py_index (split "LABEL=" line) 1;
      Ok (ScanState (ret st) (cv_names st ++ [strip label]) (ispath st))
    else if String.eqb cv_type "PATH" then
      label ← py_index (split "LABEL=" line) 1;
      let names := [] ++ [strip label +:+ ".spath"] in
      label' ← py_index (split "LABEL=" line) 1;
      Ok (ScanState (ret st) (names ++ [strip label' +:+ ".zpath"]) true)
    else Ok st
  else Ok st.

(** The [for line in fp.readlines()] loop; the second component is
    [print_content] ([None] when the loop ends without [break]). *)
Fixpoint scan_lines (method : string) (lines : list string) (st : scan_state)
  : result (scan_state * option string) :=
  match lines with
  | [] => Ok (st, None)
  | line :: rest =>
      if is_print_line line then Ok (st, Some (line +:+ newline))
      else
        let st := ScanState (ret st +:+ line) (cv_names st) (ispath st) in
        if String.eqb method "restrained" then
          st' ← restrained_line line st;
          scan_lines method rest st'
        else if String.eqb method "constrained" then
          scan_lines method rest (ScanState (ret st) [] (ispath st))
        else scan_lines method rest st
  end.

(** The rewriting of the stride and file fields of the monitoring directive. *)
Definition rewrite_print (print_content : string) (pstride : Z) (pfile : string)
  : result string :=
  let print_content_list := split_ws print_content in
  l1 ← py_setitem print_content_list (-1) ("FILE=" +:+ pfile);
  l2 ← py_setitem l1 1 ("STRIDE=" +:+ of_Z pstride);
  Ok (join " " l2).

Definition print_cv_mismatch_msg (n_cv n_print : nat) : string :=
  "There are " +:+ of_nat n_cv +:+ " CVs defined in the plumed file, while "
  +:+ of_nat n_print +:+ " CVs are printed.".

(** [user_plumed_def] after [fp.readlines()]. *)
Definition user_plumed_def_lines (lines : list string) (pstride : Z)
    (pfile method : string) : result (string * list string * option string) :=
  '(st, print_content) ← scan_lines method lines (ScanState "" [] false);
  if String.eqb (ret st) "" && (length (cv_names st) =? 0)%nat then
    Raise (RuntimeError "Invalid customed plumed files.")
  else
    match print_content with
    | Some pc =>
        if String.eqb method "restrained" then
          _ ← py_assert (length (split "," pc) =? length (cv_names st))%nat
                (print_cv_mismatch_msg (length (cv_names st)) (length (split "," pc)));
          pc' ← rewrite_print pc pstride pfile;
          Ok (ret st, cv_names st, Some pc')
        else if String.eqb method "constrained" then
          pc' ← rewrite_print pc pstride pfile;
          Ok (ret st, cv_names st, Some pc')
        else Ok (ret st, cv_names st, Some pc)
    | None => Ok (ret st, cv_names st, None)
    end.

Definition user_plumed_def (fs : filesystem) (cv_file : string) (pstride : Z)
    (pfile method : string) : result (string * list string * option string) :=
  match fs !! cv_file with
  | None => Raise (FileNotFoundError cv_file)
  | Some text => user_plumed_def_lines (readlines text) pstride pfile method
  end.

(** ** The CV resolver *)

Definition make_torsion (name : string) (atom_list : list Z) : result string :=
  _ ← py_assert (length atom_list =? 4)%nat
        ("Make sure dihedral angle defined by 4 atoms, not "
         +:+ of_nat (length atom_list) +:+ ".");
  a1 ← py_index atom_list 0;
  a2 ← py_index atom_list 1;
  a3 ← py_index atom_list 2;
  a4 ← py_index atom_list 3;
  Ok (dihedral_def_from_atoms name a1 a2 a3 a4).

Definition make_distance (name : string) (atom_list : list string) : result string :=
  _ ← py_assert (length atom_list =? 2)%nat
        ("Make sure distance defined by 2 atoms, not "
         +:+ of_nat (length atom_list) +:+ ".");
  a1 ← py_index atom_list 0;
  a2 ← py_index atom_list 1;
  Ok (distance_def_from_atoms name a1 a2).

Definition make_torsion_name (resid angid : Z) : string :=
  dihedral_name resid angid.

(** [int(s)] on a string. *)
Definition int_of_str (s : string) : result Z :=
  match py_int s with
  | Some z => Ok z
  | None => Raise (ValueError ("invalid literal for int() with base 10: " +:+ s))
  end.

Definition make_distance_name (atomids : list string) : result string :=
  s1 ← py_index atomids 0;
  atomid1 ← int_of_str s1;
  s2 ← py_index atomids 1;
  atomid2 ← int_of_str s2;
  Ok (distance_name atomid1 atomid2).

(** The inner loop of [make_torsion_list], over the angles of one residue;
    [acc] is [(torsion_list, torsion_name_list)]. *)
Fixpoint torsion_angle_loop (resid : Z) (angs : list (string * list Z))
    (acc : list string * list string) : result (list string * list string) :=
  match angs with
  | [] => Ok acc
  | (ang, atoms) :: rest =>
      angid ← angle_id ang;
      let torsion_name := make_torsion_name resid angid in
      let torsion_name_list := acc.2 ++ [torsion_name] in
      t ← make_torsion torsion_name atoms;
      torsion_angle_loop resid rest (acc.1 ++ [t], torsion_name_list)
  end.

Fixpoint torsion_resid_loop (info : dihedral_info)
    (acc : list string * list string) : result (list string * list string) :=
  match info with
  | [] => Ok acc
  | (resid, angs) :: rest =>
      acc' ← torsion_angle_loop resid angs acc;
      torsion_resid_loop rest acc'
  end.

Definition make_torsion_list (info : dihedral_info)
  : result (list string * list string) :=
  torsion_resid_loop info ([], []).

Fixpoint distance_loop (info : distance_info)
    (acc : list string * list string) : result (list string * list string) :=
  match info with
  | [] => Ok acc
  | (atomids, _) :: rest =>
      let atom_list := split " " atomids in
      distance_name ← make_distance_name atom_list;
      let distance_name_list := acc.2 ++ [distance_name] in
      d ← make_distance distance_name atom_list;
      distance_loop rest (acc.1 ++ [d], distance_name_list)
  end.

Definition make_distance_list (info : distance_info)
  : result (list string * list string) :=
  distance_loop info ([], []).

Definition make_torsion_list_from_file (file_path : option string)
    (selected_resid : option (list Z)) : result (list string * list string) :=
  let cv_info := get_dihedral_from_resid file_path selected_resid in
  _ ← py_assert (0 <? length cv_info)%nat "No valid CVs created.";
  make_torsion_list cv_info.

Definition make_distance_list_from_file (file_path : option string)
    (selected_atomid : option (list Z)) : result (list string * list string) :=
  let cv_info := get_distance_from_atomid file_path selected_atomid in
  _ ← py_assert (0 <? length cv_info)%nat "No valid CVs created.";
  make_distance_list cv_info.

(** ** The synthesizers *)

Definition unknown_mode : exn :=
  RuntimeError "Unknown mode for making plumed files.".

(** [cv_file[0]] for [cv_file : Optional[List[str]]]. *)
Definition first_cv_file (cv_file : option (list string)) : result string :=
  match cv_file with
  | None => Raise (TypeError "'NoneType' object is not subscriptable")
  | Some l => py_index l 0
  end.

(** The list comprehension [[kappa for _ in range(n)]], applied when [kappa]
    is an [int] or a [float]. *)
Definition broadcast (x : scalar_or_seq) (n : nat) : list pyval :=
  match x with
  | Scalar k => replicate n (VNum k)
  | Seq l => l
  end.

(** Lines 250-259 of [make_restraint_plumed]: [content_list] and
    [cv_name_list] for the mode. *)
Definition restraint_cv_block (fs : filesystem)
    (conf : option string) (cv_file : option (list string))
    (selected_resid : option (list Z))
    (stride : Z) (output mode method : string)
  : result (list pyval * list string) :=
  if String.eqb mode "torsion" then
    '(cv_content_list, cv_name_list) ←
      make_torsion_list_from_file conf selected_resid;
    Ok ([] ++ (VStr <$> cv_content_list), cv_name_list)
  else if String.eqb mode "custom" then
    f ← first_cv_file cv_file;
    '(r, cv_name_list, _) ← user_plumed_def fs f stride output method;
    Ok ([] ++ [VStr r], cv_name_list)
  else Raise unknown_mode.

(** Lines 261-269: the broadcast of [kappa] and [at], the restraint clauses
    and the monitoring clause. *)
Definition restraint_clause_block (content_list : list pyval)
    (cv_name_list : list string) (kappa at_ : scalar_or_seq)
    (stride : Z) (output : string) : result (list pyval) :=
  let kappa := broadcast kappa (length cv_name_list) in
  let at_ := broadcast at_ (length cv_name_list) in
  '(res_list, _) ← make_restraint_list cv_name_list kappa at_;
  let content_list := content_list ++ (VStr <$> res_list) in
  Ok (content_list ++ [VStr (make_print cv_name_list stride output)]).

(** [content_list] of [make_restraint_plumed], before the final join. *)
Definition make_restraint_plumed_content (fs : filesystem)
    (conf : option string) (cv_file : option (list string))
    (selected_resid : option (list Z)) (kappa at_ : scalar_or_seq)
    (stride : Z) (output mode method : string) : result (list pyval) :=
  '(content_list, cv_name_list) ←
    restraint_cv_block fs conf cv_file selected_resid stride output mode method;
  restraint_clause_block content_list cv_name_list kappa at_ stride output.

Definition make_restraint_plumed (fs : filesystem)
    (conf : option string) (cv_file : option (list string))
    (selected_resid : option (list Z)) (kappa at_ : scalar_or_seq)
    (stride : Z) (output mode method : string) : result string :=
  content_list ← make_restraint_plumed_content fs conf cv_file selected_resid
                   kappa at_ stride output mode method;
  Ok (list_to_string content_list newline).

(** [content_list] of [make_constraint_plumed].  [print_content] is bound in
    the custom branch only. *)
Definition make_constraint_plumed_content (fs : filesystem)
    (conf : option string) (cv_file : option (list string))
    (selected_atomid : option (list Z))
    (stride : Z) (output mode method : string) : result (list pyval) :=
  '(content_list, cv_name_list, print_content) ←
    (if String.eqb mode "distance" then
       '(cv_content_list, cv_name_list) ←
         make_distance_list_from_file conf selected_atomid;
       Ok ([] ++ (VStr <$> cv_content_list), cv_name_list, None)
     else if String.eqb mode "custom" then
       f ← first_cv_file cv_file;
       '(r, cv_name_list, print_content) ← user_plumed_def fs f stride output method;
       Ok ([] ++ [VStr r], cv_name_list, Some print_content)
     else Raise unknown_mode);
  if (length cv_name_list =? 0)%nat then
    match print_content with
    | None => Raise (UnboundLocalError "print_content")
    | Some None => Ok (content_list ++ [VNone])
    | Some (Some pc) => Ok (content_list ++ [VStr pc])
    end
  else Ok (content_list ++ [VStr (make_print cv_name_list stride output)]).

Definition make_constraint_plumed (fs : filesystem)
    (conf : option string) (cv_file : option (list string))
    (selected_atomid : option (list Z))
    (stride : Z) (output mode method : string) : result string :=
  content_list ← make_constraint_plumed_content fs conf cv_file selected_atomid
                   stride output mode method;
  Ok (list_to_string content_list newline).

(** The call [user_plumed_def(cv_file[0], stride, output)] of
    [make_deepfe_plumed] and [get_cv_name]: three positional arguments for the
    four required parameters [(cv_file, pstride, pfile, method)].  Python binds
    the arguments before the body runs and raises. *)
Definition user_plumed_def_3 (fs : filesystem) (cv_file : string) (pstride : Z)
    (pfile : string) : result (string * list string * option string) :=
  Raise (TypeError
    "user_plumed_def() missing 1 required positional argument: 'method'").

Definition make_deepfe_plumed_content (fs : filesystem)
    (conf : option string) (cv_file : option (list string))
    (selected_resid selected_atomid : option (list Z))
    (trust_lvl_1 trust_lvl_2 : float) (model_list : list string)
    (stride : Z) (output mode : string) : result (list pyval) :=
  '(content_list, cv_name_list) ←
    (if String.eqb mode "torsion" then
       '(cv_content_list, cv_name_list) ←
         make_torsion_list_from_file conf selected_resid;
       Ok ([] ++ (VStr <$> cv_content_list), cv_name_list)
     else if String.eqb mode "distance" then
       '(cv_content_list, cv_name_list) ←
         make_distance_list_from_file conf selected_atomid;
       Ok ([] ++ (VStr <$> cv_content_list), cv_name_list)
     else if String.eqb mode "custom" then
       f ← first_cv_file cv_file;
       '(r, cv_name_list, _) ← user_plumed_def_3 fs f stride output;
       Ok ([] ++ [VStr r], cv_name_list)
     else Raise unknown_mode);
  let deepfe_string :=
    make_deepfe_bias cv_name_list trust_lvl_1 trust_lvl_2 model_list in
  let content_list := content_list ++ [VStr deepfe_string] in
  Ok (content_list ++ [VStr (make_print cv_name_list stride output)]).

Definition make_deepfe_plumed (fs : filesystem)
    (conf : option string) (cv_file : option (list string))
    (selected_resid selected_atomid : option (list Z))
    (trust_lvl_1 trust_lvl_2 : float) (model_list : list string)
    (stride : Z) (output mode : string) : result string :=
  content_list ← make_deepfe_plumed_content fs conf cv_file selected_resid
                   selected_atomid trust_lvl_1 trust_lvl_2 model_list
                   stride output mode;
  Ok (list_to_string content_list newline).

Definition get_cv_name (fs : filesystem)
    (conf : option string) (cv_file : option (list string))
    (selected_resid selected_atomid : option (list Z))
    (stride : Z) (mode : string) : result (list string) :=
  if String.eqb mode "torsion" then
    '(_, cv_name_list) ← make_torsion_list_from_file conf selected_resid;
    Ok cv_name_list
  else if String.eqb mode "distance" then
    '(_, cv_name_list) ← make_distance_list_from_file conf selected_atomid;
    Ok cv_name_list
  else if String.eqb mode "custom" then
    f ← first_cv_file cv_file;
    '(_, cv_name_list, _) ← user_plumed_def_3 fs f stride "test.out";
    Ok cv_name_list
  else Raise unknown_mode.

End Plumed.

(** The default arguments of the entry points. *)
Definition default_kappa : scalar_or_seq := Scalar (PyFloat 0.5).
Definition default_at : scalar_or_seq := Scalar (PyFloat 1.0).
Definition default_stride : Z := 100.
Definition default_output : string := "plm.out".

End MakePlumed.

(* ===================================================================== *)
(** * rid/op/run_select.py: the selection block of [RunSelect.execute] *)
(* ===================================================================== *)

Module RunSelect.

Section Select.
(** Entries of [cluster_selection_index], rows of [cluster_selection_data],
    and the deviations [make_std] returns. *)
Context {Idx Data Std : Type}.
(** [rid.constants] *)
Variables (model_devi_name sel_ndx_name : string).
(** [rid.select.model_devi.make_std], [rid.select.conf_select.select_from_devi] *)
Variable make_std : list Data -> list string -> list Std.
Variable select_from_devi : list Std -> float -> list Z.

(** What [save_txt] is given to write. *)
Inductive saved : Type :=
| SavedDevi (stds : list Std)
| SavedIdx (idx : list Idx).

(** The calls of [save_txt] made so far in the task directory, oldest first. *)
Definition write_log : Type := list (string * saved).

Definition save_txt (fname : string) (data : saved) (log : write_log) : write_log :=
  log ++ [(fname, data)].

(** The exception numpy raises for the index [i] on an array of [n] entries. *)
Definition out_of_bounds (i : Z) (n : nat) : exn :=
  IndexError ("index " +:+ PyStr.of_Z i +:+ " is out of bounds for axis 0 with size "
              +:+ PyStr.of_nat n).

(** [a[i]] for one integer [i] on an array: a negative index counts from the
    end, and an index outside [-n, n) raises [IndexError]. *)
Definition np_index {A} (a : list A) (i : Z) : result A :=
  let n := Z.of_nat (length a) in
  let j := if i <? 0 then i + n else i in
  match (if (0 <=? j) && (j <? n) then a !! Z.to_nat j else None) with
  | Some x => Ok x
  | None => Raise (out_of_bounds i (length a))
  end.

(** [a[idx]] for an integer index array [idx]: the entries are taken in the
    order of [idx], and the first index out of bounds is the one reported. *)
Fixpoint np_take {A} (a : list A) (idx : list Z) : result (list A) :=
  match idx with
  | [] => Ok []
  | i :: rest =>
      x ← np_index a i;
      xs ← np_take a rest;
      Ok (x :: xs)
  end.

(** [np.array([ii for ii in range(n)], dtype=int)] *)
Definition arange (n : nat) : list Z := Z.of_nat <$> seq 0 n.

(** Lines 102-110: the deviation record, [_selected_idx], [sel_idx] and the
    index record.  Returns [(log, _selected_idx, sel_idx)]. *)
Definition select_indices (models : option (list string)) (trust_lvl_1 : float)
    (cls_sel_idx : list Idx) (cls_sel_data : list Data) (log : write_log)
  : result (write_log * list Z * list Idx) :=
  let '(log, _selected_idx) :=
    match models with
    | None =>
        (save_txt ("cls_" +:+ model_devi_name) (SavedDevi []) log,
         arange (length cls_sel_idx))
    | Some ms =>
        let stds := make_std cls_sel_data ms in
        (save_txt ("cls_" +:+ model_devi_name) (SavedDevi stds) log,
         select_from_devi stds trust_lvl_1)
    end in
  sel_idx ← np_take cls_sel_idx _selected_idx;
  let log := save_txt sel_ndx_name (SavedIdx sel_idx) log in
  Ok (log, _selected_idx, sel_idx).

(** Lines 102-111: the same, followed by [sel_data]. *)
Definition select_block (models : option (list string)) (trust_lvl_1 : float)
    (cls_sel_idx : list Idx) (cls_sel_data : list Data) (log : write_log)
  : result (write_log * list Idx * list Data) :=
  '(log, _selected_idx, sel_idx) ←
    select_indices models trust_lvl_1 cls_sel_idx cls_sel_data log;
  sel_data ← np_take cls_sel_data _selected_idx;
  Ok (log, sel_idx, sel_data).

End Select.
End RunSelect.

(** ** [RunSelect.execute], with its effects *)

Module RunSelectExec.
Import RunSelect.

(** [task_path.joinpath(name)] *)
Inductive path : Type := JoinPath (dir name : string).

(** [selected_idx] of [slice_xtc]: a time, or frame indices. *)
Inductive slice_selection : Type :=
| AtTime (t : float)
| AtFrames (idx : list Z).

Section Execute.
(** Rows of [cluster_selection_data], and the deviations of [make_std]. *)
Context {Data Std : Type}.
(** [rid.constants]: the names, and [template.format(walker=w, idx=i)] for the
    three templates. *)
Variables (model_devi_name sel_ndx_name sel_gro_name sel_lmp_name : string).
Variables (format_gro format_lmp format_cv_init : Z -> Z -> string).
Variable make_std : list Data -> list string -> list Std.
Variable select_from_devi : list Std -> float -> list Z.
(** The built-in [int] on a string. *)
Variable py_int : string -> option Z.
(** The product [sel * dt * output_freq]. *)
Variable frame_time : Z -> float -> float -> float.

(** What the operator does to the outside, in order. *)
Inductive event : Type :=
| Mkdir (dir : string)
| SaveTxt (fname : string) (data : saved (Idx := Z) (Std := Std))
| SaveRow (fname : string) (row : Data)
| SliceXtc (xtc top : string) (walker_idx : Z) (selected : slice_selection)
    (output style : string)
| SliceDump (dump : string) (walker_idx : Z) (selected_idx : list Z)
    (output style : string).

(** A computation that adds events to those made so far and returns or
    raises; the events made before an exception stay. *)
Definition exec (A : Type) : Type := list event -> list event * result A.

#[local] Instance exec_ret : MRet exec := fun A a log => (log, Ok a).
#[local] Instance exec_bind : MBind exec := fun A B f m log =>
  match m log with
  | (log', Ok a) => f a log'
  | (log', Raise e) => (log', Raise e)
  end.

Definition emit (e : event) : exec unit := fun log => (log ++ [e], Ok tt).
Definition lift {A} (r : result A) : exec A := fun log => (log, r).

Record op_out : Type := OpOut {
  selected_confs : list path;
  selected_cv_init : list path;
  model_devi : path;
  selected_indices : path;
  selected_conf_tags : gmap string string
}.

(** The loop of the [gmx] style: one call of [slice_xtc] per selected index;
    the product raises [TypeError] when [output_freq] is [None]. *)
Fixpoint slice_gmx_loop (xtc top : string) (walker_idx : Z) (dt : float)
    (output_freq : option float) (sel_idx : list Z) : exec unit :=
  match sel_idx with
  | [] => mret tt
  | sel :: rest =>
      time ← lift (match output_freq with
                   | Some f => Ok (frame_time sel dt f)
                   | None => Raise (TypeError "unsupported operand type(s) for *")
                   end);
      _ ← emit (SliceXtc xtc top walker_idx (AtTime time)
                  (format_gro walker_idx sel) "gmx");
      slice_gmx_loop xtc top walker_idx dt output_freq rest
  end.

(** Lines 112-124. *)
Definition slice (xtc top : string) (walker_idx : Z) (dt output_freq : option float)
    (slice_mode : string) (sel_idx : list Z) : exec unit :=
  if String.eqb slice_mode "gmx" then
    match dt with
    | None =>
        lift (Raise (AssertionError "Please provide time step to slice trajectory."))
    | Some dt => slice_gmx_loop xtc top walker_idx dt output_freq sel_idx
    end
  else if String.eqb slice_mode "mdtraj" then
    emit (SliceXtc xtc top walker_idx (AtFrames sel_idx) sel_gro_name "mdtraj")
  else if String.eqb slice_mode "dpdata" then
    emit (SliceDump xtc walker_idx sel_idx sel_lmp_name "dpdata")
  else lift (Raise (RuntimeError "Unknown Style for Slicing Trajectory.")).

(** The loop of lines 128-136 over [enumerate(sel_idx)], from index [ii];
    [acc] is [(conf_list, cv_init_list, conf_tags)]. *)
Fixpoint collect_loop (task_name : string) (walker_idx : Z) (slice_mode : string)
    (sel_data : list Data) (ii : nat) (sel_idx : list Z)
    (acc : list path * list path * gmap string string)
  : exec (list path * list path * gmap string string) :=
  match sel_idx with
  | [] => mret acc
  | sel :: rest =>
      let '(conf_list, cv_init_list, conf_tags) := acc in
      let tag := task_name +:+ "_" +:+ PyStr.of_Z sel in
      let '(conf_list, conf_tags) :=
        if String.eqb slice_mode "dpdata" then
          (conf_list ++ [JoinPath task_name (format_lmp walker_idx sel)],
           <[format_lmp walker_idx sel := tag]> conf_tags)
        else if String.eqb slice_mode "gmx" || String.eqb slice_mode "mdtraj" then
          (conf_list ++ [JoinPath task_name (format_gro walker_idx sel)],
           <[format_gro walker_idx sel := tag]> conf_tags)
        else (conf_list, conf_tags) in
      row ← lift (np_index sel_data (Z.of_nat ii));
      _ ← emit (SaveRow (format_cv_init walker_idx sel) row);
      collect_loop task_name walker_idx slice_mode sel_data (S ii) rest
        (conf_list,
         cv_init_list ++ [JoinPath task_name (format_cv_init walker_idx sel)],
         conf_tags)
  end.

(** [execute], from the two arrays [np.load] returns. *)
Definition execute (task_name : string) (cls_sel_idx : list Z)
    (cls_sel_data : list Data) (models : option (list string))
    (trust_lvl_1 : float) (xtc_traj topology : string)
    (dt output_freq : option float) (slice_mode : string) : exec op_out :=
  _ ← emit (Mkdir task_name);
  walker_idx ← lift (match py_int task_name with
                     | Some w => Ok w
                     | None => Raise (ValueError
                         ("invalid literal for int() with base 10: " +:+ task_name))
                     end);
  _selected_idx ←
    match models with
    | None =>
        _ ← emit (SaveTxt ("cls_" +:+ model_devi_name) (SavedDevi []));
        mret (arange (length cls_sel_idx))
    | Some ms =>
        let stds := make_std cls_sel_data ms in
        _ ← emit (SaveTxt ("cls_" +:+ model_devi_name) (SavedDevi stds));
        mret (select_from_devi stds trust_lvl_1)
    end;
  sel_idx ← lift (np_take cls_sel_idx _selected_idx);
  _ ← emit (SaveTxt sel_ndx_name (SavedIdx sel_idx));
  sel_data ← lift (np_take cls_sel_data _selected_idx);
  _ ← slice xtc_traj topology walker_idx dt output_freq slice_mode sel_idx;
  '(conf_list, cv_init_list, conf_tags) ←
    collect_loop task_name walker_idx slice_mode sel_data 0 sel_idx ([], [], ∅);
  mret (OpOut conf_list cv_init_list
          (JoinPath task_name ("cls_" +:+ model_devi_name))
          (JoinPath task_name sel_ndx_name)
          conf_tags).

End Execute.
End RunSelectExec.

(* ===================================================================== *)
(** * rid/entrypoint/resubmit.py: the steps handed to [reuse_step] *)
(* ===================================================================== *)

Module Resubmit.

(** The fields of a queried step that [resubmit_rid] reads; a step without a
    key has [step_key = None]. *)
Record step : Type := Step {
  step_type : string;
  step_phase : string;
  step_key : option string
}.

(** [step["key"] != name] *)
Definition key_differs (s : step) (name : string) : bool :=
  match step_key s with
  | Some k => negb (String.eqb k name)
  | None => true
  end.

(** The loop that fills [succeeded_steps], the value of [reuse_step]. *)
Definition succeeded_steps (all_steps : list step) : list step :=
  fold_left
    (fun acc s =>
       if String.eqb (step_type s) "Pod" then
         if String.eqb (step_phase s) "Succeeded" then
           if key_differs s "prepare-rid" then acc ++ [s] else acc
         else acc
       else acc)
    all_steps [].

End Resubmit.

(** ** [resubmit_rid]: the input files and CV files among [otherfiles] *)

Module ResubmitFiles.
Import PyStr.

(** A value read from a JSON document; the keys of an object are distinct. *)
#[warnings="-register-all"]
Inductive json : Type :=
| JNull
| JBool (b : bool)
| JInt (z : Z)
| JFloat (f : float)
| JStr (s : string)
| JList (l : list json)
| JDict (d : list (string * json)).

Fixpoint dict_get (d : list (string * json)) (key : string) : option json :=
  match d with
  | [] => None
  | (k, v) :: rest => if String.eqb k key then Some v else dict_get rest key
  end.

(** [s == v] for a string [s]. *)
Definition str_eq (s : string) (v : json) : bool :=
  match v with
  | JStr t => String.eqb s t
  | _ => false
  end.

(** [s in l] for a string [s] and a list [l]. *)
Definition str_in (s : string) (l : list json) : bool := existsb (str_eq s) l.

(** [key in v] *)
Definition py_contains (key : string) (v : json) : result bool :=
  match v with
  | JDict d => Ok (match dict_get d key with Some _ => true | None => false end)
  | JList l => Ok (str_in key l)
  | JStr s => Ok (contains key s)
  | _ => Raise (TypeError "argument is not iterable")
  end.

(** [v[key]] for a string [key]. *)
Definition py_getitem (v : json) (key : string) : result json :=
  match v with
  | JDict d =>
      match dict_get d key with
      | Some x => Ok x
      | None => Raise (KeyError key)
      end
  | JList _ => Raise (TypeError "list indices must be integers or slices, not str")
  | JStr _ => Raise (TypeError "string indices must be integers, not 'str'")
  | _ => Raise (TypeError "object is not subscriptable")
  end.

(** [os.path.basename]: the text after the last slash. *)
Fixpoint basename (p : string) : string :=
  match p with
  | EmptyString => ""
  | String c p' => if contains "/" p then basename p' else p
  end.

(** Lines 75-79. *)
Definition collect_inputfiles (jdata : json) : result (list json) :=
  explore ← py_getitem jdata "ExploreMDConfig";
  has ← py_contains "inputfile" explore;
  if has : bool then
    explore ← py_getitem jdata "ExploreMDConfig";
    f ← py_getitem explore "inputfile";
    let inputfiles := [] ++ [f] in
    label ← py_getitem jdata "LabelMDConfig";
    has ← py_contains "inputfile" label;
    if has : bool then
      label ← py_getitem jdata "LabelMDConfig";
      g ← py_getitem label "inputfile";
      Ok (inputfiles ++ [g])
    else Ok inputfiles
  else Ok [].

(** Lines 81-85. *)
Definition collect_cvfiles (jdata : json) : result (list json) :=
  cv ← py_getitem jdata "CV";
  has ← py_contains "cv_file" cv;
  if has : bool then
    cv ← py_getitem jdata "CV";
    v ← py_getitem cv "cv_file";
    match v with
    | JList files => Ok ([] ++ files)
    | _ => Raise (AssertionError "CV file input should be list.")
    end
  else Ok [].

(** The loop of lines 90-94; [acc] is [(inputfile_list, cvfile_list)]. *)
Fixpoint classify_loop (inputfiles cvfiles : list json) (otherfiles : list string)
    (acc : list string * list string) : list string * list string :=
  match otherfiles with
  | [] => acc
  | file :: rest =>
      if str_in (basename file) inputfiles
      then classify_loop inputfiles cvfiles rest (acc.1 ++ [file], acc.2)
      else if str_in (basename file) cvfiles
      then classify_loop inputfiles cvfiles rest (acc.1, acc.2 ++ [file])
      else classify_loop inputfiles cvfiles rest acc
  end.

(** [None] for an empty list, else the paths handed to [upload_artifact]. *)
Definition artifact_of (files : list string) : option (list string) :=
  if (length files =? 0)%nat then None else Some files.

(** Lines 75-104, from the configuration [load_json] returns: the input-file
    artifact and the CV-file artifact. *)
Definition file_artifacts (jdata : json) (otherfiles : option (list string))
  : result (option (list string) * option (list string)) :=
  inputfiles ← collect_inputfiles jdata;
  cvfiles ← collect_cvfiles jdata;
  let '(inputfile_list, cvfile_list) :=
    match otherfiles with
    | Some files => classify_loop inputfiles cvfiles files ([], [])
    | None => ([], [])
    end in
  Ok (artifact_of inputfile_list, artifact_of cvfile_list).

End ResubmitFiles.

(* ===================================================================== *)
(** * One instance of the parameters *)
(* ===================================================================== *)

(** Templates in PLUMED's input syntax and straightforward helpers, with
    which the functions above can be run on concrete inputs. *)
Module Sample.
Import PyStr.

(** [s] padded on the left with zeros to [width] characters. *)
Definition zfill (width : nat) (s : string) : string :=
  String.concat "" (replicate (width - String.length s)%nat "0") +:+ s.

(** ["{:0wd}".format(z)] *)
Definition fmt_int (width : nat) (z : Z) : string :=
  if z <? 0 then "-" +:+ zfill (width - 1) (of_Z (- z)) else zfill width (of_Z z).

(** Drops the trailing zeros of the [k]-digit fraction [r], keeping one digit. *)
Fixpoint trim_fraction (k : nat) (r : Z) : nat * Z :=
  match k with
  | S (S _ as k') => if r mod 10 =? 0 then trim_fraction k' (r / 10) else (k, r)
  | _ => (k, r)
  end.

(** The exact decimal expansion of [m * 2^e]. *)
Definition decimal_expansion (m e : Z) : string :=
  if 0 <=? e then of_Z (m * 2 ^ e) +:+ ".0"
  else
    let k := Z.to_nat (- e) in
    let n := m * 5 ^ (- e) in
    let '(k', r) := trim_fraction k (n mod 10 ^ (- e)) in
    of_Z (n / 10 ^ (- e)) +:+ "." +:+ zfill k' (of_Z r).

(** A double printed by its exact decimal expansion; for a double with a short
    expansion, such as 0.5 or 1.0, this is the text of Python's [str]. *)
Definition str_float (f : float) : string :=
  match Prim2SF f with
  | S754_zero s => if s then "-0.0" else "0.0"
  | S754_infinity s => if s then "-inf" else "inf"
  | S754_nan => "nan"
  | S754_finite s m e => (if s then "-" else "") +:+ decimal_expansion (Zpos m) e
  end.

Definition str_val (v : pyval) : string :=
  match v with
  | VNone => "None"
  | VNum (PyInt z) => of_Z z
  | VNum (PyFloat f) => str_float f
  | VStr s => s
  end.

Definition constants : PlumedConstant := {|
  dihedral_name resid angid := "dih-" +:+ fmt_int 3 resid +:+ "-" +:+ fmt_int 2 angid;
  distance_name a1 a2 := "dis-" +:+ fmt_int 3 a1 +:+ "-" +:+ fmt_int 3 a2;
  dihedral_def_from_atoms name a1 a2 a3 a4 :=
    name +:+ ": TORSION ATOMS=" +:+ of_Z a1 +:+ "," +:+ of_Z a2 +:+ ","
    +:+ of_Z a3 +:+ "," +:+ of_Z a4;
  distance_def_from_atoms name a1 a2 :=
    name +:+ ": DISTANCE ATOMS=" +:+ a1 +:+ "," +:+ a2;
  deepfe_def t1 t2 model arg :=
    "dpfe: DEEPFE TRUST_LVL_1=" +:+ str_float t1 +:+ " TRUST_LVL_2=" +:+ str_float t2
    +:+ " MODEL=" +:+ model +:+ " ARG=" +:+ arg;
  print_def stride arg file :=
    "PRINT STRIDE=" +:+ of_Z stride +:+ " ARG=" +:+ arg +:+ " FILE=" +:+ file;
  restraint_def name arg kappa at_ :=
    name +:+ ": RESTRAINT ARG=" +:+ arg +:+ " KAPPA=" +:+ str_val kappa
    +:+ " AT=" +:+ str_val at_
|}.

(** Unsigned decimal numerals. *)
Fixpoint digits_value (s : string) (acc : Z) : option Z :=
  match s with
  | EmptyString => Some acc
  | String c s' =>
      let n := nat_of_ascii c in
      if ((48 <=? n) && (n <=? 57))%nat
      then digits_value s' (10 * acc + Z.of_nat (n - 48))
      else None
  end.

Definition parse_int (s : string) : option Z :=
  match strip s with
  | EmptyString => None
  | t => digits_value t 0
  end.

(** The library functions, for a topology whose resolution is given. *)
Definition lib (dihedrals : dihedral_info) (distances : distance_info) : RidLib := {|
  list_to_string l split_sign := join split_sign (str_val <$> l);
  get_dihedral_from_resid _ _ := dihedrals;
  get_distance_from_atomid _ _ := distances;
  py_int := parse_int
|}.

End Sample.

(* ===================================================================== *)
(** * Properties: general lemmas on results and indexing *)
(* ===================================================================== *)

Lemma bind_Ok {A B} (f : A -> result B) (a : A) : (Ok a ≫= f) = f a.
Proof. reflexivity. Qed.

Lemma bind_Raise {A B} (f : A -> result B) (e : exn) : (Raise e ≫= f) = Raise e.
Proof. reflexivity. Qed.

Lemma bind_Ok_inv {A B} (m : result A) (f : A -> result B) (b : B) :
  (m ≫= f) = Ok b -> exists a, m = Ok a /\ f a = Ok b.
Proof. destruct m as [a|e]; simpl; [eauto | discriminate]. Qed.

Lemma bind_Raise_inv {A B} (m : result A) (f : A -> result B) (e : exn) :
  (m ≫= f) = Raise e -> m = Raise e \/ exists a, m = Ok a /\ f a = Raise e.
Proof. destruct m as [a|e']; simpl; [eauto | intros [= ->]; auto]. Qed.

Lemma py_index_lookup {A} (l : list A) (i : nat) (a : A) :
  l !! i = Some a -> py_index l (Z.of_nat i) = Ok a.
Proof.
  intros Hl. pose proof (lookup_lt_Some _ _ _ Hl) as Hlt.
  unfold py_index.
  destruct (Z.ltb_spec (Z.of_nat i) 0) as [?|_]; [lia|].
  destruct (Z.leb_spec 0 (Z.of_nat i)) as [_|?]; [|lia].
  destruct (Z.ltb_spec (Z.of_nat i) (Z.of_nat (length l))) as [_|?]; [|lia].
  simpl. rewrite Nat2Z.id, Hl. reflexivity.
Qed.

Lemma py_index_short {A} (l : list A) (i : nat) :
  (length l <= i)%nat ->
  py_index l (Z.of_nat i) = Raise (IndexError "list index out of range").
Proof.
  intros Hle. unfold py_index.
  destruct (Z.ltb_spec (Z.of_nat i) 0) as [?|_]; [lia|].
  destruct (Z.leb_spec 0 (Z.of_nat i)) as [_|?]; [|lia].
  destruct (Z.ltb_spec (Z.of_nat i) (Z.of_nat (length l))) as [?|_]; [lia|].
  reflexivity.
Qed.

Lemma py_index_raises {A} (l : list A) (i : Z) (e : exn) :
  py_index l i = Raise e -> e = IndexError "list index out of range".
Proof.
  unfold py_index. destruct (_ && _); [destruct (l !! _)|]; congruence.
Qed.

Lemma py_setitem_length {A} (l l' : list A) (i : Z) (v : A) :
  py_setitem l i v = Ok l' -> length l' = length l.
Proof.
  unfold py_setitem. destruct (_ && _); [|discriminate].
  intros [= <-]. apply length_insert.
Qed.

(* ===================================================================== *)
(** * Properties of the resubmission (resubmit.py) *)
(* ===================================================================== *)

Module ResubmitProps.
Import Resubmit.

(** The test the loop applies to one step. *)
Definition reusable (s : step) : bool :=
  String.eqb (step_type s) "Pod" && String.eqb (step_phase s) "Succeeded"
  && key_differs s "prepare-rid".

Lemma succeeded_steps_from (all_steps acc : list step) :
  fold_left
    (fun acc s =>
       if String.eqb (step_type s) "Pod" then
         if String.eqb (step_phase s) "Succeeded" then
           if key_differs s "prepare-rid" then acc ++ [s] else acc
         else acc
       else acc)
    all_steps acc
  = acc ++ List.filter reusable all_steps.
Proof.
  revert acc. induction all_steps as [|s rest IH]; intros acc; simpl.
  - now rewrite app_nil_r.
  - rewrite IH. unfold reusable.
    destruct (String.eqb (step_type s) "Pod"); simpl; [|reflexivity].
    destruct (String.eqb (step_phase s) "Succeeded"); simpl; [|reflexivity].
    destruct (key_differs s "prepare-rid"); simpl; [|reflexivity].
    now rewrite <- app_assoc.
Qed.

Lemma reusable_spec (s : step) :
  reusable s = true <->
  step_type s = "Pod" /\ step_phase s = "Succeeded"
  /\ step_key s <> Some "prepare-rid".
Proof.
  unfold reusable, key_differs.
  rewrite !andb_true_iff, !String.eqb_eq.
  destruct (step_key s) as [k|].
  - rewrite negb_true_iff, String.eqb_neq. split.
    + intros [[? ?] ?]. repeat split; congruence.
    + intros (? & ? & Hk). repeat split; auto. congruence.
  - split; [intros [[? ?] _]|intros (? & ? & _)]; repeat split; auto; discriminate.
Qed.

(** A succeeded step of the recorded graph that is no pod. *)
Definition steps_node : step := Step "Steps" "Succeeded" (Some "iter-001").

(** C9, as stated, fails: [steps_node] succeeded and its key is not
    ["prepare-rid"], and resubmission does not reuse it. *)
Lemma succeeded_non_pod_not_reused :
  step_phase steps_node = "Succeeded"
  /\ step_key steps_node <> Some "prepare-rid"
  /\ In steps_node [steps_node]
  /\ ~ In steps_node (succeeded_steps [steps_node]).
Proof.
  repeat split; [discriminate | now left | vm_compute; tauto].
Qed.

(** C9, amended: the steps handed to [reuse_step] are, in their recorded order,
    exactly the steps of type Pod in phase Succeeded whose key is not
    ["prepare-rid"]; in particular the prepare step is never reused, and no
    step that did not succeed is. *)
Theorem succeeded_steps_exactly (all_steps : list step) :
  succeeded_steps all_steps = List.filter reusable all_steps
  /\ (forall s, In s (succeeded_steps all_steps) <->
                In s all_steps /\ step_type s = "Pod"
                /\ step_phase s = "Succeeded"
                /\ step_key s <> Some "prepare-rid")
  /\ (forall s, In s (succeeded_steps all_steps) ->
                step_key s <> Some "prepare-rid" /\ step_phase s = "Succeeded").
Proof.
  assert (Heq : succeeded_steps all_steps = List.filter reusable all_steps)
    by (unfold succeeded_steps; now rewrite succeeded_steps_from).
  split; [exact Heq|]. rewrite Heq. split.
  - intros s. rewrite List.filter_In, reusable_spec. tauto.
  - intros s Hs. apply List.filter_In in Hs as [_ Hs].
    apply reusable_spec in Hs. tauto.
Qed.

End ResubmitProps.

(* ===================================================================== *)
(** * Properties of the selection block (run_select.py) *)
(* ===================================================================== *)

Module RunSelectProps.
Import RunSelect.

Section Select.
Context {Idx Data Std : Type}.
Variables (model_devi_name sel_ndx_name : string).
Variable make_std : list Data -> list string -> list Std.
Variable select_from_devi : list Std -> float -> list Z.

(** An array takes the indices a list takes; only the exception differs. *)
Lemma np_index_py {A} (a : list A) (i : Z) :
  np_index a i
  = match py_index a i with
    | Ok x => Ok x
    | Raise _ => Raise (out_of_bounds i (length a))
    end.
Proof.
  unfold np_index, py_index. destruct (_ && _); [|reflexivity].
  destruct (a !! _); reflexivity.
Qed.

Lemma np_index_lookup {A} (a : list A) (i : nat) (x : A) :
  a !! i = Some x -> np_index a (Z.of_nat i) = Ok x.
Proof. intros H. now rewrite np_index_py, (py_index_lookup _ _ _ H). Qed.

Lemma np_take_seq {A} (pre a : list A) :
  np_take (pre ++ a) (Z.of_nat <$> seq (length pre) (length a)) = Ok a.
Proof.
  revert pre. induction a as [|x a IH]; intros pre; simpl; [reflexivity|].
  rewrite (np_index_lookup _ _ x).
  - simpl. replace (pre ++ x :: a) with ((pre ++ [x]) ++ a)
      by now rewrite <- app_assoc.
    replace (S (length pre)) with (length (pre ++ [x]))
      by (rewrite length_app; simpl; lia).
    now rewrite IH.
  - now rewrite list_lookup_middle.
Qed.

Lemma np_take_arange {A} (a : list A) : np_take a (arange (length a)) = Ok a.
Proof. exact (np_take_seq [] a). Qed.

Lemma select_indices_None (trust_lvl_1 : float)
    (cls_sel_idx : list Idx) (cls_sel_data : list Data)
    (log : write_log (Idx := Idx) (Std := Std)) :
  select_indices model_devi_name sel_ndx_name make_std select_from_devi
    None trust_lvl_1 cls_sel_idx cls_sel_data log
  = Ok (log ++ [("cls_" +:+ model_devi_name, SavedDevi []);
                (sel_ndx_name, SavedIdx cls_sel_idx)],
        arange (length cls_sel_idx),
        cls_sel_idx).
Proof.
  unfold select_indices, save_txt. rewrite np_take_arange. simpl.
  now rewrite <- app_assoc.
Qed.

(** With one row of data per candidate, [sel_data] is all of the data too. *)
Lemma select_block_without_models (trust_lvl_1 : float)
    (cls_sel_idx : list Idx) (cls_sel_data : list Data)
    (log : write_log (Idx := Idx) (Std := Std)) :
  length cls_sel_data = length cls_sel_idx ->
  select_block model_devi_name sel_ndx_name make_std select_from_devi
    None trust_lvl_1 cls_sel_idx cls_sel_data log
  = Ok (log ++ [("cls_" +:+ model_devi_name, SavedDevi []);
                (sel_ndx_name, SavedIdx cls_sel_idx)],
        cls_sel_idx, cls_sel_data).
Proof.
  intros Hlen. unfold select_block.
  rewrite select_indices_None. simpl.
  rewrite <- Hlen, np_take_arange. reflexivity.
Qed.

(** C3: without a committee ([models] is [None]) the selection raises nothing,
    whatever the candidates, the data and the threshold are.  It returns the
    input [cluster_selection_index] unchanged and in order as the selected
    index array, [_selected_idx] being every position; and to the records
    written before it adds exactly two, in this order: the deviation record
    [cls_<model_devi_name>], written with no entry, and the index record
    holding all the candidates. *)
Theorem select_without_models_keeps_all (trust_lvl_1 : float)
    (cls_sel_idx : list Idx) (cls_sel_data : list Data)
    (log : write_log (Idx := Idx) (Std := Std)) :
  select_indices model_devi_name sel_ndx_name make_std select_from_devi
    None trust_lvl_1 cls_sel_idx cls_sel_data log
  = Ok (log ++ [("cls_" +:+ model_devi_name, SavedDevi []);
                (sel_ndx_name, SavedIdx cls_sel_idx)],
        Z.of_nat <$> seq 0 (length cls_sel_idx),
        cls_sel_idx)
  /\ np_take cls_sel_idx (Z.of_nat <$> seq 0 (length cls_sel_idx)) = Ok cls_sel_idx
  /\ (forall p, (p < length cls_sel_idx)%nat ->
        (Z.of_nat <$> seq 0 (length cls_sel_idx)) !! p = Some (Z.of_nat p)).
Proof.
  split; [apply select_indices_None|]. split; [apply np_take_arange|].
  intros p Hp. rewrite list_lookup_fmap, lookup_seq_lt by exact Hp. reflexivity.
Qed.

End Select.
End RunSelectProps.

(* ===================================================================== *)
(** * Properties of the synthesizers (make_plumed.py) *)
(* ===================================================================== *)

Module RestraintProps.
Import PyStr MakePlumed.

Section Restraint.
Context `{PC : PlumedConstant} `{RL : RidLib}.

(** The restraint clauses for CV names paired with their parameters. *)
Fixpoint restraints (cvs : list string) (kappa at_ : list pyval) : list string :=
  match cvs, kappa, at_ with
  | cv :: cvs', k :: kappa', a :: at' =>
      make_restraint ("res-" +:+ cv) cv k a :: restraints cvs' kappa' at'
  | _, _, _ => []
  end.

Lemma restraint_loop_ok (cvs : list string) :
  forall (kpre ks apre as_ : list pyval) (acc : list string * list string),
    length ks = length cvs -> length as_ = length cvs ->
    length apre = length kpre ->
    restraint_loop (length kpre) cvs (kpre ++ ks) (apre ++ as_) acc
    = Ok (acc.1 ++ restraints cvs ks as_, acc.2 ++ (String.append "res-" <$> cvs)).
Proof.
  induction cvs as [|cv cvs IH]; intros kpre ks apre as_ [rl rn] Hk Ha Hpre; simpl.
  - now rewrite !app_nil_r.
  - destruct ks as [|k ks]; [discriminate|]. destruct as_ as [|a as_]; [discriminate|].
    simpl in Hk, Ha.
    rewrite (py_index_lookup (kpre ++ k :: ks) (length kpre) k)
      by now apply list_lookup_middle.
    rewrite <- Hpre.
    rewrite (py_index_lookup (apre ++ a :: as_) (length apre) a)
      by now apply list_lookup_middle.
    simpl.
    replace (kpre ++ k :: ks) with ((kpre ++ [k]) ++ ks) by now rewrite <- app_assoc.
    replace (apre ++ a :: as_) with ((apre ++ [a]) ++ as_) by now rewrite <- app_assoc.
    replace (S (length apre)) with (length (kpre ++ [k]))
      by (rewrite length_app; simpl; lia).
    rewrite IH by (rewrite ?length_app; simpl; lia).
    simpl. now rewrite <- !app_assoc.
Qed.

Definition kappa_msg : string :=
  "Make sure `kappa` and `cv_names` have the same length.".
Definition at_msg : string :=
  "Make sure `at` and `cv_names` have the same length.".

Lemma make_restraint_list_ok (cvs : list string) (kappa at_ : list pyval) :
  length kappa = length cvs -> length at_ = length cvs ->
  make_restraint_list cvs kappa at_
  = Ok (restraints cvs kappa at_, String.append "res-" <$> cvs).
Proof.
  intros Hk Ha. unfold make_restraint_list.
  rewrite <- Hk at 1. rewrite Nat.eqb_refl. simpl.
  rewrite <- Ha at 1. rewrite Nat.eqb_refl. simpl.
  exact (restraint_loop_ok cvs [] kappa [] at_ ([], []) Hk Ha eq_refl).
Qed.

Lemma make_restraint_list_kappa (cvs : list string) (kappa at_ : list pyval) :
  length kappa <> length cvs ->
  make_restraint_list cvs kappa at_ = Raise (AssertionError kappa_msg).
Proof.
  intros Hk. unfold make_restraint_list.
  destruct (Nat.eqb_spec (length cvs) (length kappa)); [congruence|reflexivity].
Qed.

Lemma make_restraint_list_at (cvs : list string) (kappa at_ : list pyval) :
  length kappa = length cvs -> length at_ <> length cvs ->
  make_restraint_list cvs kappa at_ = Raise (AssertionError at_msg).
Proof.
  intros Hk Ha. unfold make_restraint_list.
  rewrite <- Hk at 1. rewrite Nat.eqb_refl. simpl.
  destruct (Nat.eqb_spec (length cvs) (length at_)); [congruence|reflexivity].
Qed.

Lemma restraints_replicate (cvs : list string) (k a : pyval) :
  restraints cvs (replicate (length cvs) k) (replicate (length cvs) a)
  = (fun cv => make_restraint ("res-" +:+ cv) cv k a) <$> cvs.
Proof. induction cvs as [|cv cvs IH]; simpl; [reflexivity | now rewrite IH]. Qed.

Lemma broadcast_scalar (k : pynum) (n : nat) :
  broadcast (Scalar k) n = broadcast (Seq (replicate n (VNum k))) n.
Proof. reflexivity. Qed.

(** C4: a scalar [kappa] and a scalar [at] give the restraint clauses and the
    restraint names that the sequences holding that value once per CV give:
    in [make_restraint_list] after the broadcast, in the clause block of
    [make_restraint_plumed], and in [make_restraint_plumed] itself, where the
    number of CVs is that of the resolved list.  In both forms the construction
    succeeds, with one clause and one name per CV. *)
Theorem broadcast_agrees_with_sequence (fs : filesystem) (conf : option string)
    (cv_file : option (list string)) (selected_resid : option (list Z))
    (content : list pyval) (cvs : list string) (k a : pynum)
    (stride : Z) (output mode method : string) :
  make_restraint_list cvs (broadcast (Scalar k) (length cvs))
                          (broadcast (Scalar a) (length cvs))
  = make_restraint_list cvs (replicate (length cvs) (VNum k))
                            (replicate (length cvs) (VNum a))
  /\ make_restraint_list cvs (replicate (length cvs) (VNum k))
                             (replicate (length cvs) (VNum a))
     = Ok ((fun cv => make_restraint ("res-" +:+ cv) cv (VNum k) (VNum a)) <$> cvs,
           String.append "res-" <$> cvs)
  /\ restraint_clause_block content cvs (Scalar k) (Scalar a) stride output
     = restraint_clause_block content cvs
         (Seq (replicate (length cvs) (VNum k)))
         (Seq (replicate (length cvs) (VNum a))) stride output
  /\ match restraint_cv_block fs conf cv_file selected_resid stride output
             mode method with
     | Ok (_, cv_name_list) =>
         make_restraint_plumed fs conf cv_file selected_resid
           (Scalar k) (Scalar a) stride output mode method
         = make_restraint_plumed fs conf cv_file selected_resid
             (Seq (replicate (length cv_name_list) (VNum k)))
             (Seq (replicate (length cv_name_list) (VNum a)))
             stride output mode method
     | Raise e =>
         forall kappa at_,
           make_restraint_plumed fs conf cv_file selected_resid
             kappa at_ stride output mode method = Raise e
     end.
Proof.
  split; [reflexivity|]. split.
  - rewrite make_restraint_list_ok by apply length_replicate.
    now rewrite restraints_replicate.
  - split; [reflexivity|].
    unfold make_restraint_plumed, make_restraint_plumed_content.
    destruct (restraint_cv_block _ _ _ _ _ _ _ _) as [[c n]|e]; reflexivity.
Qed.

(** C7, as stated, fails: one CV and an empty [kappa] raise the assertion of
    [make_restraint_list], which is no [RuntimeError("length mismatch")]. *)
Lemma length_mismatch_is_assertion :
  make_restraint_list (PC := Sample.constants) ["dih-012-00"] [] [VNum (PyFloat 1.0)]
  = Raise (AssertionError "Make sure `kappa` and `cv_names` have the same length.")
  /\ make_restraint_list (PC := Sample.constants) ["dih-012-00"] [] [VNum (PyFloat 1.0)]
     <> Raise (RuntimeError "length mismatch").
Proof. split; [reflexivity | discriminate]. Qed.

Lemma make_restraint_plumed_clauses (fs : filesystem) (conf : option string)
    (cv_file : option (list string)) (selected_resid : option (list Z))
    (kappa at_ : scalar_or_seq) (stride : Z) (output mode method : string)
    (content : list pyval) (cvs : list string) :
  restraint_cv_block fs conf cv_file selected_resid stride output mode method
  = Ok (content, cvs) ->
  make_restraint_plumed fs conf cv_file selected_resid kappa at_ stride output
    mode method
  = (restraint_clause_block content cvs kappa at_ stride output
     ≫= fun content_list => Ok (list_to_string content_list newline)).
Proof.
  intros Hcv. unfold make_restraint_plumed, make_restraint_plumed_content.
  now rewrite Hcv.
Qed.

(** C7, amended: a [kappa] sequence whose length differs from the number of
    CVs raises [AssertionError] with the message about [kappa]; with [kappa]
    of the right length, an [at] sequence whose length differs raises
    [AssertionError] with the message about [at].  [make_restraint_plumed]
    then raises the same error and returns no script. *)
Theorem length_mismatch_raises (fs : filesystem) (conf : option string)
    (cv_file : option (list string)) (selected_resid : option (list Z))
    (content : list pyval) (cvs : list string)
    (kappa at_ : scalar_or_seq) (stride : Z) (output mode method : string) :
  let ks := broadcast kappa (length cvs) in
  let as_ := broadcast at_ (length cvs) in
  let e := if (length ks =? length cvs)%nat then at_msg else kappa_msg in
  length ks <> length cvs \/ length as_ <> length cvs ->
  make_restraint_list cvs ks as_ = Raise (AssertionError e)
  /\ (restraint_cv_block fs conf cv_file selected_resid stride output mode method
      = Ok (content, cvs) ->
      make_restraint_plumed fs conf cv_file selected_resid kappa at_ stride
        output mode method = Raise (AssertionError e)).
Proof.
  intros ks as_ e Hlen.
  assert (Hl : make_restraint_list cvs ks as_ = Raise (AssertionError e)).
  { unfold e. destruct (Nat.eqb_spec (length ks) (length cvs)) as [Hk|Hk].
    - apply make_restraint_list_at; [exact Hk | tauto].
    - now apply make_restraint_list_kappa. }
  split; [exact Hl|]. intros Hcv.
  rewrite (make_restraint_plumed_clauses _ _ _ _ _ _ _ _ _ _ _ _ Hcv).
  unfold restraint_clause_block. fold ks as_. now rewrite Hl.
Qed.

(** The residues of the first end-to-end scenario. *)
Definition residues_12 : dihedral_info :=
  [(12, [("phi", [1; 2; 3; 4]); ("psi", [5; 6; 7; 8])])].

(** C5, amended: for the residues [{12: {phi: [1,2,3,4], psi: [5,6,7,8]}}] and
    kappa = 0.5, at = 1.0, stride = 100, the script is the newline-joined list
    of two torsion definitions, two restraint clauses and one monitoring clause
    with stride 100 whose argument list is the two torsion CV names (the
    targets of the restraints). *)
Theorem scenario_restrained_torsion (fs : filesystem) (conf : option string)
    (cv_file : option (list string)) (selected_resid : option (list Z))
    (output method : string) :
  get_dihedral_from_resid conf selected_resid = residues_12 ->
  let n1 := dihedral_name 12 0 in
  let n2 := dihedral_name 12 1 in
  let script :=
    [VStr (dihedral_def_from_atoms n1 1 2 3 4);
     VStr (dihedral_def_from_atoms n2 5 6 7 8);
     VStr (restraint_def ("res-" +:+ n1) n1 (VNum (PyFloat 0.5)) (VNum (PyFloat 1.0)));
     VStr (restraint_def ("res-" +:+ n2) n2 (VNum (PyFloat 0.5)) (VNum (PyFloat 1.0)));
     VStr (print_def 100 (list_to_string [VStr n1; VStr n2] ",") output)] in
  make_restraint_plumed_content fs conf cv_file selected_resid
    (Scalar (PyFloat 0.5)) (Scalar (PyFloat 1.0)) 100 output "torsion" method
  = Ok script
  /\ make_restraint_plumed fs conf cv_file selected_resid
       (Scalar (PyFloat 0.5)) (Scalar (PyFloat 1.0)) 100 output "torsion" method
     = Ok (list_to_string script newline)
  /\ make_restraint_list [n1; n2] (replicate 2 (VNum (PyFloat 0.5)))
       (replicate 2 (VNum (PyFloat 1.0)))
     = Ok ([restraint_def ("res-" +:+ n1) n1 (VNum (PyFloat 0.5)) (VNum (PyFloat 1.0));
            restraint_def ("res-" +:+ n2) n2 (VNum (PyFloat 0.5)) (VNum (PyFloat 1.0))],
           ["res-" +:+ n1; "res-" +:+ n2]).
Proof.
  intros Hinfo n1 n2 script.
  assert (Hc : make_restraint_plumed_content fs conf cv_file selected_resid
                 (Scalar (PyFloat 0.5)) (Scalar (PyFloat 1.0)) 100 output
                 "torsion" method = Ok script).
  { unfold make_restraint_plumed_content, restraint_cv_block,
      make_torsion_list_from_file. simpl String.eqb. cbv iota.
    rewrite Hinfo. reflexivity. }
  split; [exact Hc|]. split; [|reflexivity].
  unfold make_restraint_plumed. now rewrite Hc.
Qed.

End Restraint.

Lemma length_mismatch_raises_witness :
  make_restraint_list (PC := Sample.constants) ["a"; "b"]
    [VNum (PyFloat 0.5)] [VNum (PyFloat 1.0); VNum (PyFloat 1.0)]
  = Raise (AssertionError kappa_msg).
Proof.
  apply (length_mismatch_raises (PC := Sample.constants) (RL := Sample.lib [] [])
           ∅ None None None [] ["a"; "b"] (Seq [VNum (PyFloat 0.5)])
           (Seq [VNum (PyFloat 1.0); VNum (PyFloat 1.0)]) 100 "plm.out"
           "torsion" "restrained").
  left. simpl. lia.
Defined.

Lemma scenario_restrained_torsion_witness :
  make_restraint_plumed (PC := Sample.constants) (RL := Sample.lib residues_12 [])
    ∅ None None (Some [12]) (Scalar (PyFloat 0.5)) (Scalar (PyFloat 1.0)) 100
    "plm.out" "torsion" "restrained"
  = Ok ("dih-012-00: TORSION ATOMS=1,2,3,4" +:+ newline +:+
        "dih-012-01: TORSION ATOMS=5,6,7,8" +:+ newline +:+
        "res-dih-012-00: RESTRAINT ARG=dih-012-00 KAPPA=0.5 AT=1.0" +:+ newline +:+
        "res-dih-012-01: RESTRAINT ARG=dih-012-01 KAPPA=0.5 AT=1.0" +:+ newline +:+
        "PRINT STRIDE=100 ARG=dih-012-00,dih-012-01 FILE=plm.out").
Proof.
  exact (proj1 (proj2 (scenario_restrained_torsion
           (PC := Sample.constants) (RL := Sample.lib residues_12 [])
           ∅ None None (Some [12]) "plm.out" "restrained" eq_refl))).
Defined.

(** C5, as stated, fails: the monitoring clause names the CVs; the restraint
    names [res-dih-012-00] and [res-dih-012-01] do not occur in it. *)
Lemma monitoring_clause_omits_restraint_names :
  make_restraint_plumed_content (PC := Sample.constants)
    (RL := Sample.lib residues_12 [])
    ∅ None None (Some [12]) (Scalar (PyFloat 0.5)) (Scalar (PyFloat 1.0)) 100
    "plm.out" "torsion" "restrained"
  = Ok [VStr "dih-012-00: TORSION ATOMS=1,2,3,4";
        VStr "dih-012-01: TORSION ATOMS=5,6,7,8";
        VStr "res-dih-012-00: RESTRAINT ARG=dih-012-00 KAPPA=0.5 AT=1.0";
        VStr "res-dih-012-01: RESTRAINT ARG=dih-012-01 KAPPA=0.5 AT=1.0";
        VStr "PRINT STRIDE=100 ARG=dih-012-00,dih-012-01 FILE=plm.out"]
  /\ (make_restraint_list (PC := Sample.constants) ["dih-012-00"; "dih-012-01"]
        (replicate 2 (VNum (PyFloat 0.5))) (replicate 2 (VNum (PyFloat 1.0)))
      ≫= fun r => Ok r.2)
     = Ok ["res-dih-012-00"; "res-dih-012-01"]
  /\ contains "res-dih-012-00"
       "PRINT STRIDE=100 ARG=dih-012-00,dih-012-01 FILE=plm.out" = false
  /\ contains "res-dih-012-01"
       "PRINT STRIDE=100 ARG=dih-012-00,dih-012-01 FILE=plm.out" = false.
Proof. repeat split; vm_compute; reflexivity. Qed.

End RestraintProps.

(* ===================================================================== *)
(** * The mode tag of the three entry points *)
(* ===================================================================== *)

Module ModeProps.
Import PyStr MakePlumed.

(** [r] is not the failure on an unknown mode. *)
Definition known_mode {A} (r : result A) : Prop := r <> Raise unknown_mode.

Lemma known_Ok {A} (a : A) : known_mode (Ok a).
Proof. discriminate. Qed.

Lemma known_bind {A B} (m : result A) (f : A -> result B) :
  known_mode m -> (forall a, known_mode (f a)) -> known_mode (m ≫= f).
Proof.
  destruct m as [a|e]; simpl; [auto|].
  intros H _ [= ->]. now apply H.
Qed.

Lemma known_index {A} (l : list A) (i : Z) : known_mode (py_index l i).
Proof. intros H. apply py_index_raises in H. discriminate. Qed.

Lemma known_setitem {A} (l : list A) (i : Z) (v : A) : known_mode (py_setitem l i v).
Proof. unfold py_setitem. destruct (_ && _); discriminate. Qed.

Lemma known_assert (b : bool) (msg : string) : known_mode (py_assert b msg).
Proof. destruct b; discriminate. Qed.

Lemma known_first_cv_file (cv_file : option (list string)) :
  known_mode (first_cv_file cv_file).
Proof. destruct cv_file; [apply known_index | discriminate]. Qed.

Create HintDb known.

#[local] Hint Resolve known_Ok known_index known_setitem known_assert
  known_first_cv_file : known.

(** Splits a goal [known_mode r] along the binds and case analyses of [r]. *)
Ltac known_step :=
  match goal with
  | |- known_mode (_ ≫= _) => apply known_bind; [|intros]
  | |- known_mode (match ?x with _ => _ end) => destruct x
  | |- known_mode (Raise ?e) => discriminate
  | |- known_mode _ => solve [eauto with known]
  end.
Ltac known := repeat known_step.
Ltac as_known :=
  match goal with
  | |- ?r = Raise unknown_mode -> False => change (known_mode r)
  end.

Section Modes.
Context `{PC : PlumedConstant} `{RL : RidLib}.

Lemma known_restraint_loop (cvs : list string) :
  forall idx kappa at_ acc, known_mode (restraint_loop idx cvs kappa at_ acc).
Proof.
  induction cvs as [|cv cvs IH]; intros idx kappa at_ acc; simpl; known.
Qed.

Lemma known_make_restraint_list (cvs : list string) (kappa at_ : list pyval) :
  known_mode (make_restraint_list cvs kappa at_).
Proof. unfold make_restraint_list. known. apply known_restraint_loop. Qed.

Lemma known_make_torsion (name : string) (atoms : list Z) :
  known_mode (make_torsion name atoms).
Proof. unfold make_torsion. known. Qed.

Lemma known_torsion_angle_loop (resid : Z) (angs : list (string * list Z)) :
  forall acc, known_mode (torsion_angle_loop resid angs acc).
Proof.
  induction angs as [|[ang atoms] angs IH]; intros acc; simpl; known.
  - unfold angle_id. known.
  - apply known_make_torsion.
Qed.

Lemma known_torsion_resid_loop (info : dihedral_info) :
  forall acc, known_mode (torsion_resid_loop info acc).
Proof.
  induction info as [|[resid angs] info IH]; intros acc; simpl; known.
  apply known_torsion_angle_loop.
Qed.

Lemma known_torsion_from_file (conf : option string) (resid : option (list Z)) :
  known_mode (make_torsion_list_from_file conf resid).
Proof.
  unfold make_torsion_list_from_file, make_torsion_list. known.
  apply known_torsion_resid_loop.
Qed.

Lemma known_distance_loop (info : distance_info) :
  forall acc, known_mode (distance_loop info acc).
Proof.
  induction info as [|[atomids v] info IH]; intros acc; simpl; known.
  - unfold make_distance_name, int_of_str. known.
  - unfold make_distance. known.
Qed.

Lemma known_distance_from_file (conf : option string) (atomid : option (list Z)) :
  known_mode (make_distance_list_from_file conf atomid).
Proof.
  unfold make_distance_list_from_file, make_distance_list. known.
  apply known_distance_loop.
Qed.

Lemma known_restrained_line (line : string) (st : scan_state) :
  known_mode (restrained_line line st).
Proof. unfold restrained_line. known. Qed.

Lemma known_scan_lines (method : string) (lines : list string) :
  forall st, known_mode (scan_lines method lines st).
Proof.
  induction lines as [|line lines IH]; intros st; simpl; known.
  apply known_restrained_line.
Qed.

Lemma known_user_plumed_def (fs : filesystem) (cv_file : string) (pstride : Z)
    (pfile method : string) :
  known_mode (user_plumed_def fs cv_file pstride pfile method).
Proof.
  unfold user_plumed_def, user_plumed_def_lines, rewrite_print. known.
  apply known_scan_lines.
Qed.

#[local] Hint Resolve known_make_restraint_list known_torsion_from_file
  known_distance_from_file known_user_plumed_def : known.

Lemma restraint_unknown_iff (fs : filesystem) (conf : option string)
    (cv_file : option (list string)) (selected_resid : option (list Z))
    (kappa at_ : scalar_or_seq) (stride : Z) (output mode method : string) :
  make_restraint_plumed fs conf cv_file selected_resid kappa at_ stride output
    mode method = Raise unknown_mode
  <-> mode <> "torsion" /\ mode <> "custom".
Proof.
  unfold make_restraint_plumed, make_restraint_plumed_content,
    restraint_cv_block, restraint_clause_block.
  destruct (String.eqb_spec mode "torsion") as [->|Ht].
  { split; [|tauto]. intros H; exfalso; revert H. as_known. known. }
  destruct (String.eqb_spec mode "custom") as [->|Hc].
  { split; [|tauto]. intros H; exfalso; revert H. as_known. known. }
  split; [tauto | reflexivity].
Qed.

Lemma constraint_unknown_iff (fs : filesystem) (conf : option string)
    (cv_file : option (list string)) (selected_atomid : option (list Z))
    (stride : Z) (output mode method : string) :
  make_constraint_plumed fs conf cv_file selected_atomid stride output
    mode method = Raise unknown_mode
  <-> mode <> "distance" /\ mode <> "custom".
Proof.
  unfold make_constraint_plumed, make_constraint_plumed_content.
  destruct (String.eqb_spec mode "distance") as [->|Hd].
  { split; [|tauto]. intros H; exfalso; revert H. as_known. known. }
  destruct (String.eqb_spec mode "custom") as [->|Hc].
  { split; [|tauto]. intros H; exfalso; revert H. as_known. known. }
  split; [tauto | reflexivity].
Qed.

Lemma deepfe_unknown_iff (fs : filesystem) (conf : option string)
    (cv_file : option (list string)) (selected_resid selected_atomid : option (list Z))
    (trust_lvl_1 trust_lvl_2 : float) (model_list : list string)
    (stride : Z) (output mode : string) :
  make_deepfe_plumed fs conf cv_file selected_resid selected_atomid
    trust_lvl_1 trust_lvl_2 model_list stride output mode = Raise unknown_mode
  <-> mode <> "torsion" /\ mode <> "distance" /\ mode <> "custom".
Proof.
  unfold make_deepfe_plumed, make_deepfe_plumed_content, user_plumed_def_3.
  destruct (String.eqb_spec mode "torsion") as [->|Ht].
  { split; [|tauto]. intros H; exfalso; revert H. as_known. known. }
  destruct (String.eqb_spec mode "distance") as [->|Hd].
  { split; [|tauto]. intros H; exfalso; revert H. as_known. known. }
  destruct (String.eqb_spec mode "custom") as [->|Hc].
  { split; [|tauto]. intros H; exfalso; revert H. as_known. known. }
  split; [tauto | reflexivity].
Qed.

(** C1, amended: each entry point fails with the unknown-mode error exactly
    when the mode tag is outside its own set of modes: torsion and custom for
    [make_restraint_plumed], distance and custom for [make_constraint_plumed],
    torsion, distance and custom for [make_deepfe_plumed]. *)
Theorem unknown_mode_exactly (fs : filesystem) (conf : option string)
    (cv_file : option (list string)) (selected_resid selected_atomid : option (list Z))
    (kappa at_ : scalar_or_seq) (trust_lvl_1 trust_lvl_2 : float)
    (model_list : list string) (stride : Z) (output mode method : string) :
  (make_restraint_plumed fs conf cv_file selected_resid kappa at_ stride output
     mode method = Raise unknown_mode
   <-> mode <> "torsion" /\ mode <> "custom")
  /\ (make_constraint_plumed fs conf cv_file selected_atomid stride output
        mode method = Raise unknown_mode
      <-> mode <> "distance" /\ mode <> "custom")
  /\ (make_deepfe_plumed fs conf cv_file selected_resid selected_atomid
        trust_lvl_1 trust_lvl_2 model_list stride output mode = Raise unknown_mode
      <-> mode <> "torsion" /\ mode <> "distance" /\ mode <> "custom").
Proof.
  split; [apply restraint_unknown_iff|].
  split; [apply constraint_unknown_iff | apply deepfe_unknown_iff].
Qed.

(** The error of the custom branch of [make_deepfe_plumed] and [get_cv_name]:
    from [cv_file[0]] when [cv_file] is [None] or empty, and otherwise from
    the call of [user_plumed_def] with three arguments. *)
Definition custom_branch_error (cv_file : option (list string)) : exn :=
  match cv_file with
  | None => TypeError "'NoneType' object is not subscriptable"
  | Some [] => IndexError "list index out of range"
  | Some (_ :: _) =>
      TypeError "user_plumed_def() missing 1 required positional argument: 'method'"
  end.

(** C10, amended: with mode custom, [make_deepfe_plumed] and [get_cv_name]
    never return: they raise [TypeError] when [cv_file] is [None] or names at
    least one file (there, for the missing argument [method]), and
    [IndexError] when [cv_file] is the empty list. *)
Theorem custom_ensemble_bias_raises (fs : filesystem) (conf : option string)
    (cv_file : option (list string)) (selected_resid selected_atomid : option (list Z))
    (trust_lvl_1 trust_lvl_2 : float) (model_list : list string)
    (stride : Z) (output : string) :
  make_deepfe_plumed fs conf cv_file selected_resid selected_atomid
    trust_lvl_1 trust_lvl_2 model_list stride output "custom"
  = Raise (custom_branch_error cv_file)
  /\ get_cv_name fs conf cv_file selected_resid selected_atomid stride "custom"
     = Raise (custom_branch_error cv_file).
Proof.
  unfold make_deepfe_plumed, make_deepfe_plumed_content, get_cv_name.
  destruct cv_file as [[|f rest]|]; split; reflexivity.
Qed.

End Modes.

(** C1, as stated, fails: the restrained synthesizer rejects the mode
    distance, and the constrained synthesizer rejects the mode torsion. *)
Lemma synthesizers_reject_listed_modes :
  make_restraint_plumed (PC := Sample.constants) (RL := Sample.lib [] [])
    ∅ None None None default_kappa default_at default_stride default_output
    "distance" "restrained"
  = Raise (RuntimeError "Unknown mode for making plumed files.")
  /\ make_constraint_plumed (PC := Sample.constants) (RL := Sample.lib [] [])
       ∅ None None None default_stride default_output "torsion" "constrained"
     = Raise (RuntimeError "Unknown mode for making plumed files.").
Proof. split; reflexivity. Qed.

(** C10, as stated, fails: with an empty [cv_file] list the custom branch
    raises [IndexError] on [cv_file[0]], before the call, and no [TypeError]. *)
Lemma custom_with_no_file_raises_index_error :
  make_deepfe_plumed (PC := Sample.constants) (RL := Sample.lib [] [])
    ∅ None (Some []) None None 1.0%float 2.0%float ["graph.pb"]
    default_stride default_output "custom"
  = Raise (IndexError "list index out of range")
  /\ get_cv_name (PC := Sample.constants) (RL := Sample.lib [] [])
       ∅ None (Some []) None None default_stride "custom"
     = Raise (IndexError "list index out of range").
Proof. split; reflexivity. Qed.

End ModeProps.

(* ===================================================================== *)
(** * Properties of the custom CV parser *)
(* ===================================================================== *)

Module ParserProps.
Import PyStr MakePlumed.

(** ** Strings *)

Lemma append_assoc (a b c : string) : (a +:+ b) +:+ c = a +:+ (b +:+ c).
Proof.
  induction a as [|x a IH]; [reflexivity|].
  change (String x ((a +:+ b) +:+ c) = String x (a +:+ (b +:+ c))).
  now rewrite IH.
Qed.

Lemma append_nil_l (a : string) : "" +:+ a = a.
Proof. reflexivity. Qed.

Lemma append_nil_r (a : string) : a +:+ "" = a.
Proof.
  induction a as [|x a IH]; [reflexivity|].
  change (String x (a +:+ "") = String x a). now rewrite IH.
Qed.

Lemma append_eq_nil (a b : string) : a +:+ b = "" -> a = "" /\ b = "".
Proof.
  destruct a as [|x a]; intros H; [now split|].
  change (String x (a +:+ b) = "") in H. discriminate.
Qed.

Lemma split_aux_nonempty (sep : string) (s : string) :
  forall skip, split_aux sep skip s <> [].
Proof.
  induction s as [|c s IH]; intros skip; cbn [split_aux]; [discriminate|].
  destruct skip; [|apply IH].
  destruct (String.prefix sep (String c s)); [discriminate|].
  destruct (split_aux sep 0 s); discriminate.
Qed.

Lemma split_nonempty (sep s : string) : exists p ps, split sep s = p :: ps.
Proof.
  unfold split. pose proof (split_aux_nonempty sep s 0%nat) as H.
  destruct (split_aux sep 0 s) as [|p ps]; [congruence | eauto].
Qed.

(** A string that contains the separator splits into at least two pieces. *)
Lemma split_contains (sep s : string) :
  sep <> "" -> contains sep s = true ->
  exists p q ps, split sep s = p :: q :: ps.
Proof.
  intros Hsep. unfold split. induction s as [|c s IH]; cbn [split_aux contains].
  - destruct sep; [congruence | discriminate].
  - intros Hc. destruct (String.prefix sep (String c s)) eqn:Hp.
    + pose proof (split_aux_nonempty sep s (String.length sep - 1)) as Hne.
      destruct (split_aux sep (String.length sep - 1) s) as [|q ps];
        [congruence | eauto].
    + simpl in Hc. destruct (IH Hc) as (p & q & ps & ->). eauto.
Qed.

(** A string without the separator is its own single piece. *)
Lemma split_not_contains (sep s : string) :
  contains sep s = false -> split sep s = [s].
Proof.
  unfold split. induction s as [|c s IH]; cbn [split_aux contains]; [reflexivity|].
  intros Hc. apply orb_false_iff in Hc as [Hp Hc].
  rewrite Hp. now rewrite (IH Hc).
Qed.

Lemma py_index_0 {A} (x : A) (l : list A) : py_index (x :: l) 0 = Ok x.
Proof. exact (py_index_lookup (x :: l) 0 x eq_refl). Qed.

Lemma py_index_1 {A} (x y : A) (l : list A) : py_index (x :: y :: l) 1 = Ok y.
Proof. exact (py_index_lookup (x :: y :: l) 1 y eq_refl). Qed.

Lemma py_index_1_single {A} (x : A) :
  py_index [x] 1 = Raise (IndexError "list index out of range").
Proof. exact (py_index_short [x] 1 (le_n 1)). Qed.

(** ** Texts and their parts *)


















(** ** Splitting a text at the first separator *)











(** ** Stripping white space *)









(** ** One line under [method == "restrained"] *)

(** A line of the form [label: KIND ...] without a comment mark. *)
Definition colon_form (line : string) : bool :=
  contains ":" line && negb (contains "#" line).

(** A line of the form [KIND ... LABEL=label] without colon or comment mark. *)
Definition label_form (line : string) : bool :=
  negb (colon_form line) && (contains "LABEL" line && negb (contains "#" line)).

(** The CV kind the parser reads off a declaration line. *)
Definition cv_type (line : string) : option string :=
  if colon_form line then
    match split ":" line with
    | _ :: field :: _ => head (split " " (strip field))
    | _ => None
    end
  else if label_form line then
    match split "LABEL=" line with
    | field :: _ => head (split " " (strip field))
    | [] => None
    end
  else None.


(** The text the parser takes for the label of a declaration line: all that
    stands before the first colon, or all that stands between the first
    [LABEL=] and the next one or the end of the line. *)
Definition captured_label (line : string) : string :=
  if colon_form line then default "" (head (split ":" line))
  else default "" (split "LABEL=" line !! 1%nat).

(** The two names the parser makes of that text for a PATH declaration. *)
Definition captured_path_names (line : string) : list string :=
  if colon_form line
  then [strip (captured_label line +:+ ".spath"); strip (captured_label line +:+ ".zpath")]
  else [strip (captured_label line) +:+ ".spath"; strip (captured_label line) +:+ ".zpath"].

(** A line in label form carries the attribute [LABEL=]. *)
Definition label_ok (line : string) : bool :=
  negb (label_form line) || contains "LABEL=" line.

Lemma colon_sep : ":" <> "".
Proof. discriminate. Qed.

Lemma label_sep : "LABEL=" <> "".
Proof. discriminate. Qed.

(** What [restrained_line] does, by the form of the line. *)
Lemma restrained_line_cases (line : string) (st : scan_state) :
  match cv_type line with
  | None => restrained_line line st = Ok st
  | Some t =>
      if String.eqb t "PATH" then
        if label_ok line
        then restrained_line line st = Ok (ScanState (ret st) (captured_path_names line) true)
        else restrained_line line st = Raise (IndexError "list index out of range")
      else if ispath st then restrained_line line st = Ok st
      else if label_ok line
        then restrained_line line st
             = Ok (ScanState (ret st) (cv_names st ++ [strip (captured_label line)])
                     (ispath st))
        else restrained_line line st = Raise (IndexError "list index out of range")
  end.
Proof.
  unfold cv_type, restrained_line, label_ok, captured_path_names, captured_label, label_form,
    colon_form.
  destruct (contains ":" line && negb (contains "#" line)) eqn:Hcolon; simpl.
  - apply andb_true_iff in Hcolon as [Hc _].
    destruct (split_contains ":" line colon_sep Hc) as (p & q & ps & ->).
    rewrite py_index_1, py_index_0. simpl.
    destruct (split_nonempty " " (strip q)) as (t & ts & ->).
    rewrite py_index_0. simpl.
    destruct (String.eqb t "PATH"); simpl; [reflexivity|].
    destruct (ispath st); reflexivity.
  - destruct (contains "LABEL" line && negb (contains "#" line)) eqn:Hlabel; simpl;
      [|reflexivity].
    destruct (split_nonempty "LABEL=" line) as (p & ps & Hsplit).
    rewrite Hsplit, py_index_0. simpl.
    destruct (split_nonempty " " (strip p)) as (t & ts & ->).
    rewrite py_index_0. simpl.
    destruct (contains "LABEL=" line) eqn:Heq.
    + destruct (split_contains "LABEL=" line label_sep Heq) as (p' & q & ps' & Hs2).
      rewrite Hs2 in Hsplit. injection Hsplit as <- <-.
      rewrite py_index_1. simpl.
      destruct (String.eqb t "PATH"); simpl; [reflexivity|].
      destruct (ispath st); reflexivity.
    + rewrite (split_not_contains _ _ Heq) in Hsplit. injection Hsplit as <- <-.
      rewrite py_index_1_single. simpl.
      destruct (String.eqb t "PATH"); simpl; [reflexivity|].
      destruct (ispath st); reflexivity.
Qed.

Lemma restrained_line_ret (line : string) (st st' : scan_state) :
  restrained_line line st = Ok st' -> ret st' = ret st.
Proof.
  pose proof (restrained_line_cases line st) as H.
  destruct (cv_type line) as [t|]; [|congruence].
  destruct (String.eqb t "PATH").
  - destruct (label_ok line); rewrite H; [intros [= <-]; reflexivity | discriminate].
  - destruct (ispath st); [congruence|].
    destruct (label_ok line); rewrite H; [intros [= <-]; reflexivity | discriminate].
Qed.



(** ** CV declarations as a script writes them

    Modelled from the spec: a fragment declares a CV in one of two forms, a
    colon-separated definition line, [label: KIND args], or a [LABEL=]
    attribute line, taken here with the attribute last, [KIND args LABEL=label].
    What follows is the text of such a line, made from its label, its kind and
    its arguments; it owes nothing to the parser. *)















(** ** The scan, line by line *)

Definition init : scan_state := ScanState "" [] false.

(** The lines the loop reads before it stops: those before the first
    monitoring directive. *)
Fixpoint scanned (lines : list string) : list string :=
  match lines with
  | [] => []
  | l :: rest => if is_print_line l then [] else l :: scanned rest
  end.

(** The first monitoring directive, if any. *)
Fixpoint directive (lines : list string) : option string :=
  match lines with
  | [] => None
  | l :: rest => if is_print_line l then Some l else directive rest
  end.

(** The text of the lines, one after the other. *)
Fixpoint body (ls : list string) : string :=
  match ls with
  | [] => ""
  | l :: rest => l +:+ body rest
  end.

(** One iteration of the loop on a line that is no directive. *)
Definition line_step (method line : string) (st : scan_state) : result scan_state :=
  let st := ScanState (ret st +:+ line) (cv_names st) (ispath st) in
  if String.eqb method "restrained" then restrained_line line st
  else if String.eqb method "constrained" then Ok (ScanState (ret st) [] (ispath st))
  else Ok st.

Fixpoint scan_body (method : string) (ls : list string) (st : scan_state)
  : result scan_state :=
  match ls with
  | [] => Ok st
  | l :: rest => st' ← line_step method l st; scan_body method rest st'
  end.

Lemma scan_lines_decompose (method : string) (lines : list string) :
  forall st,
    scan_lines method lines st
    = (scan_body method (scanned lines) st
       ≫= fun st' => Ok (st', (fun d => d +:+ newline) <$> directive lines)).
Proof.
  induction lines as [|l rest IH]; intros st; cbn [scan_lines scanned directive].
  - reflexivity.
  - destruct (is_print_line l); [reflexivity|].
    cbn [scan_body]. unfold line_step.
    destruct (String.eqb method "restrained").
    + destruct (restrained_line l _) as [st'|e]; [|reflexivity]. simpl. apply IH.
    + destruct (String.eqb method "constrained"); simpl; apply IH.
Qed.


Lemma scan_body_constrained (ls : list string) :
  forall st, cv_names st = [] ->
    scan_body "constrained" ls st
    = Ok (ScanState (ret st +:+ body ls) [] (ispath st)).
Proof.
  induction ls as [|l ls IH]; intros [r n i] Hn; simpl in *.
  - subst n. now rewrite append_nil_r.
  - rewrite IH by reflexivity. simpl. now rewrite append_assoc.
Qed.

Lemma scan_body_ret (ls : list string) :
  forall st st', scan_body "restrained" ls st = Ok st' ->
    ret st' = ret st +:+ body ls.
Proof.
  induction ls as [|l ls IH]; intros st st'; simpl.
  - intros [= <-]. now rewrite append_nil_r.
  - unfold line_step. simpl.
    destruct (restrained_line l _) as [st1|e] eqn:H1; simpl; [|discriminate].
    intros H. rewrite (IH _ _ H), (restrained_line_ret _ _ _ H1). simpl.
    apply append_assoc.
Qed.



(** With an empty body no name was captured. *)
Lemma scan_body_empty (ls : list string) :
  forall st st', scan_body "restrained" ls st = Ok st' -> ret st' = "" ->
    cv_names st' = cv_names st.
Proof.
  induction ls as [|l ls IH]; intros st st'; simpl.
  - now intros [= <-].
  - unfold line_step. simpl.
    destruct (restrained_line l _) as [st1|e] eqn:H1; simpl; [|discriminate].
    intros H Hret. pose proof (scan_body_ret _ _ _ H) as Hr. rewrite Hret in Hr.
    symmetry in Hr. apply append_eq_nil in Hr as [Hr1 _].
    rewrite (restrained_line_ret _ _ _ H1) in Hr1. simpl in Hr1.
    apply append_eq_nil in Hr1 as [_ ->].
    rewrite (IH _ _ H Hret).
    change (restrained_line "" (ScanState (ret st +:+ "") (cv_names st) (ispath st))
            = Ok st1) in H1.
    injection H1 as <-. reflexivity.
Qed.

(** ** The parser after the scan *)

Definition invalid_definition : exn :=
  RuntimeError "Invalid customed plumed files.".

(** The rewriting of the directive succeeds on two tokens or more. *)
Lemma rewrite_print_ok (pc : string) (pstride : Z) (pfile : string) :
  (2 <= length (split_ws pc))%nat ->
  exists pc', rewrite_print pc pstride pfile = Ok pc'.
Proof.
  intros Hlen. unfold rewrite_print.
  destruct (py_setitem (split_ws pc) (-1) ("FILE=" +:+ pfile)) as [l1|e] eqn:H1.
  - simpl. pose proof (py_setitem_length _ _ _ _ H1) as Hl1.
    unfold py_setitem.
    destruct (Z.ltb_spec 1 0) as [?|_]; [lia|].
    destruct (Z.leb_spec 0 1) as [_|?]; [|lia].
    destruct (Z.ltb_spec 1 (Z.of_nat (length l1))) as [_|?]; [|lia].
    simpl. eauto.
  - exfalso. revert H1. unfold py_setitem.
    destruct (Z.ltb_spec (-1) 0) as [_|?]; [|lia].
    destruct (Z.leb_spec 0 (-1 + Z.of_nat (length (split_ws pc)))) as [_|?]; [|lia].
    destruct (Z.ltb_spec (-1 + Z.of_nat (length (split_ws pc)))
                (Z.of_nat (length (split_ws pc)))) as [_|?]; [|lia].
    discriminate.
Qed.

(** [user_plumed_def] under the restrained method, from the state the scan
    ends in. *)
Lemma user_plumed_def_lines_restrained (lines : list string) (pstride : Z)
    (pfile : string) (st : scan_state) :
  scan_body "restrained" (scanned lines) init = Ok st ->
  user_plumed_def_lines lines pstride pfile "restrained"
  = if String.eqb (ret st) "" && (length (cv_names st) =? 0)%nat
    then Raise invalid_definition
    else match directive lines with
         | Some d =>
             _ ← py_assert
                   (length (split "," (d +:+ newline)) =? length (cv_names st))%nat
                   (print_cv_mismatch_msg (length (cv_names st))
                      (length (split "," (d +:+ newline))));
             pc' ← rewrite_print (d +:+ newline) pstride pfile;
             Ok (ret st, cv_names st, Some pc')
         | None => Ok (ret st, cv_names st, None)
         end.
Proof.
  intros Hscan. unfold user_plumed_def_lines.
  rewrite scan_lines_decompose. fold init. rewrite Hscan. simpl.
  destruct (String.eqb (ret st) "" && (length (cv_names st) =? 0)%nat);
    [reflexivity|].
  destruct (directive lines); reflexivity.
Qed.

Lemma user_plumed_def_lines_scan (lines : list string) (pstride : Z)
    (pfile method r : string) (names : list string) (pc : option string) :
  user_plumed_def_lines lines pstride pfile method = Ok (r, names, pc) ->
  exists st, scan_body method (scanned lines) init = Ok st
             /\ r = ret st /\ names = cv_names st.
Proof.
  unfold user_plumed_def_lines. rewrite scan_lines_decompose. fold init.
  destruct (scan_body method (scanned lines) init) as [st|e]; simpl; [|discriminate].
  intros H. exists st. split; [reflexivity|].
  destruct (String.eqb (ret st) "" && (length (cv_names st) =? 0)%nat);
    [discriminate|].
  destruct (directive lines) as [d|]; simpl in H.
  - destruct (String.eqb method "restrained").
    + destruct (py_assert _ _); simpl in H; [|discriminate].
      destruct (rewrite_print _ _ _); simpl in H; [|discriminate].
      injection H as <- <- _. auto.
    + destruct (String.eqb method "constrained").
      * destruct (rewrite_print _ _ _); simpl in H; [|discriminate].
        injection H as <- <- _. auto.
      * injection H as <- <- _. auto.
  - injection H as <- <- _. auto.
Qed.

(** [user_plumed_def] under the constrained method, in closed form. *)
Lemma user_plumed_def_lines_constrained (lines : list string) (pstride : Z)
    (pfile : string) :
  user_plumed_def_lines lines pstride pfile "constrained"
  = if String.eqb (body (scanned lines)) ""
    then Raise invalid_definition
    else match directive lines with
         | Some d =>
             pc' ← rewrite_print (d +:+ newline) pstride pfile;
             Ok (body (scanned lines), [], Some pc')
         | None => Ok (body (scanned lines), [], None)
         end.
Proof.
  unfold user_plumed_def_lines. rewrite scan_lines_decompose.
  rewrite scan_body_constrained by reflexivity. simpl.
  rewrite !append_nil_l, andb_true_r.
  destruct (String.eqb (body (scanned lines)) ""); [reflexivity|].
  destruct (directive lines); reflexivity.
Qed.

(** C8: under the constrained method the parser captures no CV name, whatever
    the fragment declares: the call is the closed form below, in which the
    name list is empty; so every call that returns, returns the empty list,
    from a list of lines as from a file.  The call returns whenever the body is
    not empty and the monitoring directive, if there is one, has two tokens. *)
Theorem constrained_returns_no_names (fs : filesystem) (cv_file : string)
    (lines : list string) (pstride : Z) (pfile : string) :
  user_plumed_def_lines lines pstride pfile "constrained"
  = (if String.eqb (body (scanned lines)) ""
     then Raise invalid_definition
     else match directive lines with
          | Some d =>
              pc' ← rewrite_print (d +:+ newline) pstride pfile;
              Ok (body (scanned lines), [], Some pc')
          | None => Ok (body (scanned lines), [], None)
          end)
  /\ (forall r names pc,
        user_plumed_def_lines lines pstride pfile "constrained" = Ok (r, names, pc) ->
        names = [])
  /\ (forall r names pc,
        user_plumed_def fs cv_file pstride pfile "constrained" = Ok (r, names, pc) ->
        names = [])
  /\ (body (scanned lines) <> "" ->
      match directive lines with
      | Some d => (2 <= length (split_ws (d +:+ newline)))%nat
      | None => True
      end ->
      exists pc, user_plumed_def_lines lines pstride pfile "constrained"
                 = Ok (body (scanned lines), [], pc)).
Proof.
  assert (Hnames : forall ls r names pc,
             user_plumed_def_lines ls pstride pfile "constrained" = Ok (r, names, pc) ->
             names = []).
  { intros ls r names pc. rewrite user_plumed_def_lines_constrained.
    destruct (String.eqb (body (scanned ls)) ""); [discriminate|].
    destruct (directive ls) as [d|]; [|now intros [= _ <- _]].
    destruct (rewrite_print _ _ _); simpl; [now intros [= _ <- _] | discriminate]. }
  split; [apply user_plumed_def_lines_constrained|].
  split; [apply Hnames|]. split.
  - intros r names pc. unfold user_plumed_def.
    destruct (fs !! cv_file) as [text|]; [apply Hnames | discriminate].
  - intros Hbody Hd. rewrite user_plumed_def_lines_constrained.
    destruct (String.eqb_spec (body (scanned lines)) ""); [congruence|].
    destruct (directive lines) as [d|]; [|eauto].
    destruct (rewrite_print_ok _ pstride pfile Hd) as [pc' ->]. simpl. eauto.
Qed.

(** C6, amended: when the loop under the restrained method stops at a
    monitoring directive, with [print_content = pc] and the names [cv_names st]
    captured: an empty body raises the invalid-definition error; otherwise a
    field count that differs from the number of names raises the assertion on
    the counts, and an equal field count lets the call return, with the
    directive rewritten, when the directive has two tokens or more. *)
Theorem print_directive_check (lines : list string) (pstride : Z) (pfile pc : string)
    (st : scan_state) :
  scan_lines "restrained" lines (ScanState "" [] false) = Ok (st, Some pc) ->
  let fields := length (split "," pc) in
  let r := user_plumed_def_lines lines pstride pfile "restrained" in
  (ret st = "" -> r = Raise invalid_definition)
  /\ (ret st <> "" -> fields <> length (cv_names st) ->
      r = Raise (AssertionError (print_cv_mismatch_msg (length (cv_names st)) fields)))
  /\ (ret st <> "" -> fields = length (cv_names st) ->
      (2 <= length (split_ws pc))%nat ->
      exists pc', rewrite_print pc pstride pfile = Ok pc'
                  /\ r = Ok (ret st, cv_names st, Some pc')).
Proof.
  intros Hscan fields r. unfold r, fields. clear r fields.
  rewrite scan_lines_decompose in Hscan. fold init in Hscan.
  destruct (scan_body "restrained" (scanned lines) init) as [st'|e] eqn:Hbody;
    simpl in Hscan; [|discriminate].
  injection Hscan as -> Hd.
  rewrite (user_plumed_def_lines_restrained _ _ _ _ Hbody).
  destruct (directive lines) as [d|]; simpl in Hd; [|discriminate].
  injection Hd as <-.
  split; [|split].
  - intros Hret. rewrite (scan_body_empty _ _ _ Hbody Hret), Hret. reflexivity.
  - intros Hret Hne.
    destruct (String.eqb_spec (ret st) ""); [congruence|]. simpl.
    destruct (Nat.eqb_spec (length (split "," (d +:+ newline))) (length (cv_names st)));
      [congruence | reflexivity].
  - intros Hret Heq Htok.
    destruct (String.eqb_spec (ret st) ""); [congruence|]. simpl.
    rewrite Heq, Nat.eqb_refl. simpl.
    destruct (rewrite_print_ok _ pstride pfile Htok) as [pc' Hpc].
    exists pc'. split; [exact Hpc|]. now rewrite Hpc.
Qed.




(** ** Fragments *)

Definition torsion_line : string := "phi: TORSION ATOMS=5,7,9,15" +:+ newline.
Definition distance_line : string := "DISTANCE ATOMS=1,20 LABEL=d1" +:+ newline.
Definition path_line : string :=
  "p1: PATH REFERENCE=path.pdb TYPE=OPTIMAL LAMBDA=15" +:+ newline.

(** Two declarations that are no PATH, a PATH declaration, and a directive
    with two fields. *)
Definition path_fragment : string :=
  torsion_line +:+ distance_line +:+ path_line
  +:+ "PRINT STRIDE=10 ARG=p1.spath,p1.zpath FILE=colvar" +:+ newline.

(** Two declarations and a directive with one field. *)
Definition short_print_fragment : string :=
  torsion_line +:+ distance_line +:+ "PRINT STRIDE=10 ARG=phi FILE=colvar" +:+ newline.

(** A directive and nothing before it. *)
Definition lone_print_fragment : string :=
  "PRINT STRIDE=10 ARG=phi FILE=colvar" +:+ newline.

Example path_fragment_parse :
  user_plumed_def (<["cv.dat" := path_fragment]> ∅) "cv.dat" 100 "plm.out" "restrained"
  = Ok (torsion_line +:+ distance_line +:+ path_line,
        ["p1.spath"; "p1.zpath"],
        Some "PRINT STRIDE=100 ARG=p1.spath,p1.zpath FILE=plm.out").
Proof. vm_compute. reflexivity. Qed.

Example path_fragment_parse_constrained :
  user_plumed_def (<["cv.dat" := path_fragment]> ∅) "cv.dat" 100 "plm.out" "constrained"
  = Ok (torsion_line +:+ distance_line +:+ path_line,
        [],
        Some "PRINT STRIDE=100 ARG=p1.spath,p1.zpath FILE=plm.out").
Proof. vm_compute. reflexivity. Qed.

(** A directive of one token passes the check of the counts and fails in the
    rewriting of its stride field. *)
Example single_token_directive :
  user_plumed_def_lines [torsion_line; "PRINT" +:+ newline] 100 "plm.out" "restrained"
  = Raise (IndexError "list assignment index out of range").
Proof. vm_compute. reflexivity. Qed.






Lemma print_directive_check_witness :
  user_plumed_def_lines (readlines short_print_fragment) 100 "plm.out" "restrained"
  = Raise (AssertionError
             "There are 2 CVs defined in the plumed file, while 1 CVs are printed.").
Proof.
  apply (print_directive_check (readlines short_print_fragment) 100 "plm.out"
           ("PRINT STRIDE=10 ARG=phi FILE=colvar" +:+ newline +:+ newline)
           (ScanState (torsion_line +:+ distance_line) ["phi"; "d1"] false)).
  - vm_compute. reflexivity.
  - vm_compute. discriminate.
  - vm_compute. discriminate.
Defined.

(** C6, as stated, fails: a fragment that is a monitoring directive alone has
    one field and no captured name, and the call raises the invalid-definition
    error, not the assertion on the counts. *)
Lemma lone_directive_is_invalid_definition :
  directive (readlines lone_print_fragment) = Some lone_print_fragment
  /\ length (split "," (lone_print_fragment +:+ newline)) = 1%nat
  /\ scan_lines "restrained" (readlines lone_print_fragment) (ScanState "" [] false)
     = Ok (ScanState "" [] false, Some (lone_print_fragment +:+ newline))
  /\ user_plumed_def (<["cv.dat" := lone_print_fragment]> ∅) "cv.dat" 100 "plm.out"
       "restrained"
     = Raise (RuntimeError "Invalid customed plumed files.").
Proof. repeat split; vm_compute; reflexivity. Qed.

End ParserProps.

(* ===================================================================== *)
(** * Further properties of the CV resolver and the restraint list *)
(* ===================================================================== *)

Module ResolverProps.
Import PyStr MakePlumed ParserProps RestraintProps.

Section Resolver.
Context `{PC : PlumedConstant} `{RL : RidLib}.

(** The (residue, angle, atoms) entries of a [dihedral_info], in the order the
    two loops of [make_torsion_list] visit them. *)
Definition torsion_pairs (info : dihedral_info) : list (Z * string * list Z) :=
  flat_map (fun ra => map (fun aa => (ra.1, aa.1, aa.2)) ra.2) info.

(** The angle is [phi] or [psi] and it has four atoms. *)
Definition valid_torsion (p : Z * string * list Z) : bool :=
  (String.eqb p.1.2 "phi" || String.eqb p.1.2 "psi") && (length p.2 =? 4)%nat.

Definition torsion_name_of (p : Z * string * list Z) : string :=
  make_torsion_name p.1.1 (if String.eqb p.1.2 "phi" then 0 else 1).

Definition torsion_def_of (p : Z * string * list Z) : string :=
  match p.2 with
  | [a1; a2; a3; a4] => dihedral_def_from_atoms (torsion_name_of p) a1 a2 a3 a4
  | _ => ""
  end.

Lemma torsion_angle_loop_spec (resid : Z) (angs : list (string * list Z)) :
  forall acc,
    let ps := map (fun aa => (resid, aa.1, aa.2)) angs in
    if forallb valid_torsion ps
    then torsion_angle_loop resid angs acc
         = Ok (acc.1 ++ map torsion_def_of ps, acc.2 ++ map torsion_name_of ps)
    else exists e, torsion_angle_loop resid angs acc = Raise e.
Proof.
  induction angs as [|[ang atoms] angs IH]; intros acc; simpl.
  - now rewrite !app_nil_r; destruct acc.
  - unfold valid_torsion at 1, angle_id. simpl.
    destruct (String.eqb ang "phi") eqn:Hphi; simpl.
    + destruct atoms as [|a1 [|a2 [|a3 [|a4 [|a5 rest]]]]]; simpl; eauto.
      specialize (IH (acc.1 ++ [dihedral_def_from_atoms (make_torsion_name resid 0) a1 a2 a3 a4],
                      acc.2 ++ [make_torsion_name resid 0])).
      simpl in IH. destruct (forallb valid_torsion _); [|exact IH].
      rewrite IH. unfold torsion_def_of, torsion_name_of. simpl. rewrite Hphi.
      now rewrite <- !app_assoc.
    + destruct (String.eqb ang "psi") eqn:Hpsi; simpl; [|eauto].
      destruct atoms as [|a1 [|a2 [|a3 [|a4 [|a5 rest]]]]]; simpl; eauto.
      specialize (IH (acc.1 ++ [dihedral_def_from_atoms (make_torsion_name resid 1) a1 a2 a3 a4],
                      acc.2 ++ [make_torsion_name resid 1])).
      simpl in IH. destruct (forallb valid_torsion _); [|exact IH].
      rewrite IH. unfold torsion_def_of, torsion_name_of. simpl. rewrite Hphi.
      now rewrite <- !app_assoc.
Qed.

Lemma torsion_resid_loop_spec (info : dihedral_info) :
  forall acc,
    if forallb valid_torsion (torsion_pairs info)
    then torsion_resid_loop info acc
         = Ok (acc.1 ++ map torsion_def_of (torsion_pairs info),
               acc.2 ++ map torsion_name_of (torsion_pairs info))
    else exists e, torsion_resid_loop info acc = Raise e.
Proof.
  induction info as [|[resid angs] info IH]; intros acc; simpl.
  - now rewrite !app_nil_r; destruct acc.
  - rewrite forallb_app.
    pose proof (torsion_angle_loop_spec resid angs acc) as Ha. simpl in Ha.
    destruct (forallb valid_torsion (map _ angs)); simpl.
    + rewrite Ha. simpl.
      specialize (IH (acc.1 ++ map torsion_def_of (map (fun aa => (resid, aa.1, aa.2)) angs),
                      acc.2 ++ map torsion_name_of (map (fun aa => (resid, aa.1, aa.2)) angs))).
      simpl in IH. destruct (forallb valid_torsion (torsion_pairs info)).
      * rewrite IH. now rewrite !map_app, <- !app_assoc.
      * exact IH.
    + destruct Ha as [e ->]. simpl. eauto.
Qed.

(** X1: [make_torsion_list] returns exactly when every requested angle is
    [phi] or [psi] and has four atoms; it then returns one definition and one
    name per (residue, angle) pair, in the order of the request, the two lists
    index-aligned. *)
Theorem make_torsion_list_spec (info : dihedral_info) :
  (if forallb valid_torsion (torsion_pairs info)
   then make_torsion_list info
        = Ok (map torsion_def_of (torsion_pairs info),
              map torsion_name_of (torsion_pairs info))
   else exists e, make_torsion_list info = Raise e)
  /\ (forall defs names,
        make_torsion_list info = Ok (defs, names) ->
        length defs = length (torsion_pairs info)
        /\ length names = length (torsion_pairs info)).
Proof.
  pose proof (torsion_resid_loop_spec info ([], [])) as H. simpl in H.
  unfold make_torsion_list. split; [exact H|].
  intros defs names Hok. destruct (forallb valid_torsion (torsion_pairs info)).
  - rewrite H in Hok. injection Hok as <- <-. now rewrite !length_map.
  - destruct H as [e He]. congruence.
Qed.

(** What [make_distance_list] makes of one key ["id1 id2"]: the definition
    and the name, when the key has two pieces that [int] accepts. *)
Definition distance_entry (key : string) : option (string * string) :=
  match split " " key with
  | [s1; s2] =>
      match py_int s1, py_int s2 with
      | Some a, Some b =>
          Some (distance_def_from_atoms (distance_name a b) s1 s2, distance_name a b)
      | _, _ => None
      end
  | _ => None
  end.

Definition distance_entries (info : distance_info) : list (option (string * string)) :=
  map (fun kv => distance_entry kv.1) info.

Definition entry_ok (e : option (string * string)) : bool :=
  match e with Some _ => true | None => false end.

Definition entry_def (e : option (string * string)) : string := (default ("", "") e).1.
Definition entry_name (e : option (string * string)) : string := (default ("", "") e).2.

Lemma distance_step_spec (key : string) :
  match distance_entry key with
  | Some (d, n) =>
      make_distance_name (split " " key) = Ok n
      /\ make_distance n (split " " key) = Ok d
  | None =>
      (exists e, make_distance_name (split " " key) = Raise e)
      \/ (exists n e, make_distance_name (split " " key) = Ok n
                      /\ make_distance n (split " " key) = Raise e)
  end.
Proof.
  unfold distance_entry, make_distance_name, make_distance, int_of_str.
  destruct (split " " key) as [|s1 [|s2 [|s3 rest]]].
  - left. eauto.
  - rewrite py_index_0. cbn -[py_index].
    destruct (py_int s1); cbn -[py_index]; [|eauto].
    rewrite py_index_1_single. eauto.
  - rewrite py_index_0. cbn -[py_index].
    destruct (py_int s1); cbn -[py_index]; [|eauto].
    rewrite py_index_1. cbn -[py_index].
    destruct (py_int s2); cbn -[py_index]; [|eauto].
    rewrite ?py_index_0, ?py_index_1. auto.
  - rewrite py_index_0. cbn -[py_index].
    destruct (py_int s1); cbn -[py_index]; [|eauto].
    rewrite py_index_1. cbn -[py_index].
    destruct (py_int s2); cbn -[py_index]; eauto.
Qed.

Lemma distance_loop_spec (info : distance_info) :
  forall acc,
    if forallb entry_ok (distance_entries info)
    then distance_loop info acc
         = Ok (acc.1 ++ map entry_def (distance_entries info),
               acc.2 ++ map entry_name (distance_entries info))
    else exists e, distance_loop info acc = Raise e.
Proof.
  induction info as [|[key v] info IH]; intros acc; simpl.
  - now rewrite !app_nil_r; destruct acc.
  - pose proof (distance_step_spec key) as Hk.
    destruct (distance_entry key) as [[d n]|]; simpl.
    + destruct Hk as [-> Hd]. simpl. rewrite Hd. simpl.
      specialize (IH (acc.1 ++ [d], acc.2 ++ [n])). simpl in IH.
      destruct (forallb entry_ok (distance_entries info)); [|exact IH].
      rewrite IH. unfold entry_def, entry_name. simpl. now rewrite <- !app_assoc.
    + destruct Hk as [[e ->]|(n & e & -> & Hd)]; simpl; [eauto|].
      rewrite Hd. simpl. eauto.
Qed.

(** X2: [make_distance_list] returns exactly when every key splits at single
    spaces into two pieces that [int] accepts; it then returns one definition
    and one name per key, in the order of the keys, the name made from the two
    integers and the definition from the two pieces as written. *)
Theorem make_distance_list_spec (info : distance_info) :
  (if forallb entry_ok (distance_entries info)
   then make_distance_list info
        = Ok (map entry_def (distance_entries info),
              map entry_name (distance_entries info))
   else exists e, make_distance_list info = Raise e)
  /\ (forall defs names,
        make_distance_list info = Ok (defs, names) ->
        length defs = length info /\ length names = length info).
Proof.
  pose proof (distance_loop_spec info ([], [])) as H. simpl in H.
  unfold make_distance_list. split; [exact H|].
  intros defs names Hok. destruct (forallb entry_ok (distance_entries info)).
  - rewrite H in Hok. injection Hok as <- <-.
    unfold distance_entries. now rewrite !length_map.
  - destruct H as [e He]. congruence.
Qed.

Lemma restraints_length (cvs : list string) :
  forall kappa at_, length kappa = length cvs -> length at_ = length cvs ->
    length (restraints cvs kappa at_) = length cvs.
Proof.
  induction cvs as [|cv cvs IH]; intros [|k ks] [|a as_]; simpl; try discriminate;
    auto.
Qed.

Lemma restraints_lookup (cvs : list string) :
  forall kappa at_ i cv k a,
    cvs !! i = Some cv -> kappa !! i = Some k -> at_ !! i = Some a ->
    restraints cvs kappa at_ !! i = Some (make_restraint ("res-" +:+ cv) cv k a).
Proof.
  induction cvs as [|c cvs IH]; intros [|k0 ks] [|a0 as_] [|i] cv k a; simpl;
    try discriminate.
  - now intros [= ->] [= ->] [= ->].
  - apply IH.
Qed.

(** X3: [make_restraint_list] returns exactly when [kappa] and [at] both have
    one entry per CV; it then returns one clause and one name per CV, the name
    [res-] followed by the CV name, the clause at each position made from the
    CV, the [kappa] and the [at] at that position. *)
Theorem make_restraint_list_spec (cvs : list string) (kappa at_ : list pyval) :
  ((exists r, make_restraint_list cvs kappa at_ = Ok r)
   <-> length kappa = length cvs /\ length at_ = length cvs)
  /\ (forall res_list res_names,
        make_restraint_list cvs kappa at_ = Ok (res_list, res_names) ->
        length res_list = length cvs
        /\ res_names = (String.append "res-" <$> cvs)
        /\ (forall i cv k a,
              cvs !! i = Some cv -> kappa !! i = Some k -> at_ !! i = Some a ->
              res_list !! i = Some (make_restraint ("res-" +:+ cv) cv k a))).
Proof.
  destruct (Nat.eq_dec (length kappa) (length cvs)) as [Hk|Hk];
    [destruct (Nat.eq_dec (length at_) (length cvs)) as [Ha|Ha]|].
  - rewrite (make_restraint_list_ok cvs kappa at_ Hk Ha). split.
    + split; [auto | eauto].
    + intros res_list res_names [= <- <-]. split; [now apply restraints_length|].
      split; [reflexivity|]. intros i cv k a. apply restraints_lookup.
  - rewrite (make_restraint_list_at cvs kappa at_ Hk Ha). split.
    + split; [intros [r Hr]; discriminate | tauto].
    + discriminate.
  - rewrite (make_restraint_list_kappa cvs kappa at_ Hk). split.
    + split; [intros [r Hr]; discriminate | tauto].
    + discriminate.
Qed.

End Resolver.
End ResolverProps.

(* ===================================================================== *)
(** * Further properties of the synthesizers *)
(* ===================================================================== *)

Module SynthesizerProps.
Import PyStr MakePlumed ParserProps RestraintProps ResolverProps.

Definition no_valid_cvs : exn := AssertionError "No valid CVs created.".

Section Synthesizer.
Context `{PC : PlumedConstant} `{RL : RidLib}.

(** X4: a request that resolves to no CV is rejected by every entry point that
    resolves it, with the assertion [No valid CVs created.]: for torsions, by
    the restrained synthesizer, the ensemble-bias synthesizer and [get_cv_name];
    for distances, by the constrained synthesizer, the ensemble-bias
    synthesizer and [get_cv_name]. *)
Theorem empty_resolution_rejected (fs : filesystem) (conf : option string)
    (cv_file : option (list string)) (selected_resid selected_atomid : option (list Z))
    (kappa at_ : scalar_or_seq) (trust_lvl_1 trust_lvl_2 : float)
    (model_list : list string) (stride : Z) (output method : string) :
  (get_dihedral_from_resid conf selected_resid = [] ->
   make_restraint_plumed fs conf cv_file selected_resid kappa at_ stride output
     "torsion" method = Raise no_valid_cvs
   /\ make_deepfe_plumed fs conf cv_file selected_resid selected_atomid
        trust_lvl_1 trust_lvl_2 model_list stride output "torsion"
      = Raise no_valid_cvs
   /\ get_cv_name fs conf cv_file selected_resid selected_atomid stride "torsion"
      = Raise no_valid_cvs)
  /\ (get_distance_from_atomid conf selected_atomid = [] ->
      make_constraint_plumed fs conf cv_file selected_atomid stride output
        "distance" method = Raise no_valid_cvs
      /\ make_deepfe_plumed fs conf cv_file selected_resid selected_atomid
           trust_lvl_1 trust_lvl_2 model_list stride output "distance"
         = Raise no_valid_cvs
      /\ get_cv_name fs conf cv_file selected_resid selected_atomid stride "distance"
         = Raise no_valid_cvs).
Proof.
  split; intros Hinfo.
  - unfold make_restraint_plumed, make_restraint_plumed_content, restraint_cv_block,
      make_deepfe_plumed, make_deepfe_plumed_content, get_cv_name,
      make_torsion_list_from_file.
    simpl String.eqb. cbv iota. rewrite Hinfo. auto.
  - unfold make_constraint_plumed, make_constraint_plumed_content,
      make_deepfe_plumed, make_deepfe_plumed_content, get_cv_name,
      make_distance_list_from_file.
    simpl String.eqb. cbv iota. rewrite Hinfo. auto.
Qed.

Lemma distance_from_file_lengths (conf : option string) (atomid : option (list Z))
    (defs names : list string) :
  make_distance_list_from_file conf atomid = Ok (defs, names) ->
  length defs = length names /\ (0 < length names)%nat.
Proof.
  unfold make_distance_list_from_file, make_distance_list.
  destruct (Nat.ltb_spec 0 (length (get_distance_from_atomid conf atomid)))
    as [Hpos|Hpos]; simpl; [|discriminate].
  pose proof (distance_loop_spec (get_distance_from_atomid conf atomid) ([], [])) as H.
  simpl in H.
  destruct (forallb entry_ok (distance_entries _)).
  - rewrite H. intros [= <- <-]. unfold distance_entries.
    rewrite !length_map. auto.
  - destruct H as [e ->]. discriminate.
Qed.

Lemma torsion_from_file_lengths (conf : option string) (resid : option (list Z))
    (defs names : list string) :
  make_torsion_list_from_file conf resid = Ok (defs, names) ->
  length defs = length names.
Proof.
  unfold make_torsion_list_from_file, make_torsion_list.
  destruct (0 <? length (get_dihedral_from_resid conf resid))%nat; simpl;
    [|discriminate].
  pose proof (torsion_resid_loop_spec (get_dihedral_from_resid conf resid) ([], [])) as H.
  simpl in H.
  destruct (forallb valid_torsion (torsion_pairs _)).
  - rewrite H. intros [= <- <-]. now rewrite !length_map.
  - destruct H as [e ->]. discriminate.
Qed.

(** X5: in distance mode the constrained synthesizer is the distance
    definitions followed by one monitoring clause over the resolved names,
    joined by newlines; the branch that reads [print_content], which this mode
    leaves unbound, is never taken. *)
Theorem constraint_distance_script (fs : filesystem) (conf : option string)
    (cv_file : option (list string)) (selected_atomid : option (list Z))
    (stride : Z) (output method : string) :
  make_constraint_plumed fs conf cv_file selected_atomid stride output
    "distance" method
  = (make_distance_list_from_file conf selected_atomid
     ≫= fun dn =>
          Ok (list_to_string
                ((VStr <$> dn.1) ++ [VStr (make_print dn.2 stride output)])
                newline))
  /\ make_constraint_plumed fs conf cv_file selected_atomid stride output
       "distance" method
     <> Raise (UnboundLocalError "print_content").
Proof.
  assert (Heq : make_constraint_plumed fs conf cv_file selected_atomid stride output
                  "distance" method
                = (make_distance_list_from_file conf selected_atomid
                   ≫= fun dn =>
                        Ok (list_to_string
                              ((VStr <$> dn.1) ++ [VStr (make_print dn.2 stride output)])
                              newline))).
  { unfold make_constraint_plumed, make_constraint_plumed_content.
    simpl String.eqb. cbv iota.
    destruct (make_distance_list_from_file conf selected_atomid) as [[defs names]|e]
      eqn:Hd; [|reflexivity].
    destruct (distance_from_file_lengths _ _ _ _ Hd) as [_ Hpos]. simpl.
    destruct names as [|n names]; [simpl in Hpos; lia | reflexivity]. }
  split; [exact Heq|]. rewrite Heq.
  destruct (make_distance_list_from_file conf selected_atomid) as [[defs names]|e]
    eqn:Hd; simpl; [discriminate|].
  intros [= ->]. revert Hd.
  unfold make_distance_list_from_file, make_distance_list.
  destruct (0 <? length _)%nat; simpl; [|discriminate].
  pose proof (distance_loop_spec (get_distance_from_atomid conf selected_atomid)
                ([], [])) as H.
  destruct (forallb entry_ok (distance_entries _)); [now rewrite H|].
  intros Hd. clear H. revert Hd.
  generalize (@nil string, @nil string).
  induction (get_distance_from_atomid conf selected_atomid) as [|[key v] info IH];
    intros acc; simpl; [discriminate|].
  pose proof (distance_step_spec key) as Hk.
  destruct (distance_entry key) as [[d n]|].
  - destruct Hk as [-> Hm]. simpl. rewrite Hm. simpl. apply IH.
  - destruct Hk as [[e He]|(n & e & Hn & He)].
    + rewrite He. simpl. intros [= ->]. revert He.
      unfold make_distance_name, int_of_str.
      destruct (py_index (split " " key) 0) as [s1|e1] eqn:H0; simpl.
      * destruct (py_int s1); simpl; [|discriminate].
        destruct (py_index (split " " key) 1) as [s2|e2] eqn:H1; simpl.
        -- destruct (py_int s2); discriminate.
        -- intros [= ->]. apply py_index_raises in H1. discriminate.
      * intros [= ->]. apply py_index_raises in H0. discriminate.
    + rewrite Hn. simpl. rewrite He. simpl. intros [= ->]. revert He.
      unfold make_distance. destruct (py_assert _ _) eqn:Ha; simpl.
      * destruct (py_index (split " " key) 0) as [s1|e1] eqn:H0; simpl.
        -- destruct (py_index (split " " key) 1) as [s2|e2] eqn:H1; simpl;
             [discriminate|].
           intros [= ->]. apply py_index_raises in H1. discriminate.
        -- intros [= ->]. apply py_index_raises in H0. discriminate.
      * intros [= ->]. revert Ha. unfold py_assert.
        destruct (_ =? _)%nat; discriminate.
Qed.

(** X6: [get_cv_name] and the ensemble-bias synthesizer agree, for every
    mode: when [get_cv_name] raises, [make_deepfe_plumed] raises the same
    error; when it returns names, the content of the script is one definition
    per name, then the bias clause over these names, then the monitoring clause
    over these names.  With an empty model list the bias entry is still there,
    as the empty string. *)
Theorem deepfe_agrees_with_get_cv_name (fs : filesystem) (conf : option string)
    (cv_file : option (list string)) (selected_resid selected_atomid : option (list Z))
    (trust_lvl_1 trust_lvl_2 : float) (model_list : list string)
    (stride : Z) (output mode : string) :
  (forall e,
     get_cv_name fs conf cv_file selected_resid selected_atomid stride mode = Raise e ->
     make_deepfe_plumed fs conf cv_file selected_resid selected_atomid
       trust_lvl_1 trust_lvl_2 model_list stride output mode = Raise e)
  /\ (forall names,
        get_cv_name fs conf cv_file selected_resid selected_atomid stride mode = Ok names ->
        exists defs,
          length defs = length names
          /\ make_deepfe_plumed_content fs conf cv_file selected_resid selected_atomid
               trust_lvl_1 trust_lvl_2 model_list stride output mode
             = Ok ((VStr <$> defs)
                   ++ [VStr (make_deepfe_bias names trust_lvl_1 trust_lvl_2 model_list);
                       VStr (make_print names stride output)]))
  /\ (forall names, make_deepfe_bias names trust_lvl_1 trust_lvl_2 [] = "").
Proof.
  unfold make_deepfe_plumed, make_deepfe_plumed_content, get_cv_name.
  split; [|split; [|reflexivity]].
  - intros e.
    destruct (String.eqb mode "torsion").
    { destruct (make_torsion_list_from_file conf selected_resid) as [[d n]|e'];
        simpl; [discriminate | now intros [= ->]]. }
    destruct (String.eqb mode "distance").
    { destruct (make_distance_list_from_file conf selected_atomid) as [[d n]|e'];
        simpl; [discriminate | now intros [= ->]]. }
    destruct (String.eqb mode "custom"); [|now intros [= ->]].
    destruct (first_cv_file cv_file) as [f|e']; simpl; now intros [= ->].
  - intros names.
    destruct (String.eqb mode "torsion").
    { destruct (make_torsion_list_from_file conf selected_resid) as [[d n]|e'] eqn:Hd;
        simpl; [|discriminate].
      intros [= ->]. exists d. split; [now apply torsion_from_file_lengths in Hd|].
      now rewrite <- app_assoc. }
    destruct (String.eqb mode "distance").
    { destruct (make_distance_list_from_file conf selected_atomid) as [[d n]|e'] eqn:Hd;
        simpl; [|discriminate].
      intros [= ->]. exists d.
      split; [now apply distance_from_file_lengths in Hd|].
      now rewrite <- app_assoc. }
    destruct (String.eqb mode "custom"); [|discriminate].
    destruct (first_cv_file cv_file) as [f|e']; simpl; discriminate.
Qed.

(** X7: a script the restrained synthesizer returns is, in this order, the CV
    content of its mode, one restraint clause per CV name, and one monitoring
    clause over the CV names; in torsion mode the CV content is one definition
    per name, in custom mode it is the one body of the fragment. *)
Theorem restraint_script_structure (fs : filesystem) (conf : option string)
    (cv_file : option (list string)) (selected_resid : option (list Z))
    (kappa at_ : scalar_or_seq) (stride : Z) (output mode method : string)
    (script : list pyval) :
  make_restraint_plumed_content fs conf cv_file selected_resid kappa at_ stride
    output mode method = Ok script ->
  exists content cvs res_list,
    restraint_cv_block fs conf cv_file selected_resid stride output mode method
    = Ok (content, cvs)
    /\ script = content ++ (VStr <$> res_list) ++ [VStr (make_print cvs stride output)]
    /\ length res_list = length cvs
    /\ (mode = "torsion" -> length content = length cvs)
    /\ (mode = "custom" -> length content = 1%nat).
Proof.
  unfold make_restraint_plumed_content.
  destruct (restraint_cv_block _ _ _ _ _ _ _ _) as [[content cvs]|e] eqn:Hcv;
    simpl; [|discriminate].
  unfold restraint_clause_block.
  set (ks := broadcast kappa (length cvs)). set (as_ := broadcast at_ (length cvs)).
  destruct (Nat.eq_dec (length ks) (length cvs)) as [Hk|Hk];
    [destruct (Nat.eq_dec (length as_) (length cvs)) as [Ha|Ha]|].
  - rewrite (make_restraint_list_ok cvs ks as_ Hk Ha). simpl. intros [= <-].
    exists content, cvs, (restraints cvs ks as_).
    split; [reflexivity|]. split; [now rewrite <- app_assoc|].
    split; [now apply restraints_length|].
    revert Hcv. unfold restraint_cv_block. split; intros ->; simpl in Hcv.
    + destruct (make_torsion_list_from_file conf selected_resid) as [[d n]|e] eqn:Hd;
        simpl in Hcv; [|discriminate].
      injection Hcv as <- <-. rewrite length_fmap.
      now apply torsion_from_file_lengths in Hd.
    + destruct (first_cv_file cv_file) as [f|e]; simpl in Hcv; [|discriminate].
      destruct (user_plumed_def fs f stride output method) as [[[r n] pc]|e];
        simpl in Hcv; [|discriminate].
      now injection Hcv as <- <-.
  - rewrite (make_restraint_list_at cvs ks as_ Hk Ha). discriminate.
  - rewrite (make_restraint_list_kappa cvs ks as_ Hk). discriminate.
Qed.

End Synthesizer.

Lemma empty_resolution_rejected_witness :
  make_restraint_plumed (PC := Sample.constants) (RL := Sample.lib [] [])
    ∅ None None (Some [7]) default_kappa default_at default_stride default_output
    "torsion" "restrained"
  = Raise no_valid_cvs.
Proof.
  apply (empty_resolution_rejected (PC := Sample.constants) (RL := Sample.lib [] [])
           ∅ None None (Some [7]) None default_kappa default_at
           1.0%float 2.0%float ["graph.pb"] default_stride default_output "restrained").
  reflexivity.
Defined.

Lemma restraint_script_structure_witness :
  exists content cvs res_list,
    restraint_cv_block (PC := Sample.constants) (RL := Sample.lib residues_12 [])
      ∅ None None (Some [12]) 100 "plm.out" "torsion" "restrained"
    = Ok (content, cvs)
    /\ [VStr "dih-012-00: TORSION ATOMS=1,2,3,4";
        VStr "dih-012-01: TORSION ATOMS=5,6,7,8";
        VStr "res-dih-012-00: RESTRAINT ARG=dih-012-00 KAPPA=0.5 AT=1.0";
        VStr "res-dih-012-01: RESTRAINT ARG=dih-012-01 KAPPA=0.5 AT=1.0";
        VStr "PRINT STRIDE=100 ARG=dih-012-00,dih-012-01 FILE=plm.out"]
       = content ++ (VStr <$> res_list)
         ++ [VStr (make_print (PC := Sample.constants)
                     (RL := Sample.lib residues_12 []) cvs 100 "plm.out")]
    /\ length res_list = length cvs
    /\ ("torsion" = "torsion" -> length content = length cvs)
    /\ ("torsion" = "custom" -> length content = 1%nat).
Proof.
  apply (restraint_script_structure (PC := Sample.constants)
           (RL := Sample.lib residues_12 [])
           ∅ None None (Some [12]) default_kappa default_at 100 "plm.out"
           "torsion" "restrained").
  vm_compute. reflexivity.
Defined.

End SynthesizerProps.

(* ===================================================================== *)
(** * Further properties of the custom CV parser *)
(* ===================================================================== *)

Module ParserExtra.
Import PyStr MakePlumed ParserProps.

Definition assignment_out_of_range : exn :=
  IndexError "list assignment index out of range".

Lemma py_setitem_last {A} (l : list A) (x v : A) :
  py_setitem (l ++ [x]) (-1) v = Ok (l ++ [v]).
Proof.
  unfold py_setitem. rewrite length_app. simpl length.
  destruct (Z.ltb_spec (-1) 0) as [_|?]; [|lia].
  destruct (Z.leb_spec 0 (-1 + Z.of_nat (length l + 1))) as [_|?]; [|lia].
  destruct (Z.ltb_spec (-1 + Z.of_nat (length l + 1)) (Z.of_nat (length l + 1)))
    as [_|?]; [|lia].
  simpl. f_equal.
  replace (Z.to_nat (-1 + Z.of_nat (length l + 1))) with (length l + 0)%nat by lia.
  now rewrite insert_app_r.
Qed.

Lemma py_setitem_1 {A} (a b v : A) (l : list A) :
  py_setitem (a :: b :: l) 1 v = Ok (a :: v :: l).
Proof.
  unfold py_setitem. simpl length.
  destruct (Z.ltb_spec 1 0) as [?|_]; [lia|].
  destruct (Z.leb_spec 0 1) as [_|?]; [|lia].
  destruct (Z.ltb_spec 1 (Z.of_nat (S (S (length l))))) as [_|?]; [|lia].
  reflexivity.
Qed.

(** X8: the rewriting of a monitoring directive replaces its second token by
    the stride field and its last token by the file field, whatever these
    tokens were, and joins the tokens by single spaces.  A directive of two
    tokens keeps its first token and the stride field only; a directive of
    fewer tokens raises [IndexError]. *)
Theorem rewrite_print_tokens (pc : string) (pstride : Z) (pfile : string) :
  match split_ws pc with
  | [] | [_] => rewrite_print pc pstride pfile = Raise assignment_out_of_range
  | [t0; _] =>
      rewrite_print pc pstride pfile = Ok (t0 +:+ " " +:+ "STRIDE=" +:+ of_Z pstride)
  | t0 :: _ :: rest =>
      rewrite_print pc pstride pfile
      = Ok (join " " (t0 :: ("STRIDE=" +:+ of_Z pstride)
                         :: removelast rest ++ ["FILE=" +:+ pfile]))
  end.
Proof.
  unfold rewrite_print.
  destruct (split_ws pc) as [|t0 [|t1 rest]]; [reflexivity | reflexivity |].
  destruct rest as [|t2 rest]; [reflexivity|].
  destruct (exists_last (l := t2 :: rest)) as (mid & tn & Hlast); [discriminate|].
  rewrite Hlast.
  change (t0 :: t1 :: mid ++ [tn]) with ((t0 :: t1 :: mid) ++ [tn]).
  rewrite py_setitem_last. cbn [mbind result_bind].
  change ((t0 :: t1 :: mid) ++ ["FILE=" +:+ pfile])
    with (t0 :: t1 :: (mid ++ ["FILE=" +:+ pfile])).
  rewrite py_setitem_1. cbn [mbind result_bind].
  now rewrite removelast_last.
Qed.

(** ** The body *)

Lemma line_step_ret (method line : string) (st st' : scan_state) :
  line_step method line st = Ok st' -> ret st' = ret st +:+ line.
Proof.
  unfold line_step. destruct (String.eqb method "restrained").
  - intros H. now rewrite (restrained_line_ret _ _ _ H).
  - destruct (String.eqb method "constrained"); now intros [= <-].
Qed.

Lemma scan_body_ret_any (method : string) (ls : list string) :
  forall st st', scan_body method ls st = Ok st' -> ret st' = ret st +:+ body ls.
Proof.
  induction ls as [|l ls IH]; intros st st'; simpl.
  - intros [= <-]. now rewrite append_nil_r.
  - destruct (line_step method l st) as [st1|e] eqn:H1; simpl; [|discriminate].
    intros H. rewrite (IH _ _ H), (line_step_ret _ _ _ _ H1). apply append_assoc.
Qed.

Lemma body_readlines (text : string) : body (readlines text) = text.
Proof.
  induction text as [|c text IH]; [reflexivity|]. cbn [readlines].
  destruct (Ascii.eqb c (ascii_of_nat 10)).
  - cbn [body]. change (String c (body (readlines text)) = String c text).
    now rewrite IH.
  - destruct (readlines text) as [|l ls]; cbn [body] in *.
    + now rewrite <- IH.
    + change (String c (l +:+ body ls) = String c text). now rewrite IH.
Qed.

Lemma scanned_no_directive (lines : list string) :
  directive lines = None -> scanned lines = lines.
Proof.
  induction lines as [|l ls IH]; simpl; [reflexivity|].
  destruct (is_print_line l); [discriminate|]. intros H. now rewrite IH.
Qed.

Lemma user_plumed_def_lines_print (lines : list string) (pstride : Z)
    (pfile method r : string) (names : list string) :
  user_plumed_def_lines lines pstride pfile method = Ok (r, names, None) ->
  directive lines = None.
Proof.
  unfold user_plumed_def_lines. rewrite scan_lines_decompose. fold init.
  destruct (scan_body method (scanned lines) init) as [st|e]; simpl; [|discriminate].
  destruct (String.eqb (ret st) "" && (length (cv_names st) =? 0)%nat);
    [discriminate|].
  destruct (directive lines) as [d|]; [|reflexivity]. simpl.
  destruct (String.eqb method "restrained").
  - destruct (py_assert _ _); simpl; [|discriminate].
    destruct (rewrite_print _ _ _); discriminate.
  - destruct (String.eqb method "constrained"); [|discriminate].
    destruct (rewrite_print _ _ _); discriminate.
Qed.

(** X9: whatever the method, the body [user_plumed_def] returns is the text of
    the lines before the first monitoring directive, unchanged; when it returns
    no directive, the body is the whole text of the file. *)
Theorem body_passes_through (fs : filesystem) (cv_file : string) (pstride : Z)
    (pfile method r : string) (names : list string) (pc : option string) :
  user_plumed_def fs cv_file pstride pfile method = Ok (r, names, pc) ->
  exists text,
    fs !! cv_file = Some text
    /\ r = body (scanned (readlines text))
    /\ (pc = None -> r = text).
Proof.
  unfold user_plumed_def. destruct (fs !! cv_file) as [text|]; [|discriminate].
  intros H. exists text. split; [reflexivity|].
  assert (Hr : r = body (scanned (readlines text))).
  { apply user_plumed_def_lines_scan in H as (st & Hst & -> & _).
    now rewrite (scan_body_ret_any _ _ _ _ Hst). }
  split; [exact Hr|]. intros ->.
  apply user_plumed_def_lines_print in H.
  now rewrite Hr, (scanned_no_directive _ H), body_readlines.
Qed.

(** ** The names, in the order of the declarations *)








(** X11: a line that contains [#] anywhere is never the monitoring directive
    and never declares a CV: under the restrained method the loop only adds
    it to the body. *)
Theorem comment_line_skipped (line : string) (rest : list string) (st : scan_state) :
  contains "#" line = true ->
  is_print_line line = false
  /\ cv_type line = None
  /\ scan_lines "restrained" (line :: rest) st
     = scan_lines "restrained" rest
         (ScanState (ret st +:+ line) (cv_names st) (ispath st)).
Proof.
  intros Hc.
  assert (Hp : is_print_line line = false)
    by (unfold is_print_line; rewrite Hc; apply andb_false_r).
  assert (Ht : cv_type line = None).
  { unfold cv_type, colon_form, label_form. rewrite Hc. simpl.
    now rewrite !andb_false_r. }
  split; [exact Hp|]. split; [exact Ht|].
  cbn [scan_lines]. rewrite Hp. simpl String.eqb. cbv iota.
  pose proof (restrained_line_cases line
                (ScanState (ret st +:+ line) (cv_names st) (ispath st))) as H.
  rewrite Ht in H. now rewrite H.
Qed.

(** X12: with a method that is neither [restrained] nor [constrained] the
    parser captures no name and returns the directive as read, followed by a
    second newline, without rewriting its stride or file; an empty body is
    rejected as for the other methods. *)
Theorem other_method_parse (lines : list string) (pstride : Z) (pfile method : string) :
  method <> "restrained" -> method <> "constrained" ->
  user_plumed_def_lines lines pstride pfile method
  = if String.eqb (body (scanned lines)) ""
    then Raise invalid_definition
    else Ok (body (scanned lines), [],
             (fun d => d +:+ newline) <$> directive lines).
Proof.
  intros Hr Hc. apply String.eqb_neq in Hr, Hc.
  assert (Hscan : forall ls st,
             scan_body method ls st
             = Ok (ScanState (ret st +:+ body ls) (cv_names st) (ispath st))).
  { induction ls as [|l ls IH]; intros [r n i]; simpl.
    - now rewrite append_nil_r.
    - unfold line_step. rewrite Hr, Hc. simpl. rewrite IH. simpl.
      now rewrite append_assoc. }
  unfold user_plumed_def_lines. rewrite scan_lines_decompose, Hscan. simpl.
  rewrite !append_nil_l, andb_true_r.
  destruct (String.eqb (body (scanned lines)) ""); [reflexivity|].
  rewrite Hr, Hc. destruct (directive lines); reflexivity.
Qed.

Section ConstrainedCustom.
Context `{PC : PlumedConstant} `{RL : RidLib}.

(** X13: in custom mode under the constrained method, the content of the
    constrained synthesizer is the body of the fragment followed by the
    fragment's own directive, rewritten; a fragment without directive gives the
    body followed by [None]; an empty body is rejected. *)
Theorem constraint_custom_content (fs : filesystem) (conf : option string)
    (f : string) (others : list string) (selected_atomid : option (list Z))
    (stride : Z) (output text : string) :
  fs !! f = Some text ->
  make_constraint_plumed_content fs conf (Some (f :: others)) selected_atomid
    stride output "custom" "constrained"
  = if String.eqb (body (scanned (readlines text))) ""
    then Raise invalid_definition
    else match directive (readlines text) with
         | Some d =>
             rewrite_print (d +:+ newline) stride output
             ≫= fun pc => Ok [VStr (body (scanned (readlines text))); VStr pc]
         | None => Ok [VStr (body (scanned (readlines text))); VNone]
         end.
Proof.
  intros Hf. unfold make_constraint_plumed_content, first_cv_file, user_plumed_def.
  simpl String.eqb. cbv iota. rewrite py_index_0. cbn [mbind result_bind].
  rewrite Hf, user_plumed_def_lines_constrained.
  destruct (String.eqb (body (scanned (readlines text))) ""); [reflexivity|].
  destruct (directive (readlines text)) as [d|]; [|reflexivity].
  destruct (rewrite_print (d +:+ newline) stride output); reflexivity.
Qed.

End ConstrainedCustom.

(** Two declarations and a directive that names both. *)
Definition plain_fragment : string :=
  torsion_line +:+ distance_line
  +:+ "PRINT STRIDE=10 ARG=phi,d1 FILE=colvar" +:+ newline.

(** A declaration behind a comment mark, and one with a trailing comment. *)
Definition commented_line : string :=
  "psi: TORSION ATOMS=7,9,15,17 # backbone" +:+ newline.

Lemma body_passes_through_witness :
  exists text,
    (<["cv.dat" := plain_fragment]> ∅ : filesystem) !! "cv.dat" = Some text
    /\ torsion_line +:+ distance_line = body (scanned (readlines text))
    /\ (Some "PRINT STRIDE=100 ARG=phi,d1 FILE=plm.out" = None ->
        torsion_line +:+ distance_line = text).
Proof.
  apply (body_passes_through (<["cv.dat" := plain_fragment]> ∅) "cv.dat" 100
           "plm.out" "restrained" (torsion_line +:+ distance_line) ["phi"; "d1"]
           (Some "PRINT STRIDE=100 ARG=phi,d1 FILE=plm.out")).
  vm_compute. reflexivity.
Defined.



Lemma comment_line_skipped_witness :
  is_print_line commented_line = false
  /\ cv_type commented_line = None
  /\ scan_lines "restrained" [commented_line; torsion_line] init
     = scan_lines "restrained" [torsion_line]
         (ScanState (ret init +:+ commented_line) (cv_names init) (ispath init)).
Proof.
  apply (comment_line_skipped commented_line [torsion_line] init).
  vm_compute. reflexivity.
Defined.

Lemma other_method_parse_witness :
  user_plumed_def_lines (readlines plain_fragment) 100 "plm.out" "restraint"
  = if String.eqb (body (scanned (readlines plain_fragment))) ""
    then Raise invalid_definition
    else Ok (body (scanned (readlines plain_fragment)), [],
             (fun d => d +:+ newline) <$> directive (readlines plain_fragment)).
Proof.
  apply (other_method_parse (readlines plain_fragment) 100 "plm.out" "restraint");
    discriminate.
Defined.

Lemma constraint_custom_content_witness :
  make_constraint_plumed_content (PC := Sample.constants) (RL := Sample.lib [] [])
    (<["cv.dat" := plain_fragment]> ∅) None (Some ["cv.dat"]) None
    100 "plm.out" "custom" "constrained"
  = if String.eqb (body (scanned (readlines plain_fragment))) ""
    then Raise invalid_definition
    else match directive (readlines plain_fragment) with
         | Some d =>
             rewrite_print (d +:+ newline) 100 "plm.out"
             ≫= fun pc => Ok [VStr (body (scanned (readlines plain_fragment))); VStr pc]
         | None => Ok [VStr (body (scanned (readlines plain_fragment))); VNone]
         end.
Proof.
  apply (constraint_custom_content (PC := Sample.constants) (RL := Sample.lib [] [])
           (<["cv.dat" := plain_fragment]> ∅) None "cv.dat" [] None 100 "plm.out"
           plain_fragment).
  vm_compute. reflexivity.
Defined.

Example constraint_custom_script :
  make_constraint_plumed (PC := Sample.constants) (RL := Sample.lib [] [])
    (<["cv.dat" := plain_fragment]> ∅) None (Some ["cv.dat"]) None
    100 "plm.out" "custom" "constrained"
  = Ok (torsion_line +:+ distance_line +:+ newline
        +:+ "PRINT STRIDE=100 ARG=phi,d1 FILE=plm.out").
Proof. vm_compute. reflexivity. Qed.

End ParserExtra.

(* ===================================================================== *)
(** * Properties of [RunSelect.execute] *)
(* ===================================================================== *)

Module RunSelectExecProps.
Import RunSelect RunSelectExec RunSelectProps.

Section Execute.
Context {Data Std : Type}.
Variables (model_devi_name sel_ndx_name sel_gro_name sel_lmp_name : string).
Variables (format_gro format_lmp format_cv_init : Z -> Z -> string).
Variable make_std : list Data -> list string -> list Std.
Variable select_from_devi : list Std -> float -> list Z.
Variable py_int : string -> option Z.
Variable frame_time : Z -> float -> float -> float.

#[local] Existing Instances exec_ret exec_bind.

Abbreviation event := (event (Data := Data) (Std := Std)).
Abbreviation slice := (slice sel_gro_name sel_lmp_name format_gro frame_time).
Abbreviation slice_gmx_loop := (slice_gmx_loop (Data := Data) (Std := Std) format_gro frame_time).
Abbreviation collect_loop := (collect_loop (Std := Std) format_gro format_lmp format_cv_init).
Abbreviation execute :=
  (execute model_devi_name sel_ndx_name sel_gro_name sel_lmp_name
     format_gro format_lmp format_cv_init make_std select_from_devi py_int frame_time).

(** The name of the structure file of a selected index. *)
Definition conf_name (slice_mode : string) (w sel : Z) : string :=
  if String.eqb slice_mode "dpdata" then format_lmp w sel else format_gro w sel.

Definition conf_tag (task_name : string) (sel : Z) : string :=
  task_name +:+ "_" +:+ PyStr.of_Z sel.

Definition known_style (slice_mode : string) : bool :=
  String.eqb slice_mode "gmx" || String.eqb slice_mode "mdtraj"
  || String.eqb slice_mode "dpdata".

Definition tags_of (task_name slice_mode : string) (w : Z) (sel_idx : list Z)
    (tags : gmap string string) : gmap string string :=
  fold_left (fun m sel => <[conf_name slice_mode w sel := conf_tag task_name sel]> m)
    sel_idx tags.

Definition row_events (w : Z) (sel_idx : list Z) (rows : list Data) : list event :=
  zip_with (fun sel row => SaveRow (format_cv_init w sel) row) sel_idx rows.

(** The deviation record and [_selected_idx], by the committee. *)
Definition selection (models : option (list string)) (trust_lvl_1 : float)
    (cls_sel_idx : list Z) (cls_sel_data : list Data)
  : saved (Idx := Z) (Std := Std) * list Z :=
  match models with
  | None => (SavedDevi [], arange (length cls_sel_idx))
  | Some ms =>
      (SavedDevi (make_std cls_sel_data ms),
       select_from_devi (make_std cls_sel_data ms) trust_lvl_1)
  end.

(** The calls and the outcome of the slicing step. *)
Definition slice_outcome (xtc top : string) (w : Z) (dt output_freq : option float)
    (slice_mode : string) (sel_idx : list Z) : list event * result unit :=
  if String.eqb slice_mode "gmx" then
    match dt, output_freq, sel_idx with
    | None, _, _ =>
        ([], Raise (AssertionError "Please provide time step to slice trajectory."))
    | Some d, Some f, _ =>
        (map (fun sel => SliceXtc xtc top w (AtTime (frame_time sel d f))
                           (format_gro w sel) "gmx") sel_idx, Ok tt)
    | Some d, None, [] => ([], Ok tt)
    | Some d, None, _ :: _ => ([], Raise (TypeError "unsupported operand type(s) for *"))
    end
  else if String.eqb slice_mode "mdtraj" then
    ([SliceXtc xtc top w (AtFrames sel_idx) sel_gro_name "mdtraj"], Ok tt)
  else if String.eqb slice_mode "dpdata" then
    ([SliceDump xtc w sel_idx sel_lmp_name "dpdata"], Ok tt)
  else ([], Raise (RuntimeError "Unknown Style for Slicing Trajectory.")).

Lemma slice_gmx_loop_spec (xtc top : string) (w : Z) (d f : float) (sel_idx : list Z) :
  forall log,
    slice_gmx_loop xtc top w d (Some f) sel_idx log
    = (log ++ map (fun sel => SliceXtc xtc top w (AtTime (frame_time sel d f))
                                (format_gro w sel) "gmx") sel_idx, Ok tt).
Proof.
  induction sel_idx as [|sel rest IH]; intros log; simpl.
  - now rewrite app_nil_r.
  - unfold mbind, exec_bind, lift, emit. simpl. rewrite IH.
    now rewrite <- app_assoc.
Qed.

Lemma slice_spec (xtc top : string) (w : Z) (dt output_freq : option float)
    (slice_mode : string) (sel_idx : list Z) (log : list event) :
  slice xtc top w dt output_freq slice_mode sel_idx log
  = (log ++ (slice_outcome xtc top w dt output_freq slice_mode sel_idx).1,
     (slice_outcome xtc top w dt output_freq slice_mode sel_idx).2).
Proof.
  unfold RunSelectExec.slice, slice_outcome.
  destruct (String.eqb slice_mode "gmx").
  - destruct dt as [d|]; [|unfold lift; simpl; now rewrite app_nil_r].
    destruct output_freq as [f|]; [apply slice_gmx_loop_spec|].
    destruct sel_idx; simpl; now rewrite app_nil_r.
  - destruct (String.eqb slice_mode "mdtraj"); [reflexivity|].
    destruct (String.eqb slice_mode "dpdata"); [reflexivity|].
    unfold lift. simpl. now rewrite app_nil_r.
Qed.

Lemma collect_loop_spec (task_name slice_mode : string) (w : Z) :
  known_style slice_mode = true ->
  forall sel_idx pre rows confs inits tags log,
    length rows = length sel_idx ->
    collect_loop task_name w slice_mode (pre ++ rows) (length pre) sel_idx
      (confs, inits, tags) log
    = (log ++ row_events w sel_idx rows,
       Ok (confs ++ map (fun sel => JoinPath task_name (conf_name slice_mode w sel)) sel_idx,
           inits ++ map (fun sel => JoinPath task_name (format_cv_init w sel)) sel_idx,
           tags_of task_name slice_mode w sel_idx tags)).
Proof.
  intros Hk. induction sel_idx as [|sel rest IH];
    intros pre rows confs inits tags log Hlen.
  - destruct rows; [|discriminate]. simpl. unfold mret, exec_ret.
    now rewrite !app_nil_r.
  - destruct rows as [|row rows]; [discriminate|]. simpl in Hlen.
    cbn [RunSelectExec.collect_loop].
    assert (Hname :
      (if String.eqb slice_mode "dpdata"
       then (confs ++ [JoinPath task_name (format_lmp w sel)],
             <[format_lmp w sel := task_name +:+ "_" +:+ PyStr.of_Z sel]> tags)
       else if String.eqb slice_mode "gmx" || String.eqb slice_mode "mdtraj"
            then (confs ++ [JoinPath task_name (format_gro w sel)],
                  <[format_gro w sel := task_name +:+ "_" +:+ PyStr.of_Z sel]> tags)
            else (confs, tags))
      = (confs ++ [JoinPath task_name (conf_name slice_mode w sel)],
         <[conf_name slice_mode w sel := conf_tag task_name sel]> tags)).
    { unfold conf_name, conf_tag. unfold known_style in Hk.
      destruct (String.eqb slice_mode "dpdata"); [reflexivity|].
      rewrite orb_false_r in Hk. now rewrite Hk. }
    rewrite Hname. unfold mbind, exec_bind, lift, emit.
    rewrite (np_index_lookup (pre ++ row :: rows) (length pre) row)
      by now apply list_lookup_middle.
    replace (pre ++ row :: rows) with ((pre ++ [row]) ++ rows)
      by now rewrite <- app_assoc.
    replace (S (length pre)) with (length (pre ++ [row]))
      by (rewrite length_app; simpl; lia).
    rewrite IH by lia. simpl.
    now rewrite <- !app_assoc.
Qed.

Lemma np_take_length {A} (a : list A) (idx : list Z) :
  forall l, np_take a idx = Ok l -> length l = length idx.
Proof.
  induction idx as [|i idx IH]; intros l; simpl.
  - now intros [= <-].
  - destruct (np_index a i); simpl; [|discriminate].
    destruct (np_take a idx) as [xs|]; simpl; [|discriminate].
    intros [= <-]. simpl. f_equal. now apply IH.
Qed.

Lemma slice_outcome_known (xtc top : string) (w : Z) (dt output_freq : option float)
    (slice_mode : string) (sel_idx : list Z) (evs : list event) (u : unit) :
  slice_outcome xtc top w dt output_freq slice_mode sel_idx = (evs, Ok u) ->
  known_style slice_mode = true.
Proof.
  unfold slice_outcome, known_style.
  destruct (String.eqb slice_mode "gmx"); [reflexivity|].
  destruct (String.eqb slice_mode "mdtraj"); [reflexivity|].
  destruct (String.eqb slice_mode "dpdata"); [reflexivity | discriminate].
Qed.

(** The outputs of a run that selected [sel_idx]. *)
Definition outputs (task_name slice_mode : string) (w : Z) (sel_idx : list Z) : op_out :=
  OpOut (map (fun sel => JoinPath task_name (conf_name slice_mode w sel)) sel_idx)
        (map (fun sel => JoinPath task_name (format_cv_init w sel)) sel_idx)
        (JoinPath task_name ("cls_" +:+ model_devi_name))
        (JoinPath task_name sel_ndx_name)
        (tags_of task_name slice_mode w sel_idx ∅).

Definition bad_task_name (task_name : string) : exn :=
  ValueError ("invalid literal for int() with base 10: " +:+ task_name).

(** [execute] without its loops: the events and the outcome, step by step. *)
Lemma execute_spec (task_name : string) (cls_sel_idx : list Z)
    (cls_sel_data : list Data) (models : option (list string))
    (trust_lvl_1 : float) (xtc top : string) (dt output_freq : option float)
    (slice_mode : string) (log : list event) :
  execute task_name cls_sel_idx cls_sel_data models trust_lvl_1 xtc top dt
    output_freq slice_mode log
  = match py_int task_name with
    | None => (log ++ [Mkdir task_name], Raise (bad_task_name task_name))
    | Some w =>
        let sel := selection models trust_lvl_1 cls_sel_idx cls_sel_data in
        let devi := SaveTxt ("cls_" +:+ model_devi_name) sel.1 in
        match np_take cls_sel_idx sel.2 with
        | Raise e => (log ++ [Mkdir task_name; devi], Raise e)
        | Ok sel_idx =>
            let records :=
              [Mkdir task_name; devi; SaveTxt sel_ndx_name (SavedIdx sel_idx)] in
            match np_take cls_sel_data sel.2 with
            | Raise e => (log ++ records, Raise e)
            | Ok sel_data =>
                match slice_outcome xtc top w dt output_freq slice_mode sel_idx with
                | (evs, Raise e) => (log ++ records ++ evs, Raise e)
                | (evs, Ok _) =>
                    (log ++ records ++ evs ++ row_events w sel_idx sel_data,
                     Ok (outputs task_name slice_mode w sel_idx))
                end
            end
        end
    end.
Proof.
  unfold RunSelectExec.execute, mbind, exec_bind, emit, lift, mret, exec_ret.
  cbv beta.
  destruct (py_int task_name) as [w|]; [|reflexivity].
  assert (Htail : forall devi sel_idx sel_data,
    length sel_data = length sel_idx ->
    (let (log', r) :=
       slice xtc top w dt output_freq slice_mode sel_idx
         (((log ++ [Mkdir task_name]) ++ [devi])
          ++ [SaveTxt sel_ndx_name (SavedIdx sel_idx)]) in
     match r with
     | Ok _ =>
         let (log'0, r0) :=
           collect_loop task_name w slice_mode sel_data 0 sel_idx ([], [], ∅) log' in
         match r0 with
         | Ok a0 =>
             (let '(conf_list, cv_init_list, conf_tags) := a0 in
              fun log0 : list event =>
                (log0,
                 Ok (OpOut conf_list cv_init_list
                       (JoinPath task_name ("cls_" +:+ model_devi_name))
                       (JoinPath task_name sel_ndx_name) conf_tags)))
               log'0
         | Raise e => (log'0, Raise e)
         end
     | Raise e => (log', Raise e)
     end)
    = (let (evs, r) := slice_outcome xtc top w dt output_freq slice_mode sel_idx in
       match r with
       | Ok _ =>
           (log ++ [Mkdir task_name; devi; SaveTxt sel_ndx_name (SavedIdx sel_idx)]
              ++ evs ++ row_events w sel_idx sel_data,
            Ok (outputs task_name slice_mode w sel_idx))
       | Raise e =>
           (log ++ [Mkdir task_name; devi; SaveTxt sel_ndx_name (SavedIdx sel_idx)]
              ++ evs, Raise e)
       end)).
  { intros devi sel_idx sel_data Hlen. rewrite slice_spec.
    destruct (slice_outcome xtc top w dt output_freq slice_mode sel_idx)
      as [evs [u|e]] eqn:Hslice; cbn [fst snd]; [|now rewrite <- !app_assoc].
    pose proof (slice_outcome_known _ _ _ _ _ _ _ _ _ Hslice) as Hk.
    pose proof (collect_loop_spec task_name slice_mode w Hk sel_idx [] sel_data
                  [] [] ∅
                  ((((log ++ [Mkdir task_name]) ++ [devi])
                    ++ [SaveTxt sel_ndx_name (SavedIdx sel_idx)]) ++ evs) Hlen) as Hc.
    simpl in Hc. rewrite Hc. unfold outputs. now rewrite <- !app_assoc. }
  destruct models as [ms|]; cbv zeta; cbn [selection fst snd].
  - destruct (np_take cls_sel_idx _) as [sel_idx|e] eqn:Hidx;
      [|now rewrite <- app_assoc].
    destruct (np_take cls_sel_data _) as [sel_data|e] eqn:Hdata;
      [|now rewrite <- !app_assoc].
    apply Htail.
    now rewrite (np_take_length _ _ _ Hdata), (np_take_length _ _ _ Hidx).
  - destruct (np_take cls_sel_idx _) as [sel_idx|e] eqn:Hidx;
      [|now rewrite <- app_assoc].
    destruct (np_take cls_sel_data _) as [sel_data|e] eqn:Hdata;
      [|now rewrite <- !app_assoc].
    apply Htail.
    now rewrite (np_take_length _ _ _ Hdata), (np_take_length _ _ _ Hidx).
Qed.

(** X14: a run of [execute] that returns has made its effects in this order:
    the task directory, the deviation record, the index record holding the
    selected indices, the slicing calls, and then one CV file per selected
    index holding the data row selected with it.  It returns one structure
    path and one CV path per selected index, in the order of the selection. *)
Theorem execute_returns (task_name : string) (cls_sel_idx : list Z)
    (cls_sel_data : list Data) (models : option (list string))
    (trust_lvl_1 : float) (xtc top : string) (dt output_freq : option float)
    (slice_mode : string) (log log' : list event) (out : op_out) :
  execute task_name cls_sel_idx cls_sel_data models trust_lvl_1 xtc top dt
    output_freq slice_mode log = (log', Ok out) ->
  exists w sel_idx sel_data slices,
    py_int task_name = Some w
    /\ np_take cls_sel_idx
         (selection models trust_lvl_1 cls_sel_idx cls_sel_data).2 = Ok sel_idx
    /\ np_take cls_sel_data
         (selection models trust_lvl_1 cls_sel_idx cls_sel_data).2 = Ok sel_data
    /\ length sel_data = length sel_idx
    /\ log' = log
              ++ [Mkdir task_name;
                  SaveTxt ("cls_" +:+ model_devi_name)
                    (selection models trust_lvl_1 cls_sel_idx cls_sel_data).1;
                  SaveTxt sel_ndx_name (SavedIdx sel_idx)]
              ++ slices
              ++ zip_with (fun sel row => SaveRow (format_cv_init w sel) row)
                   sel_idx sel_data
    /\ slice xtc top w dt output_freq slice_mode sel_idx [] = (slices, Ok tt)
    /\ selected_confs out
       = map (fun sel => JoinPath task_name (conf_name slice_mode w sel)) sel_idx
    /\ selected_cv_init out
       = map (fun sel => JoinPath task_name (format_cv_init w sel)) sel_idx.
Proof.
  rewrite execute_spec.
  destruct (py_int task_name) as [w|]; [|discriminate]. cbv zeta.
  destruct (np_take cls_sel_idx _) as [sel_idx|e] eqn:Hidx; [|discriminate].
  destruct (np_take cls_sel_data _) as [sel_data|e] eqn:Hdata; [|discriminate].
  destruct (slice_outcome xtc top w dt output_freq slice_mode sel_idx)
    as [evs [[]|e]] eqn:Hslice; [|discriminate].
  intros [= <- <-]. exists w, sel_idx, sel_data, evs.
  repeat split; try reflexivity.
  - now rewrite (np_take_length _ _ _ Hdata), (np_take_length _ _ _ Hidx).
  - rewrite slice_spec, Hslice. reflexivity.
Qed.

(** X15: a slicing step that returns has made one call of [slice_xtc] per
    selected index in the [gmx] style, and one call in all in the other
    styles; it has added nothing else. *)
Theorem slice_call_count (xtc top : string) (w : Z) (dt output_freq : option float)
    (slice_mode : string) (sel_idx : list Z) (log log' : list event) (u : unit) :
  slice xtc top w dt output_freq slice_mode sel_idx log = (log', Ok u) ->
  exists calls,
    log' = log ++ calls
    /\ length calls = (if String.eqb slice_mode "gmx" then length sel_idx else 1%nat)
    /\ Forall (fun c => match c with
                        | SliceXtc _ _ _ _ _ _ | SliceDump _ _ _ _ _ => True
                        | _ => False
                        end) calls.
Proof.
  rewrite slice_spec. unfold slice_outcome.
  destruct (String.eqb slice_mode "gmx").
  - destruct dt as [d|]; [|discriminate].
    destruct output_freq as [f|]; [|destruct sel_idx; [|discriminate]].
    + intros [= <-]. eexists. split; [reflexivity|]. split; [apply length_map|].
      apply Forall_forall. intros c Hc. apply list_elem_of_In, in_map_iff in Hc
        as (sel & <- & _). exact I.
    + intros [= <-]. exists []. now repeat split.
  - destruct (String.eqb slice_mode "mdtraj").
    { intros [= <-]. eexists. split; [reflexivity|]. split; [reflexivity|].
      now repeat constructor. }
    destruct (String.eqb slice_mode "dpdata"); [|discriminate].
    intros [= <-]. eexists. split; [reflexivity|]. split; [reflexivity|].
    now repeat constructor.
Qed.

(** X16: when the selection went through, an unknown slicing style raises
    [RuntimeError], and the [gmx] style without a time step raises
    [AssertionError], whatever was selected; in both cases the task directory
    and the two records have been made and nothing has been sliced. *)
Theorem execute_slicing_failure (task_name : string) (cls_sel_idx : list Z)
    (cls_sel_data : list Data) (models : option (list string))
    (trust_lvl_1 : float) (xtc top : string) (dt output_freq : option float)
    (slice_mode : string) (log : list event) (w : Z)
    (sel_idx : list Z) (sel_data : list Data) :
  py_int task_name = Some w ->
  np_take cls_sel_idx (selection models trust_lvl_1 cls_sel_idx cls_sel_data).2
  = Ok sel_idx ->
  np_take cls_sel_data (selection models trust_lvl_1 cls_sel_idx cls_sel_data).2
  = Ok sel_data ->
  let records :=
    [Mkdir task_name;
     SaveTxt ("cls_" +:+ model_devi_name)
       (selection models trust_lvl_1 cls_sel_idx cls_sel_data).1;
     SaveTxt sel_ndx_name (SavedIdx sel_idx)] in
  (known_style slice_mode = false ->
   execute task_name cls_sel_idx cls_sel_data models trust_lvl_1 xtc top dt
     output_freq slice_mode log
   = (log ++ records, Raise (RuntimeError "Unknown Style for Slicing Trajectory.")))
  /\ (slice_mode = "gmx" -> dt = None ->
      execute task_name cls_sel_idx cls_sel_data models trust_lvl_1 xtc top dt
        output_freq slice_mode log
      = (log ++ records,
         Raise (AssertionError "Please provide time step to slice trajectory."))).
Proof.
  intros Hw Hidx Hdata records. split.
  - intros Hk. rewrite execute_spec, Hw. cbv zeta. rewrite Hidx, Hdata.
    unfold slice_outcome. unfold known_style in Hk.
    apply orb_false_iff in Hk as [Hk Hd]. apply orb_false_iff in Hk as [Hg Hm].
    rewrite Hg, Hm, Hd. now rewrite app_nil_r.
  - intros -> ->. rewrite execute_spec, Hw. cbv zeta. rewrite Hidx, Hdata.
    unfold slice_outcome. simpl String.eqb. cbv iota. now rewrite app_nil_r.
Qed.

(** An index array is within the bounds of an array of [n] entries. *)
Definition in_bounds (n : nat) (i : Z) : Prop := - Z.of_nat n <= i < Z.of_nat n.

Lemma py_index_bounds {A} (l : list A) (i : Z) :
  (in_bounds (length l) i -> exists a, py_index l i = Ok a)
  /\ (~ in_bounds (length l) i ->
      py_index l i = Raise (IndexError "list index out of range")).
Proof.
  unfold in_bounds, py_index. split.
  - intros Hb. destruct (Z.ltb_spec i 0).
    + destruct (Z.leb_spec 0 (i + Z.of_nat (length l))) as [_|?]; [|lia].
      destruct (Z.ltb_spec (i + Z.of_nat (length l)) (Z.of_nat (length l)))
        as [_|?]; [|lia].
      simpl. destruct (lookup_lt_is_Some_2 l (Z.to_nat (i + Z.of_nat (length l))))
        as [a ->]; [lia | eauto].
    + destruct (Z.leb_spec 0 i) as [_|?]; [|lia].
      destruct (Z.ltb_spec i (Z.of_nat (length l))) as [_|?]; [|lia].
      simpl. destruct (lookup_lt_is_Some_2 l (Z.to_nat i)) as [a ->]; [lia | eauto].
  - intros Hb. destruct (Z.ltb_spec i 0).
    + destruct (Z.leb_spec 0 (i + Z.of_nat (length l))); [|reflexivity].
      destruct (Z.ltb_spec (i + Z.of_nat (length l)) (Z.of_nat (length l)));
        [|reflexivity]. lia.
    + destruct (Z.leb_spec 0 i); [|reflexivity].
      destruct (Z.ltb_spec i (Z.of_nat (length l))); [lia | reflexivity].
Qed.

Lemma np_index_bounds {A} (a : list A) (i : Z) :
  (in_bounds (length a) i -> exists x, np_index a i = Ok x)
  /\ (~ in_bounds (length a) i ->
      np_index a i = Raise (out_of_bounds i (length a))).
Proof.
  rewrite np_index_py. destruct (py_index_bounds a i) as [Hok Hbad]. split.
  - intros H. destruct (Hok H) as [x ->]. eauto.
  - intros H. now rewrite (Hbad H).
Qed.

Lemma in_bounds_dec (n : nat) (i : Z) : {in_bounds n i} + {~ in_bounds n i}.
Proof.
  unfold in_bounds.
  destruct (Z_le_dec (- Z.of_nat n) i); [|right; lia].
  destruct (Z_lt_dec i (Z.of_nat n)); [left; lia | right; lia].
Qed.

(** An index array selects exactly when each of its entries is in bounds. *)
Lemma np_take_in_bounds {A} (a : list A) (idx : list Z) :
  (exists l, np_take a idx = Ok l) <-> Forall (in_bounds (length a)) idx.
Proof.
  induction idx as [|i idx IH]; simpl.
  - split; [constructor | eauto].
  - split.
    + intros [l Hl]. destruct (in_bounds_dec (length a) i) as [Hi|Hi].
      * constructor; [exact Hi|]. apply IH.
        destruct (np_index a i); simpl in Hl; [|discriminate].
        destruct (np_take a idx) as [xs|]; [eauto | discriminate].
      * rewrite (proj2 (np_index_bounds a i) Hi) in Hl. discriminate.
    + intros H. apply Forall_cons in H as [Hi Hrest].
      destruct (proj1 (np_index_bounds a i) Hi) as [x ->].
      destruct (proj2 IH Hrest) as [xs ->]. simpl. eauto.
Qed.

(** The exception names the first entry out of bounds. *)
Lemma np_take_first_bad {A} (a : list A) (pre post : list Z) (i : Z) :
  Forall (in_bounds (length a)) pre -> ~ in_bounds (length a) i ->
  np_take a (pre ++ i :: post) = Raise (out_of_bounds i (length a)).
Proof.
  intros Hpre Hi. induction Hpre as [|j pre Hj _ IH]; simpl.
  - now rewrite (proj2 (np_index_bounds a i) Hi).
  - destruct (proj1 (np_index_bounds a j) Hj) as [x ->]. simpl. now rewrite IH.
Qed.

(** An index array with an entry out of bounds has a first such entry. *)
Lemma first_out_of_bounds (n : nat) (idx : list Z) :
  ~ Forall (in_bounds n) idx ->
  exists pre i post,
    idx = pre ++ i :: post /\ Forall (in_bounds n) pre /\ ~ in_bounds n i.
Proof.
  induction idx as [|j idx IH]; intros H.
  - destruct H. constructor.
  - destruct (in_bounds_dec n j) as [Hj|Hj].
    + destruct IH as (pre & i & post & -> & Hpre & Hi).
      * intros Hrest. apply H. now constructor.
      * exists (j :: pre), i, post. repeat split; [now constructor | exact Hi].
    + exists [], j, idx. repeat split; [constructor | exact Hj].
Qed.

(** X17: the indices [select_from_devi] returns select from the candidates
    exactly when each lies in [-n, n) for [n] candidates; otherwise [execute]
    raises numpy's [IndexError], which names the first index outside and the
    number of candidates, when only the task directory and the deviation
    record have been made. *)
Theorem execute_index_out_of_bounds (task_name : string) (cls_sel_idx : list Z)
    (cls_sel_data : list Data) (ms : list string)
    (trust_lvl_1 : float) (xtc top : string) (dt output_freq : option float)
    (slice_mode : string) (log : list event) (w : Z) :
  py_int task_name = Some w ->
  let stds := make_std cls_sel_data ms in
  let n := length cls_sel_idx in
  ((exists sel_idx, np_take cls_sel_idx (select_from_devi stds trust_lvl_1) = Ok sel_idx)
   <-> Forall (in_bounds n) (select_from_devi stds trust_lvl_1))
  /\ (forall pre i post,
        select_from_devi stds trust_lvl_1 = pre ++ i :: post ->
        Forall (in_bounds n) pre -> ~ in_bounds n i ->
        execute task_name cls_sel_idx cls_sel_data (Some ms) trust_lvl_1 xtc top dt
          output_freq slice_mode log
        = (log ++ [Mkdir task_name;
                   SaveTxt ("cls_" +:+ model_devi_name) (SavedDevi stds)],
           Raise (IndexError
                    ("index " +:+ PyStr.of_Z i
                     +:+ " is out of bounds for axis 0 with size "
                     +:+ PyStr.of_nat n))))
  /\ (~ Forall (in_bounds n) (select_from_devi stds trust_lvl_1) ->
      exists pre i post,
        select_from_devi stds trust_lvl_1 = pre ++ i :: post
        /\ Forall (in_bounds n) pre /\ ~ in_bounds n i).
Proof.
  intros Hw stds n. split; [apply np_take_in_bounds|].
  split; [|apply first_out_of_bounds].
  intros pre i post Hsel Hpre Hi.
  rewrite execute_spec, Hw. cbv zeta. cbn [selection fst snd].
  fold stds. rewrite Hsel, (np_take_first_bad _ _ _ _ Hpre Hi). reflexivity.
Qed.

(** X18: without a committee, with one data row per candidate, [execute] in
    the [mdtraj] and [dpdata] styles returns for every candidate list: it makes
    the empty deviation record, the index record of all candidates, one slicing
    call over all candidates and one CV file per candidate, and returns one
    structure path and one CV path per candidate. *)
Theorem execute_without_models (task_name : string) (cls_sel_idx : list Z)
    (cls_sel_data : list Data) (trust_lvl_1 : float) (xtc top : string)
    (dt output_freq : option float) (log : list event) (w : Z) :
  py_int task_name = Some w ->
  length cls_sel_data = length cls_sel_idx ->
  execute task_name cls_sel_idx cls_sel_data None trust_lvl_1 xtc top dt
    output_freq "mdtraj" log
  = (log ++ [Mkdir task_name;
             SaveTxt ("cls_" +:+ model_devi_name) (SavedDevi []);
             SaveTxt sel_ndx_name (SavedIdx cls_sel_idx);
             SliceXtc xtc top w (AtFrames cls_sel_idx) sel_gro_name "mdtraj"]
         ++ zip_with (fun sel row => SaveRow (format_cv_init w sel) row)
              cls_sel_idx cls_sel_data,
     Ok (outputs task_name "mdtraj" w cls_sel_idx))
  /\ execute task_name cls_sel_idx cls_sel_data None trust_lvl_1 xtc top dt
       output_freq "dpdata" log
     = (log ++ [Mkdir task_name;
                SaveTxt ("cls_" +:+ model_devi_name) (SavedDevi []);
                SaveTxt sel_ndx_name (SavedIdx cls_sel_idx);
                SliceDump xtc w cls_sel_idx sel_lmp_name "dpdata"]
            ++ zip_with (fun sel row => SaveRow (format_cv_init w sel) row)
                 cls_sel_idx cls_sel_data,
        Ok (outputs task_name "dpdata" w cls_sel_idx))
  /\ length (selected_confs (outputs task_name "mdtraj" w cls_sel_idx))
     = length cls_sel_idx.
Proof.
  intros Hw Hlen.
  assert (Hi : np_take cls_sel_idx (arange (length cls_sel_idx)) = Ok cls_sel_idx)
    by apply np_take_arange.
  assert (Hd : np_take cls_sel_data (arange (length cls_sel_idx)) = Ok cls_sel_data)
    by (rewrite <- Hlen; apply np_take_arange).
  split; [|split].
  - rewrite execute_spec, Hw. cbv zeta. cbn [selection fst snd]. rewrite Hi, Hd.
    reflexivity.
  - rewrite execute_spec, Hw. cbv zeta. cbn [selection fst snd]. rewrite Hi, Hd.
    reflexivity.
  - simpl. apply length_map.
Qed.

Lemma tags_of_keeps (task_name slice_mode : string) (w : Z) (sel_idx : list Z) :
  forall tags name, is_Some (tags !! name) ->
    is_Some (tags_of task_name slice_mode w sel_idx tags !! name).
Proof.
  unfold tags_of. induction sel_idx as [|sel rest IH]; intros tags name H; simpl;
    [exact H|].
  apply IH. destruct (decide (conf_name slice_mode w sel = name)) as [->|Hne].
  - rewrite lookup_insert_eq. eauto.
  - now rewrite lookup_insert_ne.
Qed.

Lemma tags_of_selected (task_name slice_mode : string) (w : Z) (sel_idx : list Z) :
  forall tags sel, In sel sel_idx ->
    is_Some (tags_of task_name slice_mode w sel_idx tags !! conf_name slice_mode w sel).
Proof.
  induction sel_idx as [|s rest IH]; intros tags sel Hin; [destruct Hin|].
  destruct Hin as [->|Hin].
  - apply (tags_of_keeps task_name slice_mode w rest). rewrite lookup_insert_eq. eauto.
  - apply (IH _ _ Hin).
Qed.

Lemma tags_of_lookup (task_name slice_mode : string) (w : Z) (sel_idx : list Z) :
  forall tags name tag,
    tags_of task_name slice_mode w sel_idx tags !! name = Some tag ->
    tags !! name = Some tag
    \/ exists sel, In sel sel_idx /\ name = conf_name slice_mode w sel
                   /\ tag = conf_tag task_name sel.
Proof.
  unfold tags_of. induction sel_idx as [|s rest IH]; intros tags name tag H; simpl in *;
    [auto|].
  apply IH in H as [H|(sel & Hin & -> & ->)]; [|eauto 6].
  destruct (decide (conf_name slice_mode w s = name)) as [<-|Hne].
  - rewrite lookup_insert_eq in H. injection H as <-. eauto 6.
  - rewrite lookup_insert_ne in H by exact Hne. auto.
Qed.

(** X19: in the outputs of a run that returns, [selected_conf_tags] has an
    entry under the structure file name of every selected index, and no other
    entry; each tag is the task name, an underscore and a selected index whose
    structure file has that name. *)
Theorem conf_tags_cover (task_name : string) (cls_sel_idx : list Z)
    (cls_sel_data : list Data) (models : option (list string))
    (trust_lvl_1 : float) (xtc top : string) (dt output_freq : option float)
    (slice_mode : string) (log log' : list event) (out : op_out) :
  execute task_name cls_sel_idx cls_sel_data models trust_lvl_1 xtc top dt
    output_freq slice_mode log = (log', Ok out) ->
  exists w sel_idx,
    py_int task_name = Some w
    /\ np_take cls_sel_idx
         (selection models trust_lvl_1 cls_sel_idx cls_sel_data).2 = Ok sel_idx
    /\ (forall sel, In sel sel_idx ->
          is_Some (selected_conf_tags out !! conf_name slice_mode w sel))
    /\ (forall name tag,
          selected_conf_tags out !! name = Some tag ->
          exists sel, In sel sel_idx /\ name = conf_name slice_mode w sel
                      /\ tag = task_name +:+ "_" +:+ PyStr.of_Z sel).
Proof.
  rewrite execute_spec.
  destruct (py_int task_name) as [w|]; [|discriminate]. cbv zeta.
  destruct (np_take cls_sel_idx _) as [sel_idx|e] eqn:Hidx; [|discriminate].
  destruct (np_take cls_sel_data _) as [sel_data|e] eqn:Hdata; [|discriminate].
  destruct (slice_outcome xtc top w dt output_freq slice_mode sel_idx)
    as [evs [[]|e]] eqn:Hslice; [|discriminate].
  intros [= <- <-]. exists w, sel_idx. split; [reflexivity|].
  split; [reflexivity|]. simpl. split.
  - intros sel Hin. now apply tags_of_selected.
  - intros name tag H. apply tags_of_lookup in H as [H|H]; [|exact H].
    rewrite lookup_empty in H. discriminate.
Qed.

(** X20: on a run that returns, [execute] selects as the selection block does:
    the block, started on no record, returns the two records [execute] makes
    right after the task directory, and the selected indices that name the CV
    paths [execute] returns. *)
Theorem execute_selects_as_select_block (task_name : string) (cls_sel_idx : list Z)
    (cls_sel_data : list Data) (models : option (list string))
    (trust_lvl_1 : float) (xtc top : string) (dt output_freq : option float)
    (slice_mode : string) (log log' : list event) (out : op_out) :
  execute task_name cls_sel_idx cls_sel_data models trust_lvl_1 xtc top dt
    output_freq slice_mode log = (log', Ok out) ->
  exists w records sel_idx sel_data rest,
    select_block model_devi_name sel_ndx_name make_std select_from_devi
      models trust_lvl_1 cls_sel_idx cls_sel_data []
    = Ok (records, sel_idx, sel_data)
    /\ log' = log ++ Mkdir task_name
                     :: map (fun nd => SaveTxt nd.1 nd.2) records ++ rest
    /\ selected_cv_init out
       = map (fun sel => JoinPath task_name (format_cv_init w sel)) sel_idx.
Proof.
  rewrite execute_spec.
  destruct (py_int task_name) as [w|]; [|discriminate]. cbv zeta.
  destruct (np_take cls_sel_idx _) as [sel_idx|e] eqn:Hidx; [|discriminate].
  destruct (np_take cls_sel_data _) as [sel_data|e] eqn:Hdata; [|discriminate].
  destruct (slice_outcome xtc top w dt output_freq slice_mode sel_idx)
    as [evs [[]|e]] eqn:Hslice; [|discriminate].
  intros [= <- <-].
  exists w,
    [("cls_" +:+ model_devi_name,
      (selection models trust_lvl_1 cls_sel_idx cls_sel_data).1);
     (sel_ndx_name, SavedIdx sel_idx)],
    sel_idx, sel_data, (evs ++ row_events w sel_idx sel_data).
  split; [|split; reflexivity].
  unfold select_block, select_indices, save_txt.
  destruct models as [ms|]; cbn [selection fst snd] in *;
    rewrite Hidx; simpl; rewrite Hdata; reflexivity.
Qed.

End Execute.

Section Pairing.
Context {Idx Data Std : Type}.
Variables (model_devi_name sel_ndx_name : string).
Variable make_std : list Data -> list string -> list Std.
Variable select_from_devi : list Std -> float -> list Z.

Lemma py_index_position {A} (l : list A) (i : Z) (a : A) :
  py_index l i = Ok a ->
  l !! Z.to_nat (if i <? 0 then i + Z.of_nat (length l) else i) = Some a.
Proof.
  unfold py_index. destruct (_ && _); [|discriminate].
  destruct (l !! _) as [x|]; [now intros [= ->] | discriminate].
Qed.

Lemma np_take_pairs {A B} (a : list A) (b : list B) (idx : list Z) :
  length b = length a ->
  forall la lb, np_take a idx = Ok la -> np_take b idx = Ok lb ->
    forall i x d, la !! i = Some x -> lb !! i = Some d ->
      exists p, a !! p = Some x /\ b !! p = Some d.
Proof.
  intros Hlen. induction idx as [|j idx IH]; intros la lb; simpl.
  - intros [= <-] _ i x d H. now rewrite lookup_nil in H.
  - rewrite !np_index_py.
    destruct (py_index a j) as [xa|] eqn:Ha; simpl; [|discriminate].
    destruct (np_take a idx) as [ra|]; simpl; [|discriminate].
    destruct (py_index b j) as [xb|] eqn:Hb; simpl; [|discriminate].
    destruct (np_take b idx) as [rb|]; simpl; [|discriminate].
    intros [= <-] [= <-] [|i] x d; simpl.
    + intros [= <-] [= <-]. apply py_index_position in Ha, Hb.
      rewrite Hlen in Hb. eauto.
    + now apply IH.
Qed.

(** X21: with one data row per candidate, the selection block keeps every
    selected index with its own data row: [sel_idx] and [sel_data] have the
    same length, and the entries at each position come from one and the same
    position of the two inputs. *)
Theorem select_block_pairs (models : option (list string)) (trust_lvl_1 : float)
    (cls_sel_idx : list Idx) (cls_sel_data : list Data)
    (log log' : write_log (Idx := Idx) (Std := Std))
    (sel_idx : list Idx) (sel_data : list Data) :
  length cls_sel_data = length cls_sel_idx ->
  select_block model_devi_name sel_ndx_name make_std select_from_devi
    models trust_lvl_1 cls_sel_idx cls_sel_data log
  = Ok (log', sel_idx, sel_data) ->
  length sel_idx = length sel_data
  /\ (forall i x d, sel_idx !! i = Some x -> sel_data !! i = Some d ->
        exists p, cls_sel_idx !! p = Some x /\ cls_sel_data !! p = Some d).
Proof.
  intros Hlen. unfold select_block, select_indices.
  set (sel := match models with
              | Some ms => _
              | None => _
              end).
  destruct sel as [log0 selected].
  destruct (np_take cls_sel_idx selected) as [si|] eqn:Hi; simpl; [|discriminate].
  destruct (np_take cls_sel_data selected) as [sd|] eqn:Hd; simpl; [|discriminate].
  intros [= _ <- <-]. split.
  - now rewrite (np_take_length _ _ _ Hi), (np_take_length _ _ _ Hd).
  - exact (np_take_pairs cls_sel_idx cls_sel_data selected Hlen si sd Hi Hd).
Qed.

End Pairing.

(** ** A run on three candidates *)

(** Walker 3, candidates at frames 10, 20 and 30 with one CV row each, and a
    committee whose deviations keep the first and the last of them. *)
Module Demo.
Import PyStr.

Definition format_gro (w i : Z) : string := "conf_" +:+ of_Z w +:+ "_" +:+ of_Z i +:+ ".gro".
Definition format_lmp (w i : Z) : string := "conf_" +:+ of_Z w +:+ "_" +:+ of_Z i +:+ ".lmp".
Definition format_cv_init (w i : Z) : string := "cv_init_" +:+ of_Z w +:+ "_" +:+ of_Z i +:+ ".out".
Definition make_std (data : list (list Z)) (models : list string) : list float :=
  [0.5%float; 2.0%float; 0.25%float].
Definition select_from_devi (stds : list float) (lvl : float) : list Z := [0; 2].
Definition select_beyond (stds : list float) (lvl : float) : list Z := [0; 3].
Definition frame_time (sel : Z) (dt f : float) : float :=
  (SF2Prim (binary_normalize prec emax sel 0 false) * dt * f)%float.

Definition cls_sel_idx : list Z := [10; 20; 30].
Definition cls_sel_data : list (list Z) := [[1; 1]; [2; 2]; [3; 3]].

Definition run (select : list float -> float -> list Z)
    (models : option (list string)) (dt output_freq : option float)
    (slice_mode : string) :=
  execute (Data := list Z) (Std := float)
    "model_devi.txt" "sel.ndx" "conf_{walker}_{idx}.gro" "conf_{walker}_{idx}.lmp"
    format_gro format_lmp format_cv_init make_std select Sample.parse_int frame_time
    "3" cls_sel_idx cls_sel_data models 1.0%float "traj.xtc" "topol.top"
    dt output_freq slice_mode [].

Definition gmx_run := run select_from_devi (Some ["m1.pb"; "m2.pb"])
                        (Some 2.0%float) (Some 50.0%float) "gmx".

Definition gmx_log := Eval vm_compute in gmx_run.1.
Definition gmx_out : op_out :=
  Eval vm_compute in
    match gmx_run.2 with
    | Ok out => out
    | Raise _ => OpOut [] [] (JoinPath "" "") (JoinPath "" "") ∅
    end.

Example gmx_run_events :
  gmx_run.1
  = [Mkdir "3";
     SaveTxt "cls_model_devi.txt" (SavedDevi [0.5%float; 2.0%float; 0.25%float]);
     SaveTxt "sel.ndx" (SavedIdx [10; 30]);
     SliceXtc "traj.xtc" "topol.top" 3 (AtTime 1000.0%float) "conf_3_10.gro" "gmx";
     SliceXtc "traj.xtc" "topol.top" 3 (AtTime 3000.0%float) "conf_3_30.gro" "gmx";
     SaveRow "cv_init_3_10.out" [1; 1];
     SaveRow "cv_init_3_30.out" [3; 3]].
Proof. vm_compute. reflexivity. Qed.

End Demo.

Lemma execute_returns_witness :
  selected_confs Demo.gmx_out = [JoinPath "3" "conf_3_10.gro"; JoinPath "3" "conf_3_30.gro"]
  /\ selected_cv_init Demo.gmx_out
     = [JoinPath "3" "cv_init_3_10.out"; JoinPath "3" "cv_init_3_30.out"].
Proof.
  destruct (execute_returns "model_devi.txt" "sel.ndx" "conf_{walker}_{idx}.gro"
              "conf_{walker}_{idx}.lmp" Demo.format_gro Demo.format_lmp
              Demo.format_cv_init Demo.make_std Demo.select_from_devi
              Sample.parse_int Demo.frame_time
              "3" Demo.cls_sel_idx Demo.cls_sel_data (Some ["m1.pb"; "m2.pb"])
              1.0%float "traj.xtc" "topol.top" (Some 2.0%float) (Some 50.0%float)
              "gmx" [] Demo.gmx_log Demo.gmx_out
              ltac:(vm_compute; reflexivity))
    as (w & sel_idx & sel_data & slices & Hw & Hidx & _ & _ & _ & _ & Hconf & Hcv).
  vm_compute in Hw, Hidx. injection Hw as <-. injection Hidx as <-.
  split; [exact Hconf | exact Hcv].
Defined.

Lemma slice_call_count_witness :
  exists calls,
    [SliceXtc (Data := list Z) (Std := float) "traj.xtc" "topol.top" 3
       (AtTime 1000.0%float) "conf_3_10.gro" "gmx";
     SliceXtc "traj.xtc" "topol.top" 3 (AtTime 3000.0%float) "conf_3_30.gro" "gmx"]
    = [] ++ calls
    /\ length calls = 2%nat.
Proof.
  destruct (slice_call_count (Data := list Z) (Std := float)
              "conf_{walker}_{idx}.gro" "conf_{walker}_{idx}.lmp"
              Demo.format_gro Demo.frame_time "traj.xtc" "topol.top" 3
              (Some 2.0%float) (Some 50.0%float) "gmx" [10; 30] []
              [SliceXtc "traj.xtc" "topol.top" 3 (AtTime 1000.0%float)
                 "conf_3_10.gro" "gmx";
               SliceXtc "traj.xtc" "topol.top" 3 (AtTime 3000.0%float)
                 "conf_3_30.gro" "gmx"]
              tt ltac:(vm_compute; reflexivity))
    as (calls & Hlog & Hlen & _).
  exists calls. split; [exact Hlog | exact Hlen].
Defined.

Lemma execute_slicing_failure_witness :
  Demo.run Demo.select_from_devi (Some ["m1.pb"; "m2.pb"]) None None "trr"
  = ([Mkdir "3";
      SaveTxt "cls_model_devi.txt" (SavedDevi [0.5%float; 2.0%float; 0.25%float]);
      SaveTxt "sel.ndx" (SavedIdx [10; 30])],
     Raise (RuntimeError "Unknown Style for Slicing Trajectory.")).
Proof.
  apply (proj1 (execute_slicing_failure "model_devi.txt" "sel.ndx"
                  "conf_{walker}_{idx}.gro" "conf_{walker}_{idx}.lmp"
                  Demo.format_gro Demo.format_lmp Demo.format_cv_init
                  Demo.make_std Demo.select_from_devi Sample.parse_int
                  Demo.frame_time "3" Demo.cls_sel_idx Demo.cls_sel_data
                  (Some ["m1.pb"; "m2.pb"]) 1.0%float "traj.xtc" "topol.top"
                  None None "trr" [] 3 [10; 30] [[1; 1]; [3; 3]]
                  ltac:(vm_compute; reflexivity) ltac:(vm_compute; reflexivity)
                  ltac:(vm_compute; reflexivity))).
  vm_compute. reflexivity.
Defined.

Lemma execute_index_out_of_bounds_witness :
  Demo.run Demo.select_beyond (Some ["m1.pb"; "m2.pb"]) None None "mdtraj"
  = ([Mkdir "3";
      SaveTxt "cls_model_devi.txt" (SavedDevi [0.5%float; 2.0%float; 0.25%float])],
     Raise (IndexError "index 3 is out of bounds for axis 0 with size 3")).
Proof.
  apply (proj1 (proj2 (execute_index_out_of_bounds "model_devi.txt" "sel.ndx"
                  "conf_{walker}_{idx}.gro" "conf_{walker}_{idx}.lmp"
                  Demo.format_gro Demo.format_lmp Demo.format_cv_init
                  Demo.make_std Demo.select_beyond Sample.parse_int
                  Demo.frame_time "3" Demo.cls_sel_idx Demo.cls_sel_data
                  ["m1.pb"; "m2.pb"] 1.0%float "traj.xtc" "topol.top"
                  None None "mdtraj" [] 3 ltac:(vm_compute; reflexivity)))
           [0] 3 []).
  - reflexivity.
  - constructor; [|constructor]. unfold in_bounds. simpl. lia.
  - unfold in_bounds. simpl. lia.
Defined.

Lemma execute_without_models_witness :
  (Demo.run Demo.select_from_devi None None None "mdtraj").1
  = [Mkdir "3";
     SaveTxt "cls_model_devi.txt" (SavedDevi []);
     SaveTxt "sel.ndx" (SavedIdx [10; 20; 30]);
     SliceXtc "traj.xtc" "topol.top" 3 (AtFrames [10; 20; 30])
       "conf_{walker}_{idx}.gro" "mdtraj";
     SaveRow "cv_init_3_10.out" [1; 1];
     SaveRow "cv_init_3_20.out" [2; 2];
     SaveRow "cv_init_3_30.out" [3; 3]].
Proof.
  exact (f_equal fst
           (proj1 (execute_without_models "model_devi.txt" "sel.ndx"
                     "conf_{walker}_{idx}.gro" "conf_{walker}_{idx}.lmp"
                     Demo.format_gro Demo.format_lmp Demo.format_cv_init
                     Demo.make_std Demo.select_from_devi Sample.parse_int
                     Demo.frame_time "3" Demo.cls_sel_idx Demo.cls_sel_data
                     1.0%float "traj.xtc" "topol.top" None None [] 3
                     eq_refl eq_refl))).
Defined.

Lemma conf_tags_cover_witness :
  is_Some (selected_conf_tags Demo.gmx_out !! "conf_3_30.gro").
Proof.
  destruct (conf_tags_cover "model_devi.txt" "sel.ndx" "conf_{walker}_{idx}.gro"
              "conf_{walker}_{idx}.lmp" Demo.format_gro Demo.format_lmp
              Demo.format_cv_init Demo.make_std Demo.select_from_devi
              Sample.parse_int Demo.frame_time
              "3" Demo.cls_sel_idx Demo.cls_sel_data (Some ["m1.pb"; "m2.pb"])
              1.0%float "traj.xtc" "topol.top" (Some 2.0%float) (Some 50.0%float)
              "gmx" [] Demo.gmx_log Demo.gmx_out
              ltac:(vm_compute; reflexivity))
    as (w & sel_idx & Hw & Hidx & Hall & _).
  vm_compute in Hw, Hidx. injection Hw as <-. injection Hidx as <-.
  apply (Hall 30). right. left. reflexivity.
Defined.

Lemma execute_selects_as_select_block_witness :
  exists records sel_idx sel_data,
    select_block "model_devi.txt" "sel.ndx" Demo.make_std Demo.select_from_devi
      (Some ["m1.pb"; "m2.pb"]) 1.0%float Demo.cls_sel_idx Demo.cls_sel_data []
    = Ok (records, sel_idx, sel_data).
Proof.
  destruct (execute_selects_as_select_block "model_devi.txt" "sel.ndx"
              "conf_{walker}_{idx}.gro" "conf_{walker}_{idx}.lmp"
              Demo.format_gro Demo.format_lmp Demo.format_cv_init
              Demo.make_std Demo.select_from_devi Sample.parse_int Demo.frame_time
              "3" Demo.cls_sel_idx Demo.cls_sel_data (Some ["m1.pb"; "m2.pb"])
              1.0%float "traj.xtc" "topol.top" (Some 2.0%float) (Some 50.0%float)
              "gmx" [] Demo.gmx_log Demo.gmx_out
              ltac:(vm_compute; reflexivity))
    as (w & records & sel_idx & sel_data & rest & H & _).
  exists records, sel_idx, sel_data. exact H.
Defined.

Lemma select_block_pairs_witness :
  length [10; 30] = length [[1; 1]; [3; 3]]
  /\ (forall (i : nat) (x : Z) (d : list Z),
        [10; 30] !! i = Some x -> [[1; 1]; [3; 3]] !! i = Some d ->
        exists p, Demo.cls_sel_idx !! p = Some x /\ Demo.cls_sel_data !! p = Some d).
Proof.
  apply (select_block_pairs "model_devi.txt" "sel.ndx" Demo.make_std
           Demo.select_from_devi (Some ["m1.pb"; "m2.pb"]) 1.0%float
           Demo.cls_sel_idx Demo.cls_sel_data []
           [("cls_model_devi.txt", SavedDevi [0.5%float; 2.0%float; 0.25%float]);
            ("sel.ndx", SavedIdx [10; 30])]
           [10; 30] [[1; 1]; [3; 3]]).
  - reflexivity.
  - vm_compute. reflexivity.
Defined.

End RunSelectExecProps.

(* ===================================================================== *)
(** * Properties of the file artifacts of the resubmission *)
(* ===================================================================== *)

Module ResubmitFilesProps.
Import PyStr ResubmitFiles.

(** The file name of [file] is listed among the input files. *)
Definition is_inputfile (inputfiles : list json) (file : string) : bool :=
  str_in (basename file) inputfiles.

(** The file name of [file] is listed among the CV files and not among the
    input files. *)
Definition is_cvfile (inputfiles cvfiles : list json) (file : string) : bool :=
  negb (str_in (basename file) inputfiles) && str_in (basename file) cvfiles.

Lemma classify_loop_spec (inputfiles cvfiles : list json) (files : list string) :
  forall acc,
    classify_loop inputfiles cvfiles files acc
    = (acc.1 ++ List.filter (is_inputfile inputfiles) files,
       acc.2 ++ List.filter (is_cvfile inputfiles cvfiles) files).
Proof.
  induction files as [|file rest IH]; intros [a b]; simpl.
  - now rewrite !app_nil_r.
  - unfold is_inputfile, is_cvfile.
    destruct (str_in (basename file) inputfiles); simpl.
    + rewrite IH. simpl. now rewrite <- app_assoc.
    + destruct (str_in (basename file) cvfiles); simpl; rewrite IH; simpl;
        [now rewrite <- app_assoc | reflexivity].
Qed.

(** X22: of the other files, those whose file name is listed as an input file
    make up the input-file artifact, and those whose file name is listed as a
    CV file and not as an input file make up the CV-file artifact, each in the
    order given; no file is in both, a file listed nowhere is in neither, an
    artifact with no file is [None], and without other files both are [None]. *)
Theorem otherfiles_classified (jdata : json) (inputfiles cvfiles : list json)
    (files : list string) :
  collect_inputfiles jdata = Ok inputfiles ->
  collect_cvfiles jdata = Ok cvfiles ->
  file_artifacts jdata (Some files)
  = Ok (artifact_of (List.filter (is_inputfile inputfiles) files),
        artifact_of (List.filter (is_cvfile inputfiles cvfiles) files))
  /\ file_artifacts jdata None = Ok (None, None)
  /\ (forall f, In f (List.filter (is_inputfile inputfiles) files) ->
                ~ In f (List.filter (is_cvfile inputfiles cvfiles) files))
  /\ (forall fs, artifact_of fs = None <-> fs = []).
Proof.
  intros Hin Hcv. unfold file_artifacts. rewrite Hin, Hcv. simpl.
  rewrite classify_loop_spec. simpl. repeat split.
  - intros f Hf Hc. apply List.filter_In in Hf as [_ Hf], Hc as [_ Hc].
    unfold is_inputfile in Hf. unfold is_cvfile in Hc. rewrite Hf in Hc.
    discriminate.
  - destruct fs; [reflexivity | discriminate].
  - now intros ->.
Qed.

(** X23: the input files are read from the two MD sections as follows.
    Without an [inputfile] key in [ExploreMDConfig] nothing is collected and
    [LabelMDConfig] is not read, so that its input file is never collected on
    its own; with the key, [LabelMDConfig] must exist, and its input file is
    collected after that of [ExploreMDConfig] when it names one. *)
Theorem inputfiles_of_config (d e : list (string * json)) :
  dict_get d "ExploreMDConfig" = Some (JDict e) ->
  collect_inputfiles (JDict d)
  = match dict_get e "inputfile" with
    | None => Ok []
    | Some f =>
        match dict_get d "LabelMDConfig" with
        | None => Raise (KeyError "LabelMDConfig")
        | Some (JDict l) =>
            match dict_get l "inputfile" with
            | Some g => Ok [f; g]
            | None => Ok [f]
            end
        | Some label =>
            py_contains "inputfile" label
            ≫= fun has : bool =>
                 if has then py_getitem label "inputfile" ≫= fun g => Ok [f; g]
                 else Ok [f]
        end
    end.
Proof.
  intros He. unfold collect_inputfiles. simpl. rewrite He. simpl.
  destruct (dict_get e "inputfile") as [f|]; simpl; [|reflexivity].
  destruct (dict_get d "LabelMDConfig") as [label|]; simpl; [|reflexivity].
  destruct label as [ | b | z | x | s | items | fields]; simpl; try reflexivity.
  destruct (dict_get fields "inputfile"); reflexivity.
Qed.

(** X24: a [cv_file] entry of the [CV] section that is a list gives its
    members as the CV files, in order; one that is not a list stops the
    resubmission with [AssertionError], also when no other file was passed;
    a [CV] section without the entry gives no CV file. *)
Theorem cv_file_must_be_list (d cv : list (string * json))
    (inputfiles : list json) (otherfiles : option (list string)) :
  collect_inputfiles (JDict d) = Ok inputfiles ->
  dict_get d "CV" = Some (JDict cv) ->
  match dict_get cv "cv_file" with
  | Some (JList files) => collect_cvfiles (JDict d) = Ok files
  | Some _ =>
      file_artifacts (JDict d) otherfiles
      = Raise (AssertionError "CV file input should be list.")
  | None => collect_cvfiles (JDict d) = Ok []
  end.
Proof.
  intros Hin Hcv. unfold file_artifacts, collect_cvfiles. rewrite Hin.
  simpl. rewrite Hcv. simpl.
  destruct (dict_get cv "cv_file") as [v|]; simpl; [|reflexivity].
  destruct v; reflexivity.
Qed.

(** A configuration whose label section alone names an input file. *)
Definition label_only_config : list (string * json) :=
  [("ExploreMDConfig", JDict [("nsteps", JInt 50000)]);
   ("LabelMDConfig", JDict [("inputfile", JStr "label.mdp")]);
   ("CV", JDict [("mode", JStr "custom"); ("cv_file", JList [JStr "colvar.dat"])])].

(** A configuration that names both input files and one CV file. *)
Definition full_config : list (string * json) :=
  [("ExploreMDConfig", JDict [("inputfile", JStr "explore.mdp")]);
   ("LabelMDConfig", JDict [("inputfile", JStr "label.mdp")]);
   ("CV", JDict [("mode", JStr "custom"); ("cv_file", JList [JStr "colvar.dat"])])].

Definition given_files : list string :=
  ["/data/run/colvar.dat"; "notes.txt"; "/data/run/label.mdp"; "explore.mdp"].

Lemma otherfiles_classified_witness :
  file_artifacts (JDict full_config) (Some given_files)
  = Ok (Some ["/data/run/label.mdp"; "explore.mdp"], Some ["/data/run/colvar.dat"]).
Proof.
  exact (proj1 (otherfiles_classified (JDict full_config)
                  [JStr "explore.mdp"; JStr "label.mdp"] [JStr "colvar.dat"]
                  given_files eq_refl eq_refl)).
Defined.

(** A configuration that gives its CV file as a string. *)
Definition string_cv_config : list (string * json) :=
  [("ExploreMDConfig", JDict [("inputfile", JStr "explore.mdp")]);
   ("LabelMDConfig", JDict [("nsteps", JInt 50000)]);
   ("CV", JDict [("mode", JStr "custom"); ("cv_file", JStr "colvar.dat")])].

Lemma cv_file_must_be_list_witness :
  file_artifacts (JDict string_cv_config) None
  = Raise (AssertionError "CV file input should be list.").
Proof.
  exact (cv_file_must_be_list string_cv_config
           [("mode", JStr "custom"); ("cv_file", JStr "colvar.dat")]
           [JStr "explore.mdp"] None eq_refl eq_refl).
Defined.

Lemma inputfiles_of_config_witness :
  collect_inputfiles (JDict label_only_config) = Ok [].
Proof.
  exact (inputfiles_of_config label_only_config [("nsteps", JInt 50000)] eq_refl).
Defined.

End ResubmitFilesProps.
